(** * Credential and session core of the Cloudflare KV authentication SDK

    A shallow embedding of [client.go], [errors.go], the model types and the
    [internal/auth] service, together with the properties the specification
    states about registration, login, token validation and the two-key
    storage layout.

    Conventions.
    - Go strings and byte slices are [string]; [int], [time.Duration] and
      instants are [Z] (a duration and an instant count nanoseconds, the
      latter since the Unix epoch).  The one 64-bit multiplication of the
      program is wrapped explicitly ([wrap64]).
    - A Go function returning [(T, error)] returns a [Result T]; one
      returning only [error] returns [option error] ([None] is [nil]).
    - Everything outside the process (the remote KV namespace, the wall
      clock, the random source) lives in a [World] that is threaded through
      the code by a state monad. *)

From Stdlib Require Import ZArith String Ascii Bool List Lia DecimalString.
From stdpp Require Import gmap strings fin_maps.

Local Open Scope string_scope.
Local Open Scope Z_scope.

(** ** Errors ([errors.go]) *)

(** The package-level sentinel errors.  Each [errors.New] value is a
    distinct object, compared by identity. *)
Inductive Sentinel : Type :=
  | ErrInvalidConfig
  | ErrMissingRequiredConfig
  | ErrInvalidAuth
  | ErrUserNotFound
  | ErrUserAlreadyExists
  | ErrInvalidCredentials
  | ErrInvalidToken
  | ErrTokenExpired
  | ErrInvalidInput
  | ErrKVOperationFailed.

(** Errors of [github.com/golang-jwt/jwt/v5] that reach the program.  The
    library joins [ErrTokenInvalidClaims] with the time checks that failed;
    the two flags record which. *)
Inductive jwt_error : Type :=
  | jwt_ErrTokenMalformed
  | jwt_ErrTokenUnverifiable
  | jwt_ErrTokenSignatureInvalid
  | jwt_ErrInvalidKeyType
  | jwt_ErrTokenInvalidClaims (expired notValidYet : bool).

(** The sentinels of the [internal/errors] package: objects of their own,
    distinct from the ones above. *)
Inductive apperrors_Sentinel : Type :=
  | apperrors_ErrUserNotFound
  | apperrors_ErrUserAlreadyExists
  | apperrors_ErrInvalidCredentials
  | apperrors_ErrInvalidToken
  | apperrors_ErrTokenExpired
  | apperrors_ErrKVOperationFailed
  | apperrors_ErrInvalidInput.

Set Warnings "-register-all".

(** A Go [error] value.  [AppError] is the SDK's wrapper and
    [apperrors_AppError] the one of [internal/errors]; the remaining
    constructors are errors produced by collaborators: an [errors.New]
    value, a JWT library error, a failed request to the Cloudflare API with
    its HTTP status, and an error that wraps any number of others
    ([fmt.Errorf] with [%w] verbs, [errors.Join]). *)
Inductive error : Type :=
  | Sentinel_error (s : Sentinel)
  | apperrors_Sentinel_error (s : apperrors_Sentinel)
  | errors_New (text : string)
  | jwt_Error (e : jwt_error)
  | cloudflare_Error (StatusCode : Z)
  | fmt_Errorf (text : string) (wrapped : list error)
  | AppError (Op : string) (Err : error) (Message : string) (Code : Z)
  | apperrors_AppError (Op : string) (Err : error) (Message : string)
      (Code : Z).

Coercion Sentinel_error : Sentinel >-> error.
Coercion apperrors_Sentinel_error : apperrors_Sentinel >-> error.

Definition NewAppError (op : string) (err : error) (message : string)
    (code : Z) : error :=
  AppError op err message code.

Definition Sentinel_eqb (a b : Sentinel) : bool :=
  match a, b with
  | ErrInvalidConfig, ErrInvalidConfig
  | ErrMissingRequiredConfig, ErrMissingRequiredConfig
  | ErrInvalidAuth, ErrInvalidAuth
  | ErrUserNotFound, ErrUserNotFound
  | ErrUserAlreadyExists, ErrUserAlreadyExists
  | ErrInvalidCredentials, ErrInvalidCredentials
  | ErrInvalidToken, ErrInvalidToken
  | ErrTokenExpired, ErrTokenExpired
  | ErrInvalidInput, ErrInvalidInput
  | ErrKVOperationFailed, ErrKVOperationFailed => true
  | _, _ => false
  end.

(** [errors.Unwrap]: the error a wrapper of a single error wraps. *)
Definition Unwrap (e : error) : option error :=
  match e with
  | AppError _ err _ _ => Some err
  | apperrors_AppError _ err _ _ => Some err
  | fmt_Errorf _ [err] => Some err
  | _ => None
  end.

(** [errors.Is] against a sentinel: walk the tree of wrapped errors, depth
    first, looking for the sentinel itself. *)
Fixpoint errors_Is (err : error) (target : Sentinel) : bool :=
  match err with
  | Sentinel_error s => Sentinel_eqb s target
  | AppError _ inner _ _ => errors_Is inner target
  | apperrors_AppError _ inner _ _ => errors_Is inner target
  | fmt_Errorf _ wrapped =>
      (fix any (l : list error) : bool :=
         match l with
         | [] => false
         | e :: rest => errors_Is e target || any rest
         end) wrapped
  | _ => false
  end.

Definition IsUserNotFound (err : error) : bool := errors_Is err ErrUserNotFound.
Definition IsInvalidCredentials (err : error) : bool :=
  errors_Is err ErrInvalidCredentials.
Definition IsInvalidToken (err : error) : bool := errors_Is err ErrInvalidToken.

(** The [Code] field of a wrapper. *)
Definition error_Code (e : error) : option Z :=
  match e with
  | AppError _ _ _ code => Some code
  | apperrors_AppError _ _ _ code => Some code
  | _ => None
  end.

Inductive Result (A : Type) : Type :=
  | Ok (a : A)
  | Err (e : error).
Arguments Ok {A} a.
Arguments Err {A} e.

(** ** Key derivation ([client.go], [getUserKey] / [getUserIDKey]) *)

Definition getUserKey (email : string) : string :=
  "user:email:" ++ email.

Definition getUserIDKey (userID : string) : string :=
  "user:id:" ++ userID.

(** ** Data model (the SDK's model types) *)

Record User : Type := mkUser {
  ID : string;
  Email : string;
  PasswordHash : string;
  CreatedAt : Z;
  UpdatedAt : Z
}.

Record UserInfo : Type := mkUserInfo {
  info_ID : string;
  info_Email : string
}.

(** [jwt.RegisteredClaims]; a date that is absent from the token is [None]. *)
Record RegisteredClaims : Type := mkRegisteredClaims {
  Issuer : string;
  Subject : string;
  Audience : list string;
  ExpiresAt : option Z;
  NotBefore : option Z;
  IssuedAt : option Z;
  JTI : string
}.

Record Claims : Type := mkClaims {
  UserID : string;
  claims_Email : string;
  Registered : RegisteredClaims
}.

(** ** The world outside the process *)

(** What can go wrong with a request to the Cloudflare API.  [Failed e]:
    the call of the Cloudflare client returns [e] and the namespace is left
    untouched (no connection, an error status).  [Broken n e]: the request
    is carried out and the response arrives, but its body breaks off after
    [n] bytes, the read that follows ending with [e]. *)
Inductive Fault : Type :=
  | Failed (e : error)
  | Broken (n : nat) (e : error).

(** [kv] is the Workers KV namespace the client is bound to, by the names of
    its entries.  The three streams are what the environment will answer
    next: [faults 0] says what goes wrong with the next request to the
    Cloudflare API, if anything; [clock 0] is the next reading of the wall
    clock and [rand 0] the next draw from the random source.

    The Cloudflare client writes a key as it is, unescaped, into the path of
    the request URL.  [unsendable key] is the error with which it gives up
    on a key no request can be built for (a malformed escape or a control
    character in the URL), and [locate key] is the name of the entry the
    request for [key] reaches: the key itself for a key of plain characters,
    the entry of another key when a [?], a [#] or dot segments cut the path
    short or redirect it. *)
Record World : Type := mkWorld {
  kv : gmap string string;
  faults : nat -> option Fault;
  clock : nat -> Z;
  rand : nat -> string;
  locate : string -> string;
  unsendable : string -> option error
}.

Definition advance {A : Type} (s : nat -> A) : nat -> A := fun n => s (S n).

Definition M (A : Type) : Type := World -> A * World.

Definition ret {A : Type} (a : A) : M A := fun w => (a, w).

Definition bind {A B : Type} (m : M A) (f : A -> M B) : M B :=
  fun w => let (a, w') := m w in f a w'.

Notation "x <- c1 ;; c2" := (bind c1 (fun x => c2))
  (at level 100, c1 at next level, right associativity).

(** The world after one more request to the API, after a write to the
    namespace, after a reading of the clock and after a random draw. *)
Definition next_request (w : World) : World :=
  mkWorld (kv w) (advance (faults w)) (clock w) (rand w) (locate w)
    (unsendable w).

Definition with_kv (m : gmap string string) (w : World) : World :=
  mkWorld m (faults w) (clock w) (rand w) (locate w) (unsendable w).

Definition next_reading (w : World) : World :=
  mkWorld (kv w) (faults w) (advance (clock w)) (rand w) (locate w)
    (unsendable w).

Definition next_draw (w : World) : World :=
  mkWorld (kv w) (faults w) (clock w) (advance (rand w)) (locate w)
    (unsendable w).

(** [time.Now()] *)
Definition time_Now : M Z :=
  fun w => (clock w 0%nat, next_reading w).

(** One draw from [crypto/rand]. *)
Definition rand_Read : M string :=
  fun w => (rand w 0%nat, next_draw w).

(** [uuid.New().String()]: the drawn value stands for the formatted UUID. *)
Definition uuid_New : M string := rand_Read.

(** An [io.Reader], by what reading it delivers: chunks of bytes, then the
    end of the stream or an error. *)
Inductive Reader : Type :=
  | EOF
  | Chunk (data : string) (rest : Reader)
  | Fails (e : error).

(** [io.ReadAll]: read until the end of the stream or an error, and return
    the bytes read so far together with the error, if any. *)
Fixpoint io_ReadAll (r : Reader) : string * option error :=
  match r with
  | EOF => ("", None)
  | Fails e => ("", Some e)
  | Chunk data rest => let (more, e) := io_ReadAll rest in (data ++ more, e)
  end.

(** The body of the response to a read of an entry holding [value]. *)
Definition response_body (value : string) (f : option Fault) : Reader :=
  match f with
  | Some (Broken n e) => Chunk (String.substring 0 n value) (Fails e)
  | _ => Chunk value EOF
  end.

(** The error the Cloudflare client makes of a response whose body it
    could not read to the end itself. *)
Definition body_error (e : error) : error :=
  fmt_Errorf "error reading response body: %w" [e].

(** The Cloudflare client refuses a key before sending anything: the empty
    key, and a key it cannot build a request for. *)
Definition refusal (w : World) (key : string) : option error :=
  if String.eqb key "" then
    Some (errors_New "missing required key_name parameter")
  else unsendable w key.

(** The world after a call of the Cloudflare client for [key]: one request
    later, unless the client refused the key. *)
Definition sent (w : World) (key : string) : World :=
  match refusal w key with
  | Some _ => w
  | None => next_request w
  end.

(** The three requests of the Cloudflare Go SDK the client issues
    ([KV.Namespaces.Values.Get / Update / Delete]).  A read hands the
    response over with its body unread; a missing entry is answered with
    HTTP 404, which the Cloudflare client turns into an error after reading
    the answer itself.  The answer to a write is read by the Cloudflare
    client too: when it breaks off, the write has been carried out and the
    call returns an error. *)
Definition Values_Get (key : string) : M (Result Reader) :=
  fun w =>
    match refusal w key with
    | Some e => (Err e, w)
    | None =>
        match faults w 0%nat, kv w !! locate w key with
        | Some (Failed e), _ => (Err e, next_request w)
        | f, Some value => (Ok (response_body value f), next_request w)
        | Some (Broken _ e), None => (Err e, next_request w)
        | None, None => (Err (cloudflare_Error 404), next_request w)
        end
    end.

Definition Values_Update (key value : string) : M (option error) :=
  fun w =>
    match refusal w key with
    | Some e => (Some e, w)
    | None =>
        let written :=
          next_request (with_kv (<[locate w key := value]> (kv w)) w) in
        match faults w 0%nat with
        | Some (Failed e) => (Some e, next_request w)
        | Some (Broken _ e) => (Some (body_error e), written)
        | None => (None, written)
        end
    end.

Definition Values_Delete (key : string) : M (option error) :=
  fun w =>
    match refusal w key with
    | Some e => (Some e, w)
    | None =>
        let removed :=
          next_request (with_kv (delete (locate w key) (kv w)) w) in
        match faults w 0%nat with
        | Some (Failed e) => (Some e, next_request w)
        | Some (Broken _ e) => (Some (body_error e), removed)
        | None => (None, removed)
        end
    end.

(** ** The JWT library, as far as the client drives it

    A compact token is identified with its three decoded segments: the
    [alg] entry of the header (absent when the header has no string under
    that name), the claims, and the signature bytes.  Any other string is
    [Malformed]. *)
Inductive tokenString : Type :=
  | Malformed (raw : string)
  | Compact (alg : option string) (claims : Claims) (sig : string).

Inductive Hash : Type := SHA256 | SHA384 | SHA512.

(** The concrete types behind [jwt.SigningMethod]. *)
Inductive SigningMethod : Type :=
  | SigningMethodHMAC (h : Hash)
  | SigningMethodRSA (h : Hash)
  | SigningMethodRSAPSS (h : Hash)
  | SigningMethodECDSA (h : Hash)
  | SigningMethodEd25519
  | signingMethodNone.

Definition SigningMethodHS256 : SigningMethod := SigningMethodHMAC SHA256.
Definition SigningMethodHS384 : SigningMethod := SigningMethodHMAC SHA384.
Definition SigningMethodHS512 : SigningMethod := SigningMethodHMAC SHA512.

Definition Alg (m : SigningMethod) : string :=
  match m with
  | SigningMethodHMAC SHA256 => "HS256"
  | SigningMethodHMAC SHA384 => "HS384"
  | SigningMethodHMAC SHA512 => "HS512"
  | SigningMethodRSA SHA256 => "RS256"
  | SigningMethodRSA SHA384 => "RS384"
  | SigningMethodRSA SHA512 => "RS512"
  | SigningMethodRSAPSS SHA256 => "PS256"
  | SigningMethodRSAPSS SHA384 => "PS384"
  | SigningMethodRSAPSS SHA512 => "PS512"
  | SigningMethodECDSA SHA256 => "ES256"
  | SigningMethodECDSA SHA384 => "ES384"
  | SigningMethodECDSA SHA512 => "ES512"
  | SigningMethodEd25519 => "EdDSA"
  | signingMethodNone => "none"
  end.

(** The methods the library registers at start-up. *)
Definition registered_methods : list SigningMethod :=
  [ SigningMethodHS256; SigningMethodHS384; SigningMethodHS512;
    SigningMethodRSA SHA256; SigningMethodRSA SHA384; SigningMethodRSA SHA512;
    SigningMethodRSAPSS SHA256; SigningMethodRSAPSS SHA384;
    SigningMethodRSAPSS SHA512;
    SigningMethodECDSA SHA256; SigningMethodECDSA SHA384;
    SigningMethodECDSA SHA512;
    SigningMethodEd25519; signingMethodNone ].

(** [jwt.GetSigningMethod] *)
Definition GetSigningMethod (alg : string) : option SigningMethod :=
  List.find (fun m => String.eqb (Alg m) alg) registered_methods.

(** [jwt.Token] *)
Record Token : Type := mkToken {
  Method : SigningMethod;
  Header_alg : string;
  token_Claims : Claims;
  Signature : string;
  Valid : bool
}.

Definition second : Z := 1000000000.

(** [jwt.NewNumericDate]: the instant truncated to [jwt.TimePrecision],
    one second. *)
Definition NewNumericDate (t : Z) : Z := second * (t / second).

(** [jwt.NewWithClaims] *)
Definition NewWithClaims (m : SigningMethod) (c : Claims) : Token :=
  mkToken m (Alg m) c "" false.

(** ** Collaborating libraries

    The functions of [encoding/json], [golang.org/x/crypto/bcrypt] and
    [crypto/hmac] the client calls.  They are taken as they come: the
    properties below say which of their contracts they rely on.

    - [json_Marshal] / [json_Unmarshal]: the codec of a [User] record.
    - [bcrypt_GenerateFromPassword salt password cost]; the salt is the
      draw the library takes from the random source.
    - [bcrypt_CompareHashAndPassword hash password] is [None] on a match.
    - [hmac_Sum h key (alg, claims)]: the MAC, under hash [h] and [key], of
      the signing text of a token with that header and those claims. *)
Record Externals : Type := mkExternals {
  json_Marshal : User -> Result string;
  json_Unmarshal : string -> Result User;
  bcrypt_GenerateFromPassword : string -> string -> Z -> Result string;
  bcrypt_CompareHashAndPassword : string -> string -> option error;
  hmac_Sum : Hash -> string -> string * Claims -> string
}.

Definition bcrypt_DefaultCost : Z := 10.

Section Library.

Variable X : Externals.

(** [Sign] of a signing method, for the byte-slice key the client holds:
    only the HMAC family signs with such a key. *)
Definition Sign (m : SigningMethod) (text : string * Claims) (key : string)
    : Result string :=
  match m with
  | SigningMethodHMAC h => Ok (hmac_Sum X h key text)
  | _ => Err (jwt_Error jwt_ErrInvalidKeyType)
  end.

(** [Verify] of a signing method, again for a byte-slice key: the HMAC
    family recomputes the MAC and compares; every other method refuses the
    key. *)
Definition Verify (m : SigningMethod) (text : string * Claims)
    (sig key : string) : option error :=
  match m with
  | SigningMethodHMAC h =>
      if String.eqb sig (hmac_Sum X h key text) then None
      else Some (jwt_Error jwt_ErrTokenSignatureInvalid)
  | _ => Some (jwt_Error jwt_ErrInvalidKeyType)
  end.

(** [(Token).SignedString] *)
Definition SignedString (t : Token) (key : string) : Result tokenString :=
  match Sign (Method t) (Header_alg t, token_Claims t) key with
  | Ok sig => Ok (Compact (Some (Header_alg t)) (token_Claims t) sig)
  | Err e => Err e
  end.

(** [(Parser).ParseUnverified]: split and decode, then look the declared
    algorithm up among the registered methods. *)
Definition ParseUnverified (ts : tokenString) : Result Token :=
  match ts with
  | Malformed _ => Err (jwt_Error jwt_ErrTokenMalformed)
  | Compact None _ _ => Err (jwt_Error jwt_ErrTokenUnverifiable)
  | Compact (Some alg) c _ =>
      match GetSigningMethod alg with
      | None => Err (jwt_Error jwt_ErrTokenUnverifiable)
      | Some m => Ok (mkToken m alg c "" false)
      end
  end.

Definition signature_of (ts : tokenString) : string :=
  match ts with
  | Malformed _ => ""
  | Compact _ _ sig => sig
  end.

(** The two time checks of the default validator ([true]: the check
    passes).  A date that is absent from the claims is not checked; [exp]
    must lie strictly after the instant of validation and [nbf] must not. *)
Definition verifyExpiresAt (c : Claims) (now : Z) : bool :=
  match ExpiresAt (Registered c) with
  | Some exp => now <? exp
  | None => true
  end.

Definition verifyNotBefore (c : Claims) (now : Z) : bool :=
  match NotBefore (Registered c) with
  | Some nbf => negb (now <? nbf)
  | None => true
  end.

(** The default validator: one reading of the clock, then the two checks;
    [iat] is not checked. *)
Definition Validate (c : Claims) : M (option error) :=
  now <- time_Now ;;
  let okExp := verifyExpiresAt c now in
  let okNbf := verifyNotBefore c now in
  if okExp && okNbf then ret None
  else ret (Some (jwt_Error (jwt_ErrTokenInvalidClaims (negb okExp)
                               (negb okNbf)))).

(** [jwt.ParseWithClaims] with the default parser. *)
Definition ParseWithClaims (ts : tokenString)
    (keyFunc : Token -> Result string) : M (Result Token) :=
  match ParseUnverified ts with
  | Err e => ret (Err e)
  | Ok token0 =>
      let token :=
        mkToken (Method token0) (Header_alg token0) (token_Claims token0)
                (signature_of ts) false in
      match keyFunc token with
      | Err _ => ret (Err (jwt_Error jwt_ErrTokenUnverifiable))
      | Ok key =>
          match Verify (Method token) (Header_alg token, token_Claims token)
                       (Signature token) key with
          | Some _ => ret (Err (jwt_Error jwt_ErrTokenSignatureInvalid))
          | None =>
              v <- Validate (token_Claims token) ;;
              match v with
              | Some e => ret (Err e)
              | None =>
                  ret (Ok (mkToken (Method token) (Header_alg token)
                                   (token_Claims token) (Signature token)
                                   true))
              end
          end
      end
  end.

End Library.

(** ** Client construction ([ClientOptions], [NewClient]) *)

Record ClientOptions : Type := mkClientOptions {
  APIToken : string;
  APIKey : string;
  opt_Email : string;
  AccountID : string;
  NamespaceID : string;
  JWTSecret : string;
  JWTExpirationHours : Z
}.

Definition options_Validate (o : ClientOptions) : option error :=
  if String.eqb (AccountID o) "" then
    Some (errors_New "AccountID is required")
  else if String.eqb (NamespaceID o) "" then
    Some (errors_New "NamespaceID is required")
  else if String.eqb (JWTSecret o) "" then
    Some (errors_New "JWTSecret is required")
  else if String.eqb (APIToken o) ""
          && (String.eqb (APIKey o) "" || String.eqb (opt_Email o) "") then
    Some (errors_New "either APIToken or both APIKey and Email are required")
  else None.

(** The client; the handle on the Cloudflare API is the [World]. *)
Record Client : Type := mkClient {
  accountID : string;
  namespaceID : string;
  jwtSecret : string;
  jwtExpiry : Z
}.

(** Signed 64-bit wrap-around. *)
Definition wrap64 (z : Z) : Z := (z + 2 ^ 63) mod 2 ^ 64 - 2 ^ 63.

Definition time_Hour : Z := 3600 * second.

Definition NewClient (opts : option ClientOptions) : Result Client :=
  match opts with
  | None => Err ErrInvalidConfig
  | Some o =>
      match options_Validate o with
      | Some err => Err err
      | None =>
          let jwtExpiry0 := wrap64 (JWTExpirationHours o * time_Hour) in
          let jwtExpiry :=
            if jwtExpiry0 =? 0 then 24 * time_Hour else jwtExpiry0 in
          Ok (mkClient (AccountID o) (NamespaceID o) (JWTSecret o) jwtExpiry)
      end
  end.

(** ** The client ([client.go]) *)

Record LoginResponse : Type := mkLoginResponse {
  resp_Token : tokenString;
  resp_ExpiresAt : Z;
  resp_User : UserInfo
}.

(** [string(b)] for a byte slice that may be [nil]. *)
Definition string_of (b : option string) : string :=
  match b with
  | Some s => s
  | None => ""
  end.

(** [readAll] ([kv.go]) is [io.ReadAll]; the slice it returns is never
    [nil]. *)
Definition readAll (r : Reader) : option string * option error :=
  let (data, err) := io_ReadAll r in (Some data, err).

Section Sdk.

Variable X : Externals.

Definition toJSON (u : User) : Result string := json_Marshal X u.

Definition userFromJSON (data : string) : Result User := json_Unmarshal X data.

(** *** KV operation wrappers *)

Definition kvGet (c : Client) (key : string)
    : M (option string * option error) :=
  r <- Values_Get key ;;
  match r with
  | Err err => ret (None, Some err)
  | Ok resp_Body => ret (readAll resp_Body)
  end.

Definition kvSet (c : Client) (key value : string) : M (option error) :=
  Values_Update key value.

Definition kvDelete (c : Client) (key : string) : M (option error) :=
  Values_Delete key.

(** *** Storage of user records *)

Definition getUserByEmail (c : Client) (email : string) : M (Result User) :=
  let op := "Client.getUserByEmail" in
  let userKey := getUserKey email in
  r <- kvGet c userKey ;;
  match snd r with
  | Some _ => ret (Err (NewAppError op ErrUserNotFound "user not found" 404))
  | None => ret (userFromJSON (string_of (fst r)))
  end.

Definition saveUser (c : Client) (user : User) : M (option error) :=
  let op := "Client.saveUser" in
  match toJSON user with
  | Err err => ret (Some (NewAppError op err "failed to serialize user" 500))
  | Ok userData =>
      let userKey := getUserKey (Email user) in
      e1 <- kvSet c userKey userData ;;
      match e1 with
      | Some err => ret (Some (NewAppError op err "failed to save user" 500))
      | None =>
          let idKey := getUserIDKey (ID user) in
          e2 <- kvSet c idKey (Email user) ;;
          match e2 with
          | Some err =>
              ret (Some (NewAppError op err
                           "failed to save user ID mapping" 500))
          | None => ret None
          end
      end
  end.

(** *** Tokens *)

Definition keyFunc (c : Client) (token : Token) : Result string :=
  match Method token with
  | SigningMethodHMAC _ => Ok (jwtSecret c)
  | _ => Err (errors_New ("unexpected signing method: " ++ Header_alg token))
  end.

Definition parseToken (c : Client) (ts : tokenString) : M (Result Claims) :=
  let op := "Client.parseToken" in
  r <- ParseWithClaims X ts (keyFunc c) ;;
  match r with
  | Err err => ret (Err (NewAppError op err "invalid token" 401))
  | Ok token =>
      if negb (Valid token)
      then ret (Err (NewAppError op ErrInvalidToken "invalid token claims" 401))
      else ret (Ok (token_Claims token))
  end.

(** *** Public operations *)

Definition Register (c : Client) (email password : string) : M (Result User) :=
  let op := "Client.Register" in
  if String.eqb email "" || String.eqb password "" then
    ret (Err (NewAppError op ErrInvalidInput
                "email and password are required" 400))
  else
    let userKey := getUserKey email in
    probe <- kvGet c userKey ;;
    let existingData := fst probe in
    match existingData with
    | Some _ =>
        ret (Err (NewAppError op ErrUserAlreadyExists "user already exists" 409))
    | None =>
        salt <- rand_Read ;;
        match bcrypt_GenerateFromPassword X salt password bcrypt_DefaultCost with
        | Err err => ret (Err (NewAppError op err "failed to hash password" 500))
        | Ok passwordHash =>
            now <- time_Now ;;
            id <- uuid_New ;;
            let user := mkUser id email passwordHash now now in
            e <- saveUser c user ;;
            match e with
            | Some err => ret (Err err)
            | None => ret (Ok user)
            end
        end
    end.

Definition Login (c : Client) (email password : string)
    : M (Result LoginResponse) :=
  let op := "Client.Login" in
  if String.eqb email "" || String.eqb password "" then
    ret (Err (NewAppError op ErrInvalidInput
                "email and password are required" 400))
  else
    r <- getUserByEmail c email ;;
    match r with
    | Err _ => ret (Err (NewAppError op ErrUserNotFound "user not found" 404))
    | Ok user =>
        match bcrypt_CompareHashAndPassword X (PasswordHash user) password with
        | Some _ =>
            ret (Err (NewAppError op ErrInvalidCredentials
                        "invalid credentials" 401))
        | None =>
            t1 <- time_Now ;;
            let expiresAt := t1 + jwtExpiry c in
            t2 <- time_Now ;;
            t3 <- time_Now ;;
            let claims :=
              mkClaims (ID user) (Email user)
                (mkRegisteredClaims "" "" []
                   (Some (NewNumericDate expiresAt))
                   (Some (NewNumericDate t3))
                   (Some (NewNumericDate t2))
                   "") in
            let token := NewWithClaims SigningMethodHS256 claims in
            match SignedString X token (jwtSecret c) with
            | Err err =>
                ret (Err (NewAppError op err "failed to generate token" 500))
            | Ok tokenString =>
                ret (Ok (mkLoginResponse tokenString expiresAt
                           (mkUserInfo (ID user) (Email user))))
            end
        end
    end.

Definition GetUserByID (c : Client) (userID : string) : M (Result User) :=
  let op := "Client.GetUserByID" in
  let idKey := getUserIDKey userID in
  r <- kvGet c idKey ;;
  match snd r with
  | Some _ => ret (Err (NewAppError op ErrUserNotFound "user not found" 404))
  | None => getUserByEmail c (string_of (fst r))
  end.

Definition GetUserByEmail (c : Client) (email : string) : M (Result User) :=
  getUserByEmail c email.

Definition ValidateToken (c : Client) (ts : tokenString) : M (Result User) :=
  r <- parseToken c ts ;;
  match r with
  | Err err => ret (Err err)
  | Ok claims => GetUserByID c (UserID claims)
  end.

Definition DeleteUser (c : Client) (email : string) : M (option error) :=
  let op := "Client.DeleteUser" in
  r <- getUserByEmail c email ;;
  match r with
  | Err err => ret (Some err)
  | Ok user =>
      let userKey := getUserKey email in
      e1 <- kvDelete c userKey ;;
      match e1 with
      | Some err => ret (Some (NewAppError op err "failed to delete user" 500))
      | None =>
          let idKey := getUserIDKey (ID user) in
          e2 <- kvDelete c idKey ;;
          match e2 with
          | Some err =>
              ret (Some (NewAppError op err
                           "failed to delete user ID mapping" 500))
          | None => ret None
          end
      end
  end.

End Sdk.

(** The error every failed lookup is reported as, under the name of the
    operation that reports it. *)
Definition not_found (op : string) : error :=
  NewAppError op ErrUserNotFound "user not found" 404.

(** ** The earlier service ([internal/auth], [internal/kv])

    The KV wrapper of this package wraps every failure, of the request and
    of the reading of the response alike, and returns no data with it. *)
Module auth.

Record RegisterRequest : Type := mkRegisterRequest {
  req_Email : string;
  req_Password : string
}.

Record Service : Type := mkService {
  svc_jwtSecret : string;
  jwtExpiration : Z
}.

Definition NewService (jwtSecret : string) (expirationHours : Z) : Service :=
  mkService jwtSecret (wrap64 (expirationHours * time_Hour)).

Section Service.

Variable X : Externals.

Definition kv_Get (key : string) : M (option string * option error) :=
  let op := "kv.Get" in
  r <- Values_Get key ;;
  match r with
  | Err err =>
      ret (None,
           Some (apperrors_AppError op err ("failed to get key: " ++ key) 500))
  | Ok resp_Body =>
      match io_ReadAll resp_Body with
      | (_, Some err) =>
          ret (None,
               Some (apperrors_AppError op err
                       ("failed to read response for key: " ++ key) 500))
      | (value, None) => ret (Some value, None)
      end
  end.

Definition kv_Set (key value : string) : M (option error) :=
  let op := "kv.Set" in
  e <- Values_Update key value ;;
  match e with
  | Some err =>
      ret (Some (apperrors_AppError op err ("failed to set key: " ++ key) 500))
  | None => ret None
  end.

Definition getUserKey (s : Service) (email : string) : string :=
  "user:email:" ++ email.

Definition getUserIDKey (s : Service) (userID : string) : string :=
  "user:id:" ++ userID.

Definition Register (s : Service) (req : RegisterRequest) : M (Result User) :=
  let op := "auth.Register" in
  if String.eqb (req_Email req) "" || String.eqb (req_Password req) "" then
    ret (Err (apperrors_AppError op apperrors_ErrInvalidInput
                "email and password are required" 400))
  else
    let userKey := getUserKey s (req_Email req) in
    probe <- kv_Get userKey ;;
    let existingData := fst probe in
    match existingData with
    | Some _ =>
        ret (Err (apperrors_AppError op apperrors_ErrUserAlreadyExists
                    "user already exists" 409))
    | None =>
        salt <- rand_Read ;;
        match bcrypt_GenerateFromPassword X salt (req_Password req)
                bcrypt_DefaultCost with
        | Err err =>
            ret (Err (apperrors_AppError op err "failed to hash password" 500))
        | Ok passwordHash =>
            now <- time_Now ;;
            id <- uuid_New ;;
            let user := mkUser id (req_Email req) passwordHash now now in
            match json_Marshal X user with
            | Err err =>
                ret (Err (apperrors_AppError op err
                            "failed to serialize user" 500))
            | Ok userData =>
                e1 <- kv_Set userKey userData ;;
                match e1 with
                | Some err =>
                    ret (Err (apperrors_AppError op err
                                "failed to save user" 500))
                | None =>
                    let idKey := getUserIDKey s (ID user) in
                    e2 <- kv_Set idKey (req_Email req) ;;
                    match e2 with
                    | Some err =>
                        ret (Err (apperrors_AppError op err
                                    "failed to save user ID mapping" 500))
                    | None => ret (Ok user)
                    end
                end
            end
        end
    end.

(** [Delete] of the KV wrapper of this package. *)
Definition kv_Delete (key : string) : M (option error) :=
  let op := "kv.Delete" in
  e <- Values_Delete key ;;
  match e with
  | Some err =>
      ret (Some (apperrors_AppError op err ("failed to delete key: " ++ key)
                   500))
  | None => ret None
  end.

Definition FromJSON (data : string) : Result User := json_Unmarshal X data.

Definition ToUserInfo (u : User) : UserInfo := mkUserInfo (ID u) (Email u).

Record LoginRequest : Type := mkLoginRequest {
  login_Email : string;
  login_Password : string
}.

Definition Login (s : Service) (req : LoginRequest)
    : M (Result LoginResponse) :=
  let op := "auth.Login" in
  let email := login_Email req in
  let password := login_Password req in
  if String.eqb email "" || String.eqb password "" then
    ret (Err (apperrors_AppError op apperrors_ErrInvalidInput
                "email and password are required" 400))
  else
    let userKey := getUserKey s email in
    r <- kv_Get userKey ;;
    match snd r with
    | Some _ =>
        ret (Err (apperrors_AppError op apperrors_ErrUserNotFound
                    "user not found" 404))
    | None =>
        match FromJSON (string_of (fst r)) with
        | Err err =>
            ret (Err (apperrors_AppError op err
                        "failed to parse user data" 500))
        | Ok user =>
            match bcrypt_CompareHashAndPassword X (PasswordHash user)
                    password with
            | Some _ =>
                ret (Err (apperrors_AppError op apperrors_ErrInvalidCredentials
                            "invalid credentials" 401))
            | None =>
                t1 <- time_Now ;;
                let expiresAt := t1 + jwtExpiration s in
                t2 <- time_Now ;;
                t3 <- time_Now ;;
                let claims :=
                  mkClaims (ID user) (Email user)
                    (mkRegisteredClaims "" "" []
                       (Some (NewNumericDate expiresAt))
                       (Some (NewNumericDate t3))
                       (Some (NewNumericDate t2))
                       "") in
                let token := NewWithClaims SigningMethodHS256 claims in
                match SignedString X token (svc_jwtSecret s) with
                | Err err =>
                    ret (Err (apperrors_AppError op err
                                "failed to generate token" 500))
                | Ok tokenString =>
                    ret (Ok (mkLoginResponse tokenString expiresAt
                               (ToUserInfo user)))
                end
            end
        end
    end.

Definition keyFunc (s : Service) (token : Token) : Result string :=
  match Method token with
  | SigningMethodHMAC _ => Ok (svc_jwtSecret s)
  | _ => Err (errors_New ("unexpected signing method: " ++ Header_alg token))
  end.

(** [ValidateToken] of the service takes no context and returns the claims
    of the token. *)
Definition ValidateToken (s : Service) (ts : tokenString) : M (Result Claims) :=
  let op := "auth.ValidateToken" in
  r <- ParseWithClaims X ts (keyFunc s) ;;
  match r with
  | Err err => ret (Err (apperrors_AppError op err "invalid token" 401))
  | Ok token =>
      if negb (Valid token)
      then ret (Err (apperrors_AppError op apperrors_ErrInvalidToken
                       "invalid token claims" 401))
      else ret (Ok (token_Claims token))
  end.

Definition GetUser (s : Service) (email : string) : M (Result User) :=
  let op := "auth.GetUser" in
  let userKey := getUserKey s email in
  r <- kv_Get userKey ;;
  match snd r with
  | Some _ =>
      ret (Err (apperrors_AppError op apperrors_ErrUserNotFound
                  "user not found" 404))
  | None =>
      match FromJSON (string_of (fst r)) with
      | Err err =>
          ret (Err (apperrors_AppError op err "failed to parse user data" 500))
      | Ok user => ret (Ok user)
      end
  end.

Definition GetUserByID (s : Service) (userID : string) : M (Result User) :=
  let op := "auth.GetUserByID" in
  let idKey := getUserIDKey s userID in
  r <- kv_Get idKey ;;
  match snd r with
  | Some _ =>
      ret (Err (apperrors_AppError op apperrors_ErrUserNotFound
                  "user not found" 404))
  | None => GetUser s (string_of (fst r))
  end.

Definition DeleteUser (s : Service) (email : string) : M (option error) :=
  let op := "auth.DeleteUser" in
  r <- GetUser s email ;;
  match r with
  | Err err => ret (Some err)
  | Ok user =>
      let userKey := getUserKey s email in
      e1 <- kv_Delete userKey ;;
      match e1 with
      | Some err =>
          ret (Some (apperrors_AppError op err "failed to delete user" 500))
      | None =>
          let idKey := getUserIDKey s (ID user) in
          e2 <- kv_Delete idKey ;;
          match e2 with
          | Some err =>
              ret (Some (apperrors_AppError op err
                           "failed to delete user ID mapping" 500))
          | None => ret None
          end
      end
  end.

End Service.

End auth.

(** ** Worlds and values along a run

    Names for the intermediate states of the operations, used to state
    what a run leaves behind. *)

(** The world after both writes of [saveUser] went through. *)
Definition saved (user : User) (userData : string) (w : World) : World :=
  next_request
    (with_kv (<[locate w (getUserIDKey (ID user)) := Email user]>
                (<[locate w (getUserKey (Email user)) := userData]> (kv w)))
       (next_request w)).

(** The world after the first write went through and the second did not. *)
Definition half_saved (user : User) (userData : string) (w : World) : World :=
  next_request
    (next_request
       (with_kv (<[locate w (getUserKey (Email user)) := userData]> (kv w)) w)).

(** The record [Register] builds in world [w]: the probe took the first
    request, the hash the first draw, the identifier the second. *)
Definition new_user (email passwordHash : string) (w : World) : User :=
  mkUser (rand w 1%nat) email passwordHash (clock w 0%nat) (clock w 0%nat).

(** The world in which [Register] calls [saveUser]. *)
Definition before_save (w : World) : World :=
  next_draw (next_reading (next_draw (next_request w))).

(** The error of [parseToken] for a token whose key the key function
    withholds or whose algorithm the library does not know. *)
Definition rejected : error :=
  NewAppError "Client.parseToken" (jwt_Error jwt_ErrTokenUnverifiable)
    "invalid token" 401.

(** The claims [Login] builds for [user] when it starts reading the clock
    in world [w]: the expiry from the first reading, [iat] from the second
    and [nbf] from the third. *)
Definition login_claims (c : Client) (user : User) (w : World) : Claims :=
  mkClaims (ID user) (Email user)
    (mkRegisteredClaims "" "" []
       (Some (NewNumericDate (clock w 0%nat + jwtExpiry c)))
       (Some (NewNumericDate (clock w 2%nat)))
       (Some (NewNumericDate (clock w 1%nat)))
       "").

(** The HS256 token over given claims under the secret of the client. *)
Definition login_token (X : Externals) (c : Client) (claims : Claims)
    : tokenString :=
  Compact (Some "HS256") claims
    (hmac_Sum X SHA256 (jwtSecret c) ("HS256", claims)).

(** The world a successful [Login] returns: one request, three readings. *)
Definition after_login (w : World) : World :=
  next_reading (next_reading (next_reading (next_request w))).

(** A client with the secret and the lifetime of a service: what the two
    have in common when it comes to tokens. *)
Definition service_client (s : auth.Service) : Client :=
  mkClient "" "" (auth.svc_jwtSecret s) (auth.jwtExpiration s).

(** The world after both deletions of [DeleteUser] went through, its
    lookup having taken one request before them. *)
Definition deleted (email userID : string) (w : World) : World :=
  next_request
    (with_kv (delete (locate w (getUserIDKey userID))
                (delete (locate w (getUserKey email)) (kv w)))
       (next_request (next_request w))).

(** ** A reference instantiation

    A small, executable stand-in for the collaborating libraries and a
    world to run the client in; it serves to evaluate the statements below
    on concrete runs. *)
Module Ref.

Fixpoint split_on (sep : ascii) (s : string) : list string :=
  match s with
  | EmptyString => [EmptyString]
  | String a r =>
      if Ascii.eqb a sep then EmptyString :: split_on sep r
      else
        match split_on sep r with
        | h :: t => String a h :: t
        | [] => [String a EmptyString]
        end
  end.

Definition dec (z : Z) : string :=
  DecimalString.NilZero.string_of_int (Z.to_int z).

Definition undec (s : string) : option Z :=
  option_map Z.of_int (DecimalString.NilZero.int_of_string s).

Definition comma : string := ",".

Definition Marshal (u : User) : Result string :=
  Ok (ID u ++ comma ++ Email u ++ comma ++ PasswordHash u ++ comma
      ++ dec (CreatedAt u) ++ comma ++ dec (UpdatedAt u)).

Definition Unmarshal (data : string) : Result User :=
  match split_on "," data with
  | [i; e; h; c; u] =>
      match undec c, undec u with
      | Some c', Some u' => Ok (mkUser i e h c' u')
      | _, _ => Err (errors_New "invalid character")
      end
  | _ => Err (errors_New "unexpected end of JSON input")
  end.

Definition GenerateFromPassword (salt password : string) (cost : Z)
    : Result string :=
  if (72 <? Z.of_nat (String.length password))
  then Err (errors_New "bcrypt: password length exceeds 72 bytes")
  else Ok (salt ++ "$" ++ password).

Definition CompareHashAndPassword (hash password : string) : option error :=
  match split_on "$" hash with
  | [_; p] =>
      if String.eqb p password then None
      else Some (errors_New "crypto/bcrypt: hashedPassword is not the hash of the given password")
  | _ => Some (errors_New "crypto/bcrypt: hashedSecret too short to be a bcrypted password")
  end.

Definition hash_tag (h : Hash) : string :=
  match h with
  | SHA256 => "sha256"
  | SHA384 => "sha384"
  | SHA512 => "sha512"
  end.

Definition dec_opt (o : option Z) : string :=
  match o with
  | Some z => dec z
  | None => "-"
  end.

Definition Sum (h : Hash) (key : string) (text : string * Claims) : string :=
  let c := snd text in
  hash_tag h ++ ":" ++ key ++ ":" ++ fst text ++ ":" ++ UserID c ++ ":"
  ++ claims_Email c ++ ":" ++ dec_opt (ExpiresAt (Registered c)) ++ ":"
  ++ dec_opt (NotBefore (Registered c)) ++ ":"
  ++ dec_opt (IssuedAt (Registered c)).

Definition X : Externals :=
  mkExternals Marshal Unmarshal GenerateFromPassword CompareHashAndPassword Sum.

Definition options : ClientOptions :=
  mkClientOptions "api-token" "" "" "account" "namespace" "s3cr3t" 0.

Definition client : Client := mkClient "account" "namespace" "s3cr3t" (24 * time_Hour).

(** A clock that starts at 2023-11-14T22:13:20.5Z and advances by a quarter
    of a second per reading. *)
Definition ticking (n : nat) : Z :=
  1700000000500000000 + 250000000 * Z.of_nat n.

Definition draws (n : nat) : string :=
  match n with
  | O => "c2FsdA"
  | S O => "3f0c9e6a-7b1d-4c55-9a0e-2d6f1b8a4e10"
  | S (S O) => "c2FsdB"
  | _ => "9b2d7c11-0a4e-4f3b-8c6d-5e1f2a3b4c5d"
  end.

Definition no_faults : nat -> option Fault := fun _ => None.

(** The entry a key reaches when it is written unescaped into the path of
    a URL: what stands before the first [?] or [#]; the rest is read as a
    query or a fragment. *)
Fixpoint url_entry (key : string) : string :=
  match key with
  | EmptyString => EmptyString
  | String a r =>
      if Ascii.eqb a "?" || Ascii.eqb a "#" then EmptyString
      else String a (url_entry r)
  end.

Fixpoint has_percent (key : string) : bool :=
  match key with
  | EmptyString => false
  | String a r => Ascii.eqb a "%" || has_percent r
  end.

(** No request is built for a key with a percent sign (the stand-in takes
    none for a well-formed escape). *)
Definition url_refused (key : string) : option error :=
  if has_percent key then Some (errors_New "invalid URL escape") else None.

(** The world with a given namespace, faults, clock and draws, reached
    through URLs as above. *)
Definition world (m : gmap string string) (f : nat -> option Fault)
    (t : nat -> Z) (r : nat -> string) : World :=
  mkWorld m f t r url_entry url_refused.

(** An empty namespace behind an API that answers every request. *)
Definition w0 : World := world ∅ no_faults ticking draws.

(** The API fails the request numbered [k] (counting from zero) with HTTP
    503 and answers all others. *)
Definition fault_at (k : nat) : nat -> option Fault :=
  fun n => if Nat.eqb n k then Some (Failed (cloudflare_Error 503)) else None.

(** The response to the request numbered [k] breaks off after four bytes;
    all others arrive whole. *)
Definition cut_at (k : nat) : nat -> option Fault :=
  fun n =>
    if Nat.eqb n k then Some (Broken 4 (errors_New "unexpected EOF"))
    else None.

(** An empty namespace behind an API that fails request [k] only. *)
Definition w_fail (k : nat) : World := world ∅ (fault_at k) ticking draws.

(** An empty namespace behind an API whose answer to request [k] breaks
    off. *)
Definition w_break (k : nat) : World := world ∅ (cut_at k) ticking draws.

(** A namespace that already holds a record under the email of the
    scenario, behind an API whose next request fails. *)
Definition w_down : World :=
  world {[ getUserKey "a@x.com" := "stale" ]} (fault_at 0) ticking draws.

(** The same namespace behind an API whose next response breaks off. *)
Definition w_cut : World :=
  world {[ getUserKey "a@x.com" := "stale" ]} (cut_at 0) ticking draws.

(** A clock whose readings straddle the turn of a second: the first
    three fall just before it, at growing distance from one another, and
    every later one after it. *)
Definition straddling (n : nat) : Z :=
  match n with
  | O => 1700000000999999000
  | S O => 1700000000999999400
  | S (S O) => 1700000000999999800
  | _ => 1700000001000000200
  end.

(** The record the first registration of the scenario of the specification
    creates in [w0]. *)
Definition alice : User := new_user "a@x.com" "c2FsdA$Pw1!2345" w0.

Definition alice_json : string :=
  "3f0c9e6a-7b1d-4c55-9a0e-2d6f1b8a4e10,a@x.com,c2FsdA$Pw1!2345,1700000000500000000,1700000000500000000".

(** The namespace after that registration, behind an API that answers, with
    a clock of which the next two readings fall just before the turn of a
    second and the third after it. *)
Definition w_edge : World :=
  world (<[getUserIDKey (ID alice) := "a@x.com"]>
           (<[getUserKey "a@x.com" := alice_json]> ∅))
        no_faults (advance straddling) draws.

(** The same namespace under the ticking clock. *)
Definition w_registered : World :=
  world (<[getUserIDKey (ID alice) := "a@x.com"]>
           (<[getUserKey "a@x.com" := alice_json]> ∅))
        no_faults ticking draws.

(** The same namespace behind an API whose next request fails. *)
Definition w_registered_down : World :=
  world (<[getUserIDKey (ID alice) := "a@x.com"]>
           (<[getUserKey "a@x.com" := alice_json]> ∅))
        (fault_at 0) ticking draws.

(** Claims for that record, valid from 22:13:20 on the day of the reference
    clock for 24 hours. *)
Definition alice_claims : Claims :=
  mkClaims (ID alice) "a@x.com"
    (mkRegisteredClaims "" "" []
       (Some 1700086400000000000) (Some 1700000000000000000)
       (Some 1700000000000000000) "").

(** A token over those claims that declares [alg] and carries the MAC of
    hash [h] under the secret of the client. *)
Definition signed (alg : string) (h : Hash) : tokenString :=
  Compact (Some alg) alice_claims
    (hmac_Sum X h (jwtSecret client) (alg, alice_claims)).

(** Options that ask for a negative lifetime, and the client [NewClient]
    makes of them. *)
Definition options_neg : ClientOptions :=
  mkClientOptions "api-token" "" "" "account" "namespace" "s3cr3t" (-1).

Definition client_neg : Client :=
  mkClient "account" "namespace" "s3cr3t" (- time_Hour).

End Ref.

(** ** The public KV operations ([kv.go]) *)

Record KVWriteOptions : Type := mkKVWriteOptions {
  ExpirationTTL : Z;
  Metadata : string
}.

(** The parameters of an update request, as far as [KVSet] fills them;
    [ExpirationTTL] is the number the code converts to a float. *)
Record UpdateParams : Type := mkUpdateParams {
  param_Value : string;
  param_ExpirationTTL : option Z;
  param_Metadata : option string
}.

(** The update request with its parameters.  The namespace records the
    value; what the store later does with a time to live and with metadata
    is not part of the world. *)
Definition Values_UpdateWith (key : string) (p : UpdateParams)
    : M (option error) :=
  Values_Update key (param_Value p).

(** The bulk deletion request ([KV.Namespaces.Keys.BulkDelete]): one
    request that removes the entries named in its body. *)
Definition Keys_BulkDelete (keys : list string) : M (option error) :=
  fun w =>
    let removed :=
      next_request
        (with_kv (List.fold_right (fun k m => delete k m) (kv w) keys) w) in
    match faults w 0%nat with
    | Some (Failed e) => (Some e, next_request w)
    | Some (Broken _ e) => (Some (body_error e), removed)
    | None => (None, removed)
    end.

Definition KVGet (c : Client) (key : string) : M (Result string) :=
  let op := "Client.KVGet" in
  r <- Values_Get key ;;
  match r with
  | Err err => ret (Err (NewAppError op err ("failed to get key: " ++ key) 500))
  | Ok resp_Body =>
      match readAll resp_Body with
      | (_, Some err) =>
          ret (Err (NewAppError op err
                      ("failed to read response for key: " ++ key) 500))
      | (value, None) => ret (Ok (string_of value))
      end
  end.

Definition KVSet (c : Client) (key value : string)
    (opts : option KVWriteOptions) : M (option error) :=
  let op := "Client.KVSet" in
  let params0 := mkUpdateParams value None None in
  let params :=
    match opts with
    | None => params0
    | Some o =>
        let p1 :=
          if 0 <? ExpirationTTL o
          then mkUpdateParams (param_Value params0) (Some (ExpirationTTL o))
                 (param_Metadata params0)
          else params0 in
        if negb (String.eqb (Metadata o) "")
        then mkUpdateParams (param_Value p1) (param_ExpirationTTL p1)
               (Some (Metadata o))
        else p1
    end in
  e <- Values_UpdateWith key params ;;
  match e with
  | Some err => ret (Some (NewAppError op err ("failed to set key: " ++ key) 500))
  | None => ret None
  end.

Definition KVDelete (c : Client) (key : string) : M (option error) :=
  let op := "Client.KVDelete" in
  e <- Values_Delete key ;;
  match e with
  | Some err =>
      ret (Some (NewAppError op err ("failed to delete key: " ++ key) 500))
  | None => ret None
  end.

Definition KVDeleteBulk (c : Client) (keys : list string) : M (option error) :=
  let op := "Client.KVDeleteBulk" in
  e <- Keys_BulkDelete keys ;;
  match e with
  | Some err => ret (Some (NewAppError op err "failed to delete keys in bulk" 500))
  | None => ret None
  end.

(** ** The HTTP server ([cmd/server/main.go])

    A request is reduced to what the handlers read of it: the method, the
    value of the [Authorization] header (empty when the header is absent),
    the body and the values attached to its context, newest first.  A
    response is its status and what was written as its body. *)

Record Request : Type := mkRequest {
  req_Method : string;
  req_Authorization : string;
  req_Body : string;
  req_Context : list (string * string)
}.

Inductive Payload : Type :=
  | PlainText (msg : string)
  | ErrorJSON (msg : string)
  | RegisteredJSON (user : UserInfo)
  | LoginJSON (resp : LoginResponse)
  | ValidJSON (user_id email : string)
  | UserInfoJSON (user : UserInfo)
  | HealthJSON.

Record Response : Type := mkResponse {
  Status : Z;
  Body : Payload
}.

(** [strings.Split] with a separator of one character. *)
Fixpoint strings_Split (s : string) (sep : ascii) : list string :=
  match s with
  | EmptyString => [EmptyString]
  | String a r =>
      if Ascii.eqb a sep then EmptyString :: strings_Split r sep
      else
        match strings_Split r sep with
        | h :: t => String a h :: t
        | [] => [String a EmptyString]
        end
  end.

(** Whether a character occurs in a string. *)
Fixpoint occurs (a : ascii) (s : string) : bool :=
  match s with
  | EmptyString => false
  | String b r => Ascii.eqb b a || occurs a r
  end.

(** [context.WithValue] and the [Value] method, for string keys and
    values. *)
Definition WithValue (ctx : list (string * string)) (key value : string)
    : list (string * string) :=
  (key, value) :: ctx.

Definition ctx_Value (ctx : list (string * string)) (key : string)
    : option string :=
  option_map snd (List.find (fun p => String.eqb (fst p) key) ctx).

(** [errors.As] with a target of the wrapper type of [internal/errors]:
    the message and the code of the first such wrapper in the tree of
    wrapped errors, depth first. *)
Fixpoint errors_As_AppError (e : error) : option (string * Z) :=
  match e with
  | apperrors_AppError _ _ message code => Some (message, code)
  | AppError _ inner _ _ => errors_As_AppError inner
  | fmt_Errorf _ wrapped =>
      (fix first (l : list error) : option (string * Z) :=
         match l with
         | [] => None
         | x :: rest =>
             match errors_As_AppError x with
             | Some found => Some found
             | None => first rest
             end
         end) wrapped
  | _ => None
  end.

(** What the handlers take from the wire: the decoders of the three
    request bodies, and the token a string spells out. *)
Record Wire : Type := mkWire {
  decode_RegisterRequest : string -> Result auth.RegisterRequest;
  decode_LoginRequest : string -> Result auth.LoginRequest;
  decode_TokenRequest : string -> Result string;
  compact : string -> tokenString
}.

Record Server : Type := mkServer {
  authService : auth.Service
}.

(** A handler answers, or panics ([None]) and leaves the request without a
    response. *)
Definition Handler : Type := Request -> M (option Response).

Section Handlers.

Variable X : Externals.
Variable W : Wire.

Definition http_Error (msg : string) (code : Z) : M (option Response) :=
  ret (Some (mkResponse code (PlainText msg))).

Definition respondJSON (status : Z) (data : Payload) : M (option Response) :=
  ret (Some (mkResponse status data)).

Definition handleError (err : error) : M (option Response) :=
  match errors_As_AppError err with
  | Some (message, code) => respondJSON code (ErrorJSON message)
  | None => respondJSON 500 (ErrorJSON "Internal server error")
  end.

Definition handleRegister (s : Server) : Handler :=
  fun r =>
    if negb (String.eqb (req_Method r) "POST") then
      http_Error "Method not allowed" 405
    else
      match decode_RegisterRequest W (req_Body r) with
      | Err _ => http_Error "Invalid request body" 400
      | Ok req =>
          res <- auth.Register X (authService s) req ;;
          match res with
          | Err err => handleError err
          | Ok user => respondJSON 201 (RegisteredJSON (auth.ToUserInfo user))
          end
      end.

Definition handleLogin (s : Server) : Handler :=
  fun r =>
    if negb (String.eqb (req_Method r) "POST") then
      http_Error "Method not allowed" 405
    else
      match decode_LoginRequest W (req_Body r) with
      | Err _ => http_Error "Invalid request body" 400
      | Ok req =>
          res <- auth.Login X (authService s) req ;;
          match res with
          | Err err => handleError err
          | Ok loginResp => respondJSON 200 (LoginJSON loginResp)
          end
      end.

Definition handleValidate (s : Server) : Handler :=
  fun r =>
    if negb (String.eqb (req_Method r) "POST") then
      http_Error "Method not allowed" 405
    else
      match decode_TokenRequest W (req_Body r) with
      | Err _ => http_Error "Invalid request body" 400
      | Ok token =>
          res <- auth.ValidateToken X (authService s) (compact W token) ;;
          match res with
          | Err err => handleError err
          | Ok claims =>
              respondJSON 200 (ValidJSON (UserID claims) (claims_Email claims))
          end
      end.

Definition handleGetUser (s : Server) : Handler :=
  fun r =>
    if negb (String.eqb (req_Method r) "GET") then
      http_Error "Method not allowed" 405
    else
      match ctx_Value (req_Context r) "user_id" with
      | None => ret None
      | Some userID =>
          res <- auth.GetUserByID X (authService s) userID ;;
          match res with
          | Err err => handleError err
          | Ok user => respondJSON 200 (UserInfoJSON (auth.ToUserInfo user))
          end
      end.

Definition handleHealth (s : Server) : Handler :=
  fun r => respondJSON 200 HealthJSON.

Definition authMiddleware (s : Server) (next : Handler) : Handler :=
  fun r =>
    let authHeader := req_Authorization r in
    if String.eqb authHeader "" then
      http_Error "Authorization header required" 401
    else
      match strings_Split authHeader " " with
      | [bearer; token] =>
          if negb (String.eqb bearer "Bearer") then
            http_Error "Invalid authorization header format" 401
          else
            res <- auth.ValidateToken X (authService s) (compact W token) ;;
            match res with
            | Err err => handleError err
            | Ok claims =>
                let ctx := WithValue (req_Context r) "user_id" (UserID claims) in
                let ctx := WithValue ctx "email" (claims_Email claims) in
                next (mkRequest (req_Method r) (req_Authorization r)
                        (req_Body r) ctx)
            end
      | _ => http_Error "Invalid authorization header format" 401
      end.

(** The route [/user], as [main] registers it. *)
Definition route_user (s : Server) : Handler :=
  authMiddleware s (handleGetUser s).

End Handlers.

(** An error that is a wrapper of [internal/errors] with one of the given
    codes. *)
Definition wrapped_with (codes : list Z) (e : error) : Prop :=
  exists (op : string) (inner : error) (message : string) (code : Z),
    e = apperrors_AppError op inner message code /\ In code codes.

(** ** Configuration of the server ([internal/config]) *)

Record Config : Type := mkConfig {
  CloudflareAPIKey : string;
  CloudflareEmail : string;
  CloudflareAPIToken : string;
  cfg_AccountID : string;
  cfg_NamespaceID : string;
  cfg_JWTSecret : string;
  JWTExpiration : Z;
  ServerPort : string
}.

Definition config_Validate (cfg : Config) : option error :=
  if String.eqb (CloudflareAPIToken cfg) ""
     && (String.eqb (CloudflareAPIKey cfg) ""
         || String.eqb (CloudflareEmail cfg) "") then
    Some (errors_New
            "cloudflare authentication required: either API_TOKEN or (API_KEY + EMAIL)")
  else if String.eqb (cfg_AccountID cfg) "" then
    Some (errors_New "CLOUDFLARE_ACCOUNT_ID is required")
  else if String.eqb (cfg_NamespaceID cfg) "" then
    Some (errors_New "CLOUDFLARE_NAMESPACE_ID is required")
  else if String.eqb (cfg_JWTSecret cfg) "" then
    Some (errors_New "JWT_SECRET is required")
  else None.

(** The environment, as [os.Getenv] reads it once the [.env] file, if any,
    has been loaded: a variable that is not set reads as the empty
    string. *)
Definition Env : Type := string -> string.

Definition getEnvOrDefault (env : Env) (key defaultValue : string) : string :=
  if negb (String.eqb (env key) "") then env key else defaultValue.

Definition LoadConfig (env : Env) : Result Config :=
  let cfg0 :=
    mkConfig (env "CLOUDFLARE_API_KEY") (env "CLOUDFLARE_EMAIL")
      (env "CLOUDFLARE_API_TOKEN") (env "CLOUDFLARE_ACCOUNT_ID")
      (env "CLOUDFLARE_NAMESPACE_ID") (env "JWT_SECRET") 0
      (getEnvOrDefault env "SERVER_PORT" "8080") in
  let cfg :=
    mkConfig (CloudflareAPIKey cfg0) (CloudflareEmail cfg0)
      (CloudflareAPIToken cfg0) (cfg_AccountID cfg0) (cfg_NamespaceID cfg0)
      (cfg_JWTSecret cfg0) 24 (ServerPort cfg0) in
  match config_Validate cfg with
  | Some err => Err err
  | None => Ok cfg
  end.

(** * Properties *)

(** ** Stepping through the state monad *)

Lemma bind_eq {A B : Type} (m : M A) (f : A -> M B) (w w' : World) (a : A) :
  m w = (a, w') -> bind m f w = f a w'.
Proof. intros H. unfold bind. rewrite H. reflexivity. Qed.

Lemma advance_at {A : Type} (s : nat -> A) (n : nat) : advance s n = s (S n).
Proof. reflexivity. Qed.

Lemma eqb_empty_false (s : string) : s <> "" -> String.eqb s "" = false.
Proof. intros H. apply String.eqb_neq. exact H. Qed.

Lemma guard_passes (email password : string) :
  email <> "" -> password <> "" ->
  String.eqb email "" || String.eqb password "" = false.
Proof.
  intros He Hp. rewrite (eqb_empty_false _ He), (eqb_empty_false _ Hp).
  reflexivity.
Qed.

Lemma guard_rejects (email password : string) :
  email = "" \/ password = "" ->
  String.eqb email "" || String.eqb password "" = true.
Proof.
  intros [-> | ->]; [reflexivity |].
  rewrite String.eqb_refl. apply orb_true_r.
Qed.

(** ** Keys *)

Lemma getUserKey_inj (e1 e2 : string) : getUserKey e1 = getUserKey e2 -> e1 = e2.
Proof. unfold getUserKey. cbn. intros H. injection H. auto. Qed.

Lemma getUserIDKey_inj (i1 i2 : string) :
  getUserIDKey i1 = getUserIDKey i2 -> i1 = i2.
Proof. unfold getUserIDKey. cbn. intros H. injection H. auto. Qed.

Lemma keys_disjoint (email userID : string) :
  getUserKey email <> getUserIDKey userID.
Proof. unfold getUserKey, getUserIDKey. cbn. intros H. discriminate H. Qed.

Lemma append_empty_r (s : string) : s ++ "" = s.
Proof.
  induction s as [| a s IH]; [reflexivity |].
  change (String a s ++ "") with (String a (s ++ "")). rewrite IH. reflexivity.
Qed.

Lemma sent_sendable (w : World) (key : string) :
  refusal w key = None -> sent w key = next_request w.
Proof. intros H. unfold sent. rewrite H. reflexivity. Qed.

Lemma sent_kv (w : World) (key : string) : kv (sent w key) = kv w.
Proof. unfold sent. destruct (refusal w key); reflexivity. Qed.

Lemma refusal_sent (w : World) (key key' : string) :
  refusal (sent w key) key' = refusal w key'.
Proof. unfold sent. destruct (refusal w key); reflexivity. Qed.

Lemma locate_sent (w : World) (key : string) : locate (sent w key) = locate w.
Proof. unfold sent. destruct (refusal w key); reflexivity. Qed.

Section Facts.

Variable X : Externals.
Variable c : Client.

(** ** The KV wrappers *)

Lemma kvGet_refused (key : string) (w : World) (e : error) :
  refusal w key = Some e -> kvGet c key w = ((None, Some e), w).
Proof. intros R. unfold kvGet, bind, Values_Get. rewrite R. reflexivity. Qed.

Lemma kvGet_failed (key : string) (w : World) (e : error) :
  refusal w key = None -> faults w 0%nat = Some (Failed e) ->
  kvGet c key w = ((None, Some e), next_request w).
Proof.
  intros R H. unfold kvGet, bind, Values_Get. rewrite R, H. reflexivity.
Qed.

Lemma kvGet_hit (key body : string) (w : World) :
  refusal w key = None -> faults w 0%nat = None ->
  kv w !! locate w key = Some body ->
  kvGet c key w = ((Some body, None), next_request w).
Proof.
  intros R H Hk. unfold kvGet, bind, Values_Get. rewrite R, H, Hk.
  cbn. rewrite append_empty_r. reflexivity.
Qed.

Lemma kvGet_miss (key : string) (w : World) :
  refusal w key = None -> faults w 0%nat = None ->
  kv w !! locate w key = None ->
  kvGet c key w = ((None, Some (cloudflare_Error 404)), next_request w).
Proof.
  intros R H Hk. unfold kvGet, bind, Values_Get. rewrite R, H, Hk.
  reflexivity.
Qed.

(** A response whose body breaks off: the bytes read so far come back
    together with the error of the read. *)
Lemma kvGet_broken (key body : string) (w : World) (n : nat) (e : error) :
  refusal w key = None -> faults w 0%nat = Some (Broken n e) ->
  kv w !! locate w key = Some body ->
  kvGet c key w = ((Some (String.substring 0 n body), Some e), next_request w).
Proof.
  intros R H Hk. unfold kvGet, bind, Values_Get. rewrite R, H, Hk.
  cbn. rewrite append_empty_r. reflexivity.
Qed.

(** A read sends at most one request and changes nothing else; it fails,
    or it returns the value of the entry its key leads to. *)
Lemma kvGet_cases (key : string) (w : World) :
  snd (kvGet c key w) = sent w key /\
  ((exists e, snd (fst (kvGet c key w)) = Some e) \/
   (exists body, fst (kvGet c key w) = (Some body, None) /\
                 refusal w key = None /\ faults w 0%nat = None /\
                 kv w !! locate w key = Some body)).
Proof.
  unfold sent. destruct (refusal w key) as [r|] eqn:R.
  - rewrite (kvGet_refused _ _ _ R). split; [reflexivity | left; eauto].
  - destruct (kv w !! locate w key) as [body|] eqn:K;
      destruct (faults w 0%nat) as [[e | n e]|] eqn:F.
    + rewrite (kvGet_failed _ _ _ R F). split; [reflexivity | left; eauto].
    + rewrite (kvGet_broken _ _ _ _ _ R F K).
      split; [reflexivity | left; eauto].
    + rewrite (kvGet_hit _ _ _ R F K). split; [reflexivity | right; eauto].
    + rewrite (kvGet_failed _ _ _ R F). split; [reflexivity | left; eauto].
    + unfold kvGet, bind, Values_Get. rewrite R, F, K.
      split; [reflexivity | left; eauto].
    + rewrite (kvGet_miss _ _ R F K). split; [reflexivity | left; eauto].
Qed.

Lemma kvGet_world (key : string) (w : World) :
  snd (kvGet c key w) = sent w key.
Proof. exact (proj1 (kvGet_cases key w)). Qed.

(** Where the key leads to no entry, a read returns an error and no
    data. *)
Lemma kvGet_absent (key : string) (w : World) :
  kv w !! locate w key = None ->
  exists e, fst (kvGet c key w) = (None, Some e).
Proof.
  intros K. unfold kvGet, bind, Values_Get.
  destruct (refusal w key) as [r|]; [eexists; reflexivity |].
  rewrite K. destruct (faults w 0%nat) as [[e | n e]|]; eexists; reflexivity.
Qed.

Lemma kvSet_ok (key value : string) (w : World) :
  refusal w key = None -> faults w 0%nat = None ->
  kvSet c key value w =
    (None, next_request (with_kv (<[locate w key := value]> (kv w)) w)).
Proof.
  intros R H. unfold kvSet, Values_Update. rewrite R, H. reflexivity.
Qed.

Lemma kvSet_failed (key value : string) (w : World) (e : error) :
  refusal w key = None -> faults w 0%nat = Some (Failed e) ->
  kvSet c key value w = (Some e, next_request w).
Proof.
  intros R H. unfold kvSet, Values_Update. rewrite R, H. reflexivity.
Qed.

(** A write whose answer breaks off has been carried out. *)
Lemma kvSet_broken (key value : string) (w : World) (n : nat) (e : error) :
  refusal w key = None -> faults w 0%nat = Some (Broken n e) ->
  kvSet c key value w =
    (Some (body_error e),
     next_request (with_kv (<[locate w key := value]> (kv w)) w)).
Proof.
  intros R H. unfold kvSet, Values_Update. rewrite R, H. reflexivity.
Qed.

Lemma kvSet_None_inv (key value : string) (w w' : World) :
  kvSet c key value w = (None, w') ->
  refusal w key = None /\ faults w 0%nat = None /\
  w' = next_request (with_kv (<[locate w key := value]> (kv w)) w).
Proof.
  unfold kvSet, Values_Update.
  destruct (refusal w key) as [r|]; [intros H; discriminate H |].
  destruct (faults w 0%nat) as [[e | n e]|]; intros H; try discriminate H.
  injection H as <-. auto.
Qed.

(** A write touches no entry but the one its key leads to. *)
Lemma kvSet_kv (key value : string) (w : World) (t : string) :
  t <> locate w key ->
  kv (snd (kvSet c key value w)) !! t = kv w !! t.
Proof.
  intros Ht. unfold kvSet, Values_Update.
  destruct (refusal w key) as [r|]; [reflexivity |].
  destruct (faults w 0%nat) as [[e | n e]|]; cbn;
    try reflexivity; apply lookup_insert_ne; auto.
Qed.

Lemma kvSet_world (key value : string) (w : World) :
  locate (snd (kvSet c key value w)) = locate w /\
  unsendable (snd (kvSet c key value w)) = unsendable w /\
  faults (snd (kvSet c key value w)) = faults (sent w key).
Proof.
  unfold kvSet, Values_Update, sent.
  destruct (refusal w key) as [r|]; [auto |].
  destruct (faults w 0%nat) as [[e | n e]|]; auto.
Qed.

Lemma kvDelete_ok (key : string) (w : World) :
  refusal w key = None -> faults w 0%nat = None ->
  kvDelete c key w =
    (None, next_request (with_kv (delete (locate w key) (kv w)) w)).
Proof.
  intros R H. unfold kvDelete, Values_Delete. rewrite R, H. reflexivity.
Qed.

Lemma kvDelete_failed (key : string) (w : World) (e : error) :
  refusal w key = None -> faults w 0%nat = Some (Failed e) ->
  kvDelete c key w = (Some e, next_request w).
Proof.
  intros R H. unfold kvDelete, Values_Delete. rewrite R, H. reflexivity.
Qed.

Lemma kvDelete_None_inv (key : string) (w w' : World) :
  kvDelete c key w = (None, w') ->
  refusal w key = None /\ faults w 0%nat = None /\
  w' = next_request (with_kv (delete (locate w key) (kv w)) w).
Proof.
  unfold kvDelete, Values_Delete.
  destruct (refusal w key) as [r|]; [intros H; discriminate H |].
  destruct (faults w 0%nat) as [[e | n e]|]; intros H; try discriminate H.
  injection H as <-. auto.
Qed.

(** ** Fetching a record *)

Lemma getUserByEmail_hit (email body : string) (w : World) :
  refusal w (getUserKey email) = None -> faults w 0%nat = None ->
  kv w !! locate w (getUserKey email) = Some body ->
  getUserByEmail X c email w = (userFromJSON X body, next_request w).
Proof.
  intros R F K. unfold getUserByEmail.
  rewrite (bind_eq _ _ _ _ _ (kvGet_hit _ _ _ R F K)). reflexivity.
Qed.

Lemma getUserByEmail_cases (email : string) (w : World) :
  snd (getUserByEmail X c email w) = sent w (getUserKey email) /\
  (fst (getUserByEmail X c email w) = Err (not_found "Client.getUserByEmail") \/
   exists body,
     refusal w (getUserKey email) = None /\ faults w 0%nat = None /\
     kv w !! locate w (getUserKey email) = Some body /\
     fst (getUserByEmail X c email w) = userFromJSON X body).
Proof.
  destruct (kvGet_cases (getUserKey email) w)
    as [Hw [[e He] | [body [Hb [R [F K]]]]]].
  - unfold getUserByEmail, bind.
    destruct (kvGet c (getUserKey email) w) as [r w'].
    cbn in He, Hw. subst. rewrite He. cbn.
    split; [reflexivity | left; reflexivity].
  - rewrite (getUserByEmail_hit _ _ _ R F K). cbn.
    rewrite (sent_sendable _ _ R). split; [reflexivity |].
    right. exists body. auto.
Qed.

(** A lookup whose read fails, for whatever reason, reports
    [ErrUserNotFound]. *)
Lemma getUserByEmail_failed (email : string) (w : World) (e : error) :
  snd (fst (kvGet c (getUserKey email) w)) = Some e ->
  getUserByEmail X c email w =
    (Err (not_found "Client.getUserByEmail"), sent w (getUserKey email)).
Proof.
  intros He. unfold getUserByEmail, bind.
  pose proof (kvGet_world (getUserKey email) w) as Hw.
  destruct (kvGet c (getUserKey email) w) as [r w']. cbn in He, Hw.
  subst w'. rewrite He. reflexivity.
Qed.

End Facts.

Section Registration.

Variable X : Externals.
Variable c : Client.

(** ** Saving a record *)

Lemma saveUser_ok (user : User) (data : string) (w : World) :
  toJSON X user = Ok data ->
  refusal w (getUserKey (Email user)) = None ->
  refusal w (getUserIDKey (ID user)) = None ->
  faults w 0%nat = None -> faults w 1%nat = None ->
  saveUser X c user w = (None, saved user data w).
Proof.
  intros J R1 R2 F0 F1. unfold saveUser. rewrite J.
  rewrite (bind_eq _ _ _ _ _ (kvSet_ok c _ _ _ R1 F0)).
  erewrite bind_eq; [| apply kvSet_ok; [exact R2 | exact F1]]. reflexivity.
Qed.

Lemma saveUser_index_failed (user : User) (data : string) (w : World)
    (e : error) :
  toJSON X user = Ok data ->
  refusal w (getUserKey (Email user)) = None ->
  refusal w (getUserIDKey (ID user)) = None ->
  faults w 0%nat = None -> faults w 1%nat = Some (Failed e) ->
  saveUser X c user w =
    (Some (NewAppError "Client.saveUser" e "failed to save user ID mapping" 500),
     half_saved user data w).
Proof.
  intros J R1 R2 F0 F1. unfold saveUser. rewrite J.
  rewrite (bind_eq _ _ _ _ _ (kvSet_ok c _ _ _ R1 F0)).
  erewrite bind_eq; [| apply kvSet_failed; [exact R2 | exact F1]]. reflexivity.
Qed.

Lemma saveUser_index_broken (user : User) (data : string) (w : World)
    (n : nat) (e : error) :
  toJSON X user = Ok data ->
  refusal w (getUserKey (Email user)) = None ->
  refusal w (getUserIDKey (ID user)) = None ->
  faults w 0%nat = None -> faults w 1%nat = Some (Broken n e) ->
  saveUser X c user w =
    (Some (NewAppError "Client.saveUser" (body_error e)
             "failed to save user ID mapping" 500),
     saved user data w).
Proof.
  intros J R1 R2 F0 F1. unfold saveUser. rewrite J.
  rewrite (bind_eq _ _ _ _ _ (kvSet_ok c _ _ _ R1 F0)).
  erewrite bind_eq; [| eapply kvSet_broken; [exact R2 | exact F1]].
  reflexivity.
Qed.

Lemma saveUser_None_inv (user : User) (w w' : World) :
  saveUser X c user w = (None, w') ->
  exists data : string,
    toJSON X user = Ok data /\
    refusal w (getUserKey (Email user)) = None /\
    refusal w (getUserIDKey (ID user)) = None /\
    faults w 0%nat = None /\ faults w 1%nat = None /\
    w' = saved user data w.
Proof.
  unfold saveUser. destruct (toJSON X user) as [data | err];
    [| intros H; discriminate H].
  unfold bind at 1.
  destruct (kvSet c (getUserKey (Email user)) data w) as [[e1|] w1] eqn:S1;
    [intros H; discriminate H |].
  apply kvSet_None_inv in S1. destruct S1 as (R1 & F0 & ->).
  unfold bind at 1.
  destruct (kvSet c (getUserIDKey (ID user)) (Email user) _) as [[e2|] w2] eqn:S2;
    [intros H; discriminate H |].
  apply kvSet_None_inv in S2. destruct S2 as (R2 & F1 & ->).
  intros H. injection H as <-. exists data. auto 7.
Qed.

(** Saving touches no entry but the two its keys lead to. *)
Lemma saveUser_kv (user : User) (w : World) (t : string) :
  t <> locate w (getUserKey (Email user)) ->
  t <> locate w (getUserIDKey (ID user)) ->
  kv (snd (saveUser X c user w)) !! t = kv w !! t.
Proof.
  intros H1 H2. unfold saveUser.
  destruct (toJSON X user) as [data | err]; [| reflexivity].
  unfold bind at 1.
  pose proof (kvSet_kv c (getUserKey (Email user)) data w t H1) as K1.
  pose proof (kvSet_world c (getUserKey (Email user)) data w) as (L1 & _ & _).
  destruct (kvSet c (getUserKey (Email user)) data w) as [[e1|] w1];
    cbn [snd] in K1, L1; [exact K1 |].
  unfold bind at 1.
  pose proof (kvSet_kv c (getUserIDKey (ID user)) (Email user) w1 t) as K2.
  rewrite L1 in K2. specialize (K2 H2).
  destruct (kvSet c (getUserIDKey (ID user)) (Email user) w1) as [[e2|] w2];
    cbn [snd] in K2; cbv beta iota; unfold ret; cbn [snd]; rewrite K2;
    exact K1.
Qed.

(** ** Registration past its guard *)

Lemma Register_run (email password : string) (w : World) :
  email <> "" -> password <> "" ->
  Register X c email password w =
    let probed := sent w (getUserKey email) in
    match fst (fst (kvGet c (getUserKey email) w)) with
    | Some _ =>
        (Err (NewAppError "Client.Register" ErrUserAlreadyExists
                "user already exists" 409),
         probed)
    | None =>
        match bcrypt_GenerateFromPassword X (rand w 0%nat) password
                bcrypt_DefaultCost with
        | Err err =>
            (Err (NewAppError "Client.Register" err
                    "failed to hash password" 500),
             next_draw probed)
        | Ok passwordHash =>
            let user := new_user email passwordHash w in
            match saveUser X c user
                    (next_draw (next_reading (next_draw probed))) with
            | (Some err, w') => (Err err, w')
            | (None, w') => (Ok user, w')
            end
        end
    end.
Proof.
  intros He Hp. unfold Register. rewrite (guard_passes _ _ He Hp).
  pose proof (kvGet_world c (getUserKey email) w) as Hw.
  unfold bind at 1.
  destruct (kvGet c (getUserKey email) w) as [probe w'].
  cbn in Hw. subst w'. cbn [fst]. cbv zeta.
  destruct (fst probe); [reflexivity |].
  assert (Hr : rand (sent w (getUserKey email)) = rand w)
    by (unfold sent; destruct (refusal w (getUserKey email)); reflexivity).
  assert (Hc : clock (sent w (getUserKey email)) = clock w)
    by (unfold sent; destruct (refusal w (getUserKey email)); reflexivity).
  unfold bind, rand_Read, time_Now, uuid_New, rand_Read. rewrite Hr.
  destruct (bcrypt_GenerateFromPassword X (rand w 0%nat) password
              bcrypt_DefaultCost) as [h | err]; [| reflexivity].
  cbv beta iota.
  change (rand (next_reading (next_draw (sent w (getUserKey email)))) 0%nat)
    with (rand (sent w (getUserKey email)) 1%nat).
  change (clock (next_draw (sent w (getUserKey email))) 0%nat)
    with (clock (sent w (getUserKey email)) 0%nat).
  rewrite Hr, Hc. fold (new_user email h w).
  destruct (saveUser X c _ _) as [[err|] w']; reflexivity.
Qed.

End Registration.

Section RegistrationFacts.

Variable X : Externals.
Variable c : Client.

Lemma Register_guarded (email password : string) (w : World) (u : User)
    (w1 : World) :
  Register X c email password w = (Ok u, w1) -> email <> "" /\ password <> "".
Proof.
  unfold Register. intros H.
  destruct (String.eqb email "") eqn:He; [discriminate H |].
  destruct (String.eqb password "") eqn:Hp; [discriminate H |].
  split; apply String.eqb_neq; assumption.
Qed.

(** What a successful registration went through and left behind. *)
Lemma Register_Ok_inv (email password : string) (w : World) (u : User)
    (w1 : World) :
  Register X c email password w = (Ok u, w1) ->
  exists h data,
    bcrypt_GenerateFromPassword X (rand w 0%nat) password bcrypt_DefaultCost
      = Ok h /\
    u = new_user email h w /\
    toJSON X u = Ok data /\
    refusal w (getUserKey email) = None /\
    refusal w (getUserIDKey (ID u)) = None /\
    w1 = saved u data (before_save w).
Proof.
  intros H. destruct (Register_guarded _ _ _ _ _ H) as [He Hp].
  rewrite (Register_run X c _ _ w He Hp) in H. cbv zeta in H.
  destruct (fst (fst (kvGet c (getUserKey email) w))); [discriminate H |].
  destruct (bcrypt_GenerateFromPassword X (rand w 0%nat) password
              bcrypt_DefaultCost) as [h | err] eqn:G; [| discriminate H].
  destruct (saveUser X c (new_user email h w) _) as [[err|] w'] eqn:S;
    [discriminate H |].
  injection H as Hu Hw. subst u w'.
  apply saveUser_None_inv in S.
  destruct S as (data & J & R1 & R2 & _ & _ & Hw1).
  cbn [Email ID new_user] in R1, R2.
  change (refusal (sent w (getUserKey email)) (getUserKey email) = None) in R1.
  change (refusal (sent w (getUserKey email)) (getUserIDKey (rand w 1%nat))
          = None) in R2.
  rewrite refusal_sent in R1, R2.
  rewrite (sent_sendable _ _ R1) in Hw1.
  exists h, data. repeat split; try assumption.
Qed.

Lemma saved_email_entry (u : User) (data : string) (w : World) :
  locate w (getUserKey (Email u)) <> locate w (getUserIDKey (ID u)) ->
  kv (saved u data w) !! locate w (getUserKey (Email u)) = Some data.
Proof.
  intros Hne. unfold saved. cbn.
  rewrite lookup_insert_ne by (apply not_eq_sym; exact Hne).
  apply lookup_insert_eq.
Qed.


Lemma saved_id_entry (u : User) (data : string) (w : World) :
  kv (saved u data w) !! locate w (getUserIDKey (ID u)) = Some (Email u).
Proof. unfold saved. cbn. apply lookup_insert_eq. Qed.

Lemma half_saved_email_entry (u : User) (data : string) (w : World) :
  kv (half_saved u data w) !! locate w (getUserKey (Email u)) = Some data.
Proof. unfold half_saved. cbn. apply lookup_insert_eq. Qed.

Lemma half_saved_id_entry (u : User) (data : string) (w : World) :
  locate w (getUserKey (Email u)) <> locate w (getUserIDKey (ID u)) ->
  kv (half_saved u data w) !! locate w (getUserIDKey (ID u))
    = kv w !! locate w (getUserIDKey (ID u)).
Proof.
  intros Hne. unfold half_saved. cbn. apply lookup_insert_ne. exact Hne.
Qed.

End RegistrationFacts.

(** ** Key derivation *)

(** C7.  Key derivation is a function of its argument alone and is free
    of collisions: [getUserKey] and [getUserIDKey] are injective, each
    puts its own prefix in front of its argument, and an email-keyed key
    never equals an id-keyed key, whatever the email and the identifier
    are (in particular when the identifier is itself an email). *)
Theorem key_derivation_collision_free :
  (forall email : string, getUserKey email = "user:email:" ++ email) /\
  (forall userID : string, getUserIDKey userID = "user:id:" ++ userID) /\
  (forall e1 e2 : string, getUserKey e1 = getUserKey e2 -> e1 = e2) /\
  (forall i1 i2 : string, getUserIDKey i1 = getUserIDKey i2 -> i1 = i2) /\
  (forall email userID : string, getUserKey email <> getUserIDKey userID).
Proof.
  repeat split.
  - exact getUserKey_inj.
  - exact getUserIDKey_inj.
  - exact keys_disjoint.
Qed.

(** ** Input validation *)

(** C9.  When the email or the password is empty, [Register] and [Login]
    each return an error wrapping [ErrInvalidInput], and the world they
    return is the one they were given: no request was sent to the store,
    no random draw was taken for a hash and no clock was read for a
    token. *)
Theorem empty_input_rejected (X : Externals) (c : Client)
    (email password : string) (w : World) :
  email = "" \/ password = "" ->
  Register X c email password w =
    (Err (NewAppError "Client.Register" ErrInvalidInput
            "email and password are required" 400), w) /\
  Login X c email password w =
    (Err (NewAppError "Client.Login" ErrInvalidInput
            "email and password are required" 400), w) /\
  errors_Is (NewAppError "Client.Register" ErrInvalidInput
               "email and password are required" 400) ErrInvalidInput = true /\
  errors_Is (NewAppError "Client.Login" ErrInvalidInput
               "email and password are required" 400) ErrInvalidInput = true.
Proof.
  intros H. unfold Register, Login. rewrite (guard_rejects _ _ H).
  repeat split.
Qed.

Lemma empty_input_rejected_witness :
  ("" = "" \/ "Pw1!2345" = "") /\
  fst (Register Ref.X Ref.client "" "Pw1!2345" Ref.w0) =
    Err (NewAppError "Client.Register" ErrInvalidInput
           "email and password are required" 400) /\
  snd (Login Ref.X Ref.client "" "Pw1!2345" Ref.w0) = Ref.w0.
Proof.
  assert (H : "" = "" \/ "Pw1!2345" = "") by (left; reflexivity).
  destruct (empty_input_rejected Ref.X Ref.client "" "Pw1!2345" Ref.w0 H)
    as [HR [HL _]].
  split; [exact H |]. rewrite HR, HL. split; reflexivity.
Defined.

(** ** Registration against an existing record *)





(** ** Registration when the probe fails *)

Section ServiceFacts.

Variable X : Externals.
Variable s : auth.Service.

(** The wrapper of the service returns data exactly when the read of the
    client does so without an error; otherwise it returns none. *)
Lemma auth_kv_Get_run (key : string) (w : World) :
  auth.kv_Get key w =
    match fst (kvGet (service_client s) key w) with
    | (Some value, None) => ((Some value, None), sent w key)
    | (_, Some err) =>
        ((None,
          Some (apperrors_AppError "kv.Get" err
                  (match fst (Values_Get key w) with
                   | Err _ => "failed to get key: " ++ key
                   | Ok _ => "failed to read response for key: " ++ key
                   end) 500)), sent w key)
    | (None, None) => ((None, None), sent w key)
    end.
Proof.
  unfold auth.kv_Get, kvGet, bind, Values_Get, sent, readAll.
  destruct (refusal w key) as [r|]; [reflexivity |].
  destruct (kv w !! locate w key) as [body|];
    destruct (faults w 0%nat) as [[e | n e]|]; cbn; reflexivity.
Qed.

Lemma auth_kv_Get_failed (key : string) (w : World) (e : error) :
  snd (fst (kvGet (service_client s) key w)) = Some e ->
  exists e', auth.kv_Get key w = ((None, Some e'), sent w key).
Proof.
  intros H. rewrite auth_kv_Get_run.
  destruct (fst (kvGet (service_client s) key w)) as [[d|] [e0|]];
    cbn in H; try discriminate H; eexists; reflexivity.
Qed.

Lemma auth_kv_Set_ok (key value : string) (w : World) :
  refusal w key = None -> faults w 0%nat = None ->
  auth.kv_Set key value w =
    (None, next_request (with_kv (<[locate w key := value]> (kv w)) w)).
Proof.
  intros R F. unfold auth.kv_Set, bind, Values_Update. rewrite R, F.
  reflexivity.
Qed.

Lemma auth_Register_after_failed_probe (email password : string) (w : World)
    (e : error) (h data : string) :
  email <> "" -> password <> "" ->
  snd (fst (kvGet (service_client s) (getUserKey email) w)) = Some e ->
  bcrypt_GenerateFromPassword X (rand w 0%nat) password bcrypt_DefaultCost
    = Ok h ->
  json_Marshal X (new_user email h w) = Ok data ->
  refusal w (getUserKey email) = None ->
  refusal w (getUserIDKey (ID (new_user email h w))) = None ->
  faults w 1%nat = None -> faults w 2%nat = None ->
  auth.Register X s (auth.mkRegisterRequest email password) w =
    (Ok (new_user email h w),
     saved (new_user email h w) data (before_save w)).
Proof.
  intros He Hp Hget G J R1 R2 F1 F2. unfold auth.Register.
  cbn [auth.req_Email auth.req_Password].
  rewrite (guard_passes _ _ He Hp).
  destruct (auth_kv_Get_failed _ _ _ Hget) as [e' Hprobe].
  rewrite (sent_sendable _ _ R1) in Hprobe.
  unfold auth.getUserKey. change ("user:email:" ++ email) with (getUserKey email).
  rewrite (bind_eq _ _ _ _ _ Hprobe). cbn [fst].
  unfold bind at 1. unfold rand_Read at 1. cbn [rand next_request].
  rewrite G.
  unfold bind at 1. unfold time_Now at 1.
  unfold bind at 1. unfold uuid_New, rand_Read at 1.
  cbn [rand clock next_request next_draw next_reading advance].
  fold (new_user email h w). rewrite J.
  erewrite bind_eq; [| apply auth_kv_Set_ok; [exact R1 | exact F1]].
  cbv beta iota.
  erewrite bind_eq; [| apply auth_kv_Set_ok; [exact R2 | exact F2]].
  reflexivity.
Qed.

End ServiceFacts.

(** Data comes with an error of the read only when the body of a response
    that arrived breaks off. *)
Lemma kvGet_data_with_error (c : Client) (key data : string) (w : World)
    (e : error) :
  fst (kvGet c key w) = (Some data, Some e) ->
  refusal w key = None /\ exists n : nat, faults w 0%nat = Some (Broken n e).
Proof.
  unfold kvGet, bind, Values_Get.
  destruct (refusal w key) as [r|]; [intros H; discriminate H |].
  destruct (kv w !! locate w key) as [body|];
    destruct (faults w 0%nat) as [[e0 | n e0]|]; cbn; intros H;
    try discriminate H.
  injection H as _ <-. eauto.
Qed.

(** C10, as the code has it.  [Register] discards the error of its
    existence probe and looks at the data only.  Whenever the get on the
    email key fails, with whatever error [e], and returns no data (the
    request was refused or failed, or met no entry), the outcome of
    [Register] is that of hashing the password and saving the new record,
    and [e] is not part of it.  When the get fails but returns data, which
    happens exactly when the response arrived and its body broke off,
    [Register] of the client answers [ErrUserAlreadyExists].  The
    registration of the earlier service, whose wrapper returns no data with
    any failure, goes on in both cases: when the hash and both writes then
    succeed, the record is returned and both entries are written, the
    email-keyed one replacing whatever was stored there; and so does
    [Register] of the client when its get returned no data. *)
Theorem register_discards_probe_error (X : Externals) (c : Client)
    (s : auth.Service) (email password : string) (w : World) (e : error) :
  email <> "" -> password <> "" ->
  snd (fst (kvGet c (getUserKey email) w)) = Some e ->
  let probed := sent w (getUserKey email) in
  (fst (fst (kvGet c (getUserKey email) w)) = None ->
   Register X c email password w =
     match bcrypt_GenerateFromPassword X (rand w 0%nat) password
             bcrypt_DefaultCost with
     | Err err =>
         (Err (NewAppError "Client.Register" err "failed to hash password" 500),
          next_draw probed)
     | Ok passwordHash =>
         match saveUser X c (new_user email passwordHash w)
                 (next_draw (next_reading (next_draw probed))) with
         | (Some err, w') => (Err err, w')
         | (None, w') => (Ok (new_user email passwordHash w), w')
         end
     end) /\
  (forall data : string,
     fst (fst (kvGet c (getUserKey email) w)) = Some data ->
     Register X c email password w =
       (Err (NewAppError "Client.Register" ErrUserAlreadyExists
               "user already exists" 409), next_request w) /\
     exists n : nat, faults w 0%nat = Some (Broken n e)) /\
  (forall h data : string,
     bcrypt_GenerateFromPassword X (rand w 0%nat) password bcrypt_DefaultCost
       = Ok h ->
     toJSON X (new_user email h w) = Ok data ->
     let u := new_user email h w in
     refusal w (getUserKey email) = None ->
     refusal w (getUserIDKey (ID u)) = None ->
     locate w (getUserKey email) <> locate w (getUserIDKey (ID u)) ->
     faults w 1%nat = None -> faults w 2%nat = None ->
     let w' := saved u data (before_save w) in
     (fst (fst (kvGet c (getUserKey email) w)) = None ->
      Register X c email password w = (Ok u, w')) /\
     auth.Register X s (auth.mkRegisterRequest email password) w = (Ok u, w') /\
     kv w' !! locate w (getUserKey email) = Some data /\
     kv w' !! locate w (getUserIDKey (ID u)) = Some email).
Proof.
  intros He Hp Hget probed.
  assert (Hrun := Register_run X c email password w He Hp). cbv zeta in Hrun.
  split; [| split].
  - intros Hnone. rewrite Hnone in Hrun. exact Hrun.
  - intros data Hdata. rewrite Hdata in Hrun.
    assert (Hboth : fst (kvGet c (getUserKey email) w) = (Some data, Some e)).
    { destruct (fst (kvGet c (getUserKey email) w)) as [d0 e0].
      cbn in Hdata, Hget. subst. reflexivity. }
    destruct (kvGet_data_with_error c _ _ _ _ Hboth) as [R Hn].
    rewrite (sent_sendable _ _ R) in Hrun. split; [exact Hrun | exact Hn].
  - intros h data G J u R1 R2 Hne F1 F2 w'. subst u w'.
    split; [| split; [| split]].
    + intros Hnone. rewrite Hnone, G in Hrun. rewrite Hrun.
      rewrite (sent_sendable _ _ R1). fold (before_save w).
      rewrite (saveUser_ok X c _ data); try assumption; reflexivity.
    + apply (auth_Register_after_failed_probe X s _ _ _ e); assumption.
    + exact (saved_email_entry (new_user email h w) data (before_save w) Hne).
    + exact (saved_id_entry (new_user email h w) data (before_save w)).
Qed.

Lemma register_discards_probe_error_witness :
  "a@x.com" <> "" /\ "Pw1!2345" <> "" /\
  fst (kvGet Ref.client (getUserKey "a@x.com") Ref.w_down)
    = (None, Some (cloudflare_Error 503)) /\
  kv Ref.w_down !! locate Ref.w_down (getUserKey "a@x.com") = Some "stale" /\
  Register Ref.X Ref.client "a@x.com" "Pw1!2345" Ref.w_down
    = (Ok Ref.alice, saved Ref.alice Ref.alice_json (before_save Ref.w_down)) /\
  auth.Register Ref.X (auth.NewService "s3cr3t" 24)
    (auth.mkRegisterRequest "a@x.com" "Pw1!2345") Ref.w_down
    = (Ok Ref.alice, saved Ref.alice Ref.alice_json (before_save Ref.w_down)).
Proof.
  assert (He : "a@x.com" <> "") by discriminate.
  assert (Hp : "Pw1!2345" <> "") by discriminate.
  assert (Hget : fst (kvGet Ref.client (getUserKey "a@x.com") Ref.w_down)
                 = (None, Some (cloudflare_Error 503))) by reflexivity.
  destruct (register_discards_probe_error Ref.X Ref.client
              (auth.NewService "s3cr3t" 24) "a@x.com" "Pw1!2345" Ref.w_down
              (cloudflare_Error 503) He Hp) as (_ & _ & Hok);
    [rewrite Hget; reflexivity |].
  destruct (Hok "c2FsdA$Pw1!2345" Ref.alice_json)
    as (HR & HS & _ & _);
    [vm_compute; reflexivity | vm_compute; reflexivity
    | reflexivity | reflexivity | vm_compute; discriminate
    | reflexivity | reflexivity |].
  split; [exact He |]. split; [exact Hp |]. split; [exact Hget |].
  split; [vm_compute; reflexivity |].
  split; [apply HR; rewrite Hget; reflexivity | exact HS].
Defined.

(** C10, the part that fails.  The response to the probe arrives and its
    body breaks off: the get fails with the error of the read, yet
    [Register] of the client does not go on to hash and write; it answers
    [ErrUserAlreadyExists] and leaves the stored value as it is.  The
    registration of the earlier service, in the same world, goes on. *)
Lemma broken_probe_reads_as_existing :
  fst (kvGet Ref.client (getUserKey "a@x.com") Ref.w_cut)
    = (Some "stal", Some (errors_New "unexpected EOF")) /\
  fst (Register Ref.X Ref.client "a@x.com" "Pw1!2345" Ref.w_cut)
    = Err (NewAppError "Client.Register" ErrUserAlreadyExists
             "user already exists" 409) /\
  kv (snd (Register Ref.X Ref.client "a@x.com" "Pw1!2345" Ref.w_cut))
    !! locate Ref.w_cut (getUserKey "a@x.com") = Some "stale" /\
  fst (auth.Register Ref.X (auth.NewService "s3cr3t" 24)
         (auth.mkRegisterRequest "a@x.com" "Pw1!2345") Ref.w_cut)
    = Ok Ref.alice.
Proof.
  split; [vm_compute; reflexivity |]. split; [vm_compute; reflexivity |].
  split; vm_compute; reflexivity.
Qed.

(** ** A failed write of the identifier index *)

Lemma GetUserByID_miss (X : Externals) (c : Client) (userID : string)
    (w : World) :
  refusal w (getUserIDKey userID) = None ->
  kv w !! locate w (getUserIDKey userID) = None ->
  GetUserByID X c userID w =
    (Err (not_found "Client.GetUserByID"), next_request w).
Proof.
  intros R K. unfold GetUserByID.
  destruct (kvGet_absent c _ _ K) as [e He].
  pose proof (kvGet_world c (getUserIDKey userID) w) as Hw.
  rewrite (sent_sendable _ _ R) in Hw.
  unfold bind. destruct (kvGet c (getUserIDKey userID) w) as [r w'].
  cbn in He, Hw. subst r w'. reflexivity.
Qed.

Lemma GetUserByID_hit (X : Externals) (c : Client) (userID email data : string)
    (w : World) :
  refusal w (getUserIDKey userID) = None ->
  refusal w (getUserKey email) = None ->
  faults w 0%nat = None -> faults w 1%nat = None ->
  kv w !! locate w (getUserIDKey userID) = Some email ->
  kv w !! locate w (getUserKey email) = Some data ->
  GetUserByID X c userID w =
    (userFromJSON X data, next_request (next_request w)).
Proof.
  intros Rid Re F0 F1 Kid Kemail. unfold GetUserByID.
  rewrite (bind_eq _ _ _ _ _ (kvGet_hit c _ _ _ Rid F0 Kid)).
  cbn [fst snd string_of].
  apply getUserByEmail_hit; assumption.
Qed.

(** C5, as the code has it.  When [Register] got past its probe and the
    email-keyed write succeeds but the write of the identifier index fails,
    [Register] returns an error and does not swallow it: the wrapper of
    [saveUser] around the error of the write, with message "failed to save
    user ID mapping" and code 500.  What the namespace is left with depends
    on how the write failed.  When its request failed, with error [e], the
    record is under the email key and nothing under the identifier key: the
    record is returned by [GetUserByEmail], and [GetUserByID] with its
    identifier reports [ErrUserNotFound].  When the request was carried out
    and only the reading of its answer failed, with error [e], the index
    entry is there as well and [GetUserByID] returns the record too.  (The
    requests for the two keys are sent and lead to two different
    entries.) *)
Theorem register_id_write_failure (X : Externals) (c : Client)
    (email password : string) (w : World) (h data : string) (e : error) :
  email <> "" -> password <> "" ->
  fst (fst (kvGet c (getUserKey email) w)) = None ->
  bcrypt_GenerateFromPassword X (rand w 0%nat) password bcrypt_DefaultCost
    = Ok h ->
  toJSON X (new_user email h w) = Ok data ->
  userFromJSON X data = Ok (new_user email h w) ->
  refusal w (getUserKey email) = None ->
  refusal w (getUserIDKey (ID (new_user email h w))) = None ->
  locate w (getUserKey email)
    <> locate w (getUserIDKey (ID (new_user email h w))) ->
  faults w 1%nat = None -> faults w 3%nat = None ->
  kv w !! locate w (getUserIDKey (ID (new_user email h w))) = None ->
  let u := new_user email h w in
  let failed := fun cause : error =>
    NewAppError "Client.saveUser" cause "failed to save user ID mapping" 500 in
  (faults w 2%nat = Some (Failed e) ->
   let w1 := half_saved u data (before_save w) in
   Register X c email password w = (Err (failed e), w1) /\
   Unwrap (failed e) = Some e /\
   GetUserByEmail X c email w1 = (Ok u, next_request w1) /\
   GetUserByID X c (ID u) w1 =
     (Err (not_found "Client.GetUserByID"), next_request w1) /\
   IsUserNotFound (not_found "Client.GetUserByID") = true) /\
  (forall n : nat,
     faults w 2%nat = Some (Broken n e) -> faults w 4%nat = None ->
     let w1 := saved u data (before_save w) in
     Register X c email password w = (Err (failed (body_error e)), w1) /\
     Unwrap (failed (body_error e)) = Some (body_error e) /\
     GetUserByEmail X c email w1 = (Ok u, next_request w1) /\
     GetUserByID X c (ID u) w1 = (Ok u, next_request (next_request w1))).
Proof.
  intros He Hp Hprobe G J Jinv R1 R2 Hne F1 F3 Kid u failed. subst u failed.
  assert (Hrun := Register_run X c email password w He Hp). cbv zeta in Hrun.
  rewrite Hprobe, G, (sent_sendable _ _ R1) in Hrun. fold (before_save w) in Hrun.
  split.
  - intros F2 w1. subst w1.
    split; [| split; [reflexivity | split; [| split; [| reflexivity]]]].
    + rewrite Hrun.
      rewrite (saveUser_index_failed X c _ data _ e); try assumption;
        reflexivity.
    + unfold GetUserByEmail.
      rewrite (getUserByEmail_hit X c email data);
        [rewrite Jinv; reflexivity | exact R1 | exact F3 |].
      apply (half_saved_email_entry (new_user email h w) data (before_save w)).
    + apply GetUserByID_miss; [exact R2 |].
      exact (eq_trans
               (half_saved_id_entry (new_user email h w) data (before_save w)
                  Hne)
               Kid).
  - intros n F2 F4 w1. subst w1.
    assert (Kemail : kv (saved (new_user email h w) data (before_save w))
                       !! locate w (getUserKey email) = Some data)
      by exact (saved_email_entry (new_user email h w) data (before_save w)
                  Hne).
    assert (Kidx : kv (saved (new_user email h w) data (before_save w))
                     !! locate w (getUserIDKey (ID (new_user email h w)))
                   = Some email)
      by exact (saved_id_entry (new_user email h w) data (before_save w)).
    split; [| split; [reflexivity | split]].
    + rewrite Hrun.
      rewrite (saveUser_index_broken X c _ data _ n e); try assumption;
        reflexivity.
    + unfold GetUserByEmail.
      rewrite (getUserByEmail_hit X c email data);
        [rewrite Jinv; reflexivity | exact R1 | exact F3 | exact Kemail].
    + rewrite (GetUserByID_hit X c _ email data);
        [rewrite Jinv; reflexivity | exact R2 | exact R1 | exact F3 | exact F4
        | exact Kidx | exact Kemail].
Qed.

Lemma register_id_write_failure_witness :
  fst (Register Ref.X Ref.client "a@x.com" "Pw1!2345" (Ref.w_fail 2)) =
    Err (NewAppError "Client.saveUser" (cloudflare_Error 503)
           "failed to save user ID mapping" 500) /\
  fst (GetUserByEmail Ref.X Ref.client "a@x.com"
         (snd (Register Ref.X Ref.client "a@x.com" "Pw1!2345" (Ref.w_fail 2))))
    = Ok Ref.alice /\
  fst (GetUserByID Ref.X Ref.client (ID Ref.alice)
         (snd (Register Ref.X Ref.client "a@x.com" "Pw1!2345" (Ref.w_fail 2))))
    = Err (not_found "Client.GetUserByID").
Proof.
  assert (He : "a@x.com" <> "") by discriminate.
  assert (Hp : "Pw1!2345" <> "") by discriminate.
  assert (Hprobe : fst (fst (kvGet Ref.client (getUserKey "a@x.com")
                               (Ref.w_fail 2))) = None)
    by (vm_compute; reflexivity).
  assert (G : bcrypt_GenerateFromPassword Ref.X (rand (Ref.w_fail 2) 0%nat)
                "Pw1!2345" bcrypt_DefaultCost = Ok "c2FsdA$Pw1!2345")
    by (vm_compute; reflexivity).
  assert (J : toJSON Ref.X (new_user "a@x.com" "c2FsdA$Pw1!2345" (Ref.w_fail 2))
              = Ok "3f0c9e6a-7b1d-4c55-9a0e-2d6f1b8a4e10,a@x.com,c2FsdA$Pw1!2345,1700000000500000000,1700000000500000000")
    by (vm_compute; reflexivity).
  assert (Jinv : userFromJSON Ref.X
                   "3f0c9e6a-7b1d-4c55-9a0e-2d6f1b8a4e10,a@x.com,c2FsdA$Pw1!2345,1700000000500000000,1700000000500000000"
                 = Ok (new_user "a@x.com" "c2FsdA$Pw1!2345" (Ref.w_fail 2)))
    by (vm_compute; reflexivity).
  assert (Kid : kv (Ref.w_fail 2)
                  !! locate (Ref.w_fail 2)
                       (getUserIDKey
                          (ID (new_user "a@x.com" "c2FsdA$Pw1!2345"
                                 (Ref.w_fail 2))))
                = None)
    by (vm_compute; reflexivity).
  destruct (register_id_write_failure Ref.X Ref.client "a@x.com" "Pw1!2345"
              (Ref.w_fail 2) _ _ (cloudflare_Error 503)
              He Hp Hprobe G J Jinv eq_refl eq_refl
              ltac:(vm_compute; discriminate) eq_refl eq_refl Kid)
    as [Hfailed _].
  destruct (Hfailed eq_refl) as (HR & _ & HE & HI & _).
  change Ref.alice
    with (new_user "a@x.com" "c2FsdA$Pw1!2345" (Ref.w_fail 2)).
  rewrite HR. cbn [fst snd]. rewrite HE, HI. repeat split.
Defined.

(** C5, the part the code does not have.  In the reference run the error
    of a failed index write wraps none of the sentinels of the package, and
    it has the code and the cause of the error a failed first write gives:
    nothing in it classifies the condition as an inconsistency of the store,
    apart from a plain storage failure.  And when the index write is
    carried out and only the reading of its answer fails, [Register]
    returns the error of that write while the record is retrievable by
    identifier. *)
Lemma id_write_failure_is_unclassified :
  (exists e1 e2 : error,
     fst (Register Ref.X Ref.client "a@x.com" "Pw1!2345" (Ref.w_fail 1))
       = Err e1 /\
     fst (Register Ref.X Ref.client "a@x.com" "Pw1!2345" (Ref.w_fail 2))
       = Err e2 /\
     error_Code e2 = error_Code e1 /\
     Unwrap e2 = Unwrap e1 /\
     ~ (exists s : Sentinel, errors_Is e2 s = true)) /\
  fst (Register Ref.X Ref.client "a@x.com" "Pw1!2345" (Ref.w_break 2))
    = Err (NewAppError "Client.saveUser"
             (body_error (errors_New "unexpected EOF"))
             "failed to save user ID mapping" 500) /\
  fst (GetUserByID Ref.X Ref.client (ID Ref.alice)
         (snd (Register Ref.X Ref.client "a@x.com" "Pw1!2345" (Ref.w_break 2))))
    = Ok Ref.alice.
Proof.
  split; [| split; vm_compute; reflexivity].
  exists (NewAppError "Client.saveUser" (cloudflare_Error 503)
            "failed to save user" 500),
         (NewAppError "Client.saveUser" (cloudflare_Error 503)
            "failed to save user ID mapping" 500).
  split; [vm_compute; reflexivity |]. split; [vm_compute; reflexivity |].
  split; [reflexivity |]. split; [reflexivity |].
  intros [s Hs]. cbn in Hs. discriminate Hs.
Qed.

(** ** Login *)

Section LoginFacts.

Variable X : Externals.
Variable c : Client.

Lemma Login_run (email password : string) (w : World) :
  email <> "" -> password <> "" ->
  Login X c email password w =
    let probed := sent w (getUserKey email) in
    match fst (getUserByEmail X c email w) with
    | Err _ => (Err (not_found "Client.Login"), probed)
    | Ok user =>
        match bcrypt_CompareHashAndPassword X (PasswordHash user) password with
        | Some _ =>
            (Err (NewAppError "Client.Login" ErrInvalidCredentials
                    "invalid credentials" 401),
             probed)
        | None =>
            let claims := login_claims c user w in
            (Ok (mkLoginResponse (login_token X c claims)
                   (clock w 0%nat + jwtExpiry c)
                   (mkUserInfo (ID user) (Email user))),
             next_reading (next_reading (next_reading probed)))
        end
    end.
Proof.
  intros He Hp. unfold Login. rewrite (guard_passes _ _ He Hp).
  destruct (getUserByEmail_cases X c email w) as [Hw _].
  unfold bind at 1. destruct (getUserByEmail X c email w) as [r w'].
  cbn in Hw. subst w'. cbn [fst]. cbv zeta.
  destruct r as [user | err]; [| reflexivity].
  assert (Hc : clock (sent w (getUserKey email)) = clock w)
    by (unfold sent; destruct (refusal w (getUserKey email)); reflexivity).
  destruct (bcrypt_CompareHashAndPassword X (PasswordHash user) password);
    [reflexivity |].
  unfold bind, time_Now. cbn [clock next_reading advance]. rewrite Hc.
  reflexivity.
Qed.

(** A record comes back only from a request that was sent. *)
Lemma getUserByEmail_Ok_sent (email : string) (w : World) (user : User) :
  fst (getUserByEmail X c email w) = Ok user ->
  refusal w (getUserKey email) = None.
Proof.
  intros H.
  destruct (getUserByEmail_cases X c email w) as [_ [Hnf | (body & R & _)]];
    [rewrite Hnf in H; discriminate H | exact R].
Qed.

Lemma getUserByEmail_absent (email : string) (w : World) :
  refusal w (getUserKey email) = None ->
  kv w !! locate w (getUserKey email) = None ->
  getUserByEmail X c email w =
    (Err (not_found "Client.getUserByEmail"), next_request w).
Proof.
  intros R K. destruct (kvGet_absent c _ _ K) as [e He].
  rewrite (getUserByEmail_failed X c email w e) by (rewrite He; reflexivity).
  rewrite (sent_sendable _ _ R). reflexivity.
Qed.

End LoginFacts.

(** C4, as the code has it.  For a non-empty email and password: [Login]
    returns an error wrapping [ErrUserNotFound] whenever the read of the
    email-keyed record fails, be it that the request for the email key
    finds no entry or that the read fails for another reason while the
    record is there; and when the read returns the record (the request is
    sent and answered in full and the stored value decodes) but the password
    does not verify against its hash, [Login] returns an error wrapping
    [ErrInvalidCredentials], which is not a [ErrUserNotFound]. *)
Theorem login_failure_taxonomy (X : Externals) (c : Client)
    (email password : string) (w : World) :
  email <> "" -> password <> "" ->
  let invalid :=
    NewAppError "Client.Login" ErrInvalidCredentials "invalid credentials" 401
  in
  (forall e : error,
     snd (fst (kvGet c (getUserKey email) w)) = Some e ->
     Login X c email password w =
       (Err (not_found "Client.Login"), sent w (getUserKey email))) /\
  (refusal w (getUserKey email) = None ->
   kv w !! locate w (getUserKey email) = None ->
   Login X c email password w = (Err (not_found "Client.Login"), next_request w))
  /\
  IsUserNotFound (not_found "Client.Login") = true /\
  (forall (data : string) (user : User),
     refusal w (getUserKey email) = None ->
     faults w 0%nat = None ->
     kv w !! locate w (getUserKey email) = Some data ->
     userFromJSON X data = Ok user ->
     bcrypt_CompareHashAndPassword X (PasswordHash user) password <> None ->
     Login X c email password w = (Err invalid, next_request w)) /\
  IsInvalidCredentials invalid = true /\
  IsUserNotFound invalid = false.
Proof.
  intros He Hp invalid.
  split; [| split; [| split; [reflexivity | split; [| split; reflexivity]]]].
  - intros e Hget. rewrite (Login_run X c _ _ w He Hp).
    rewrite (getUserByEmail_failed X c email w e Hget). reflexivity.
  - intros R K. rewrite (Login_run X c _ _ w He Hp).
    rewrite (getUserByEmail_absent X c _ _ R K). cbn [fst]. cbv zeta.
    rewrite (sent_sendable _ _ R). reflexivity.
  - intros data user R F K J Hbad. rewrite (Login_run X c _ _ w He Hp).
    rewrite (getUserByEmail_hit X c _ _ _ R F K), J. cbn [fst]. cbv zeta.
    rewrite (sent_sendable _ _ R).
    destruct (bcrypt_CompareHashAndPassword X (PasswordHash user) password);
      [reflexivity | contradiction].
Qed.

Lemma login_failure_taxonomy_witness :
  "a@x.com" <> "" /\ "wrong" <> "" /\
  fst (Login Ref.X Ref.client "a@x.com" "wrong" Ref.w_registered) =
    Err (NewAppError "Client.Login" ErrInvalidCredentials
           "invalid credentials" 401) /\
  fst (Login Ref.X Ref.client "a@x.com" "wrong" Ref.w0) =
    Err (not_found "Client.Login").
Proof.
  assert (He : "a@x.com" <> "") by discriminate.
  assert (Hp : "wrong" <> "") by discriminate.
  destruct (login_failure_taxonomy Ref.X Ref.client "a@x.com" "wrong"
              Ref.w_registered He Hp) as (_ & _ & _ & Hbad & _).
  destruct (login_failure_taxonomy Ref.X Ref.client "a@x.com" "wrong"
              Ref.w0 He Hp) as (_ & Habsent & _).
  split; [exact He |]. split; [exact Hp |]. split.
  - rewrite (Hbad Ref.alice_json Ref.alice);
      [reflexivity | reflexivity | reflexivity | vm_compute; reflexivity
      | vm_compute; reflexivity | vm_compute; discriminate].
  - rewrite Habsent; [reflexivity | reflexivity | vm_compute; reflexivity].
Defined.

(** C4, the part that fails.  First, the record is there and the password
    is wrong, but the request of the lookup fails (HTTP 503): [Login]
    reports [ErrUserNotFound], not [ErrInvalidCredentials].  Second, the
    namespace holds no entry under the key of the email
    ["a@x.com?x=1"], yet [Login] with it succeeds: the key goes unescaped
    into the URL of the request, which reaches the record of
    ["a@x.com"]. *)
Lemma login_taxonomy_depends_on_the_read :
  kv Ref.w_registered_down
    !! locate Ref.w_registered_down (getUserKey "a@x.com")
    = Some Ref.alice_json /\
  userFromJSON Ref.X Ref.alice_json = Ok Ref.alice /\
  bcrypt_CompareHashAndPassword Ref.X (PasswordHash Ref.alice) "wrong"
    <> None /\
  fst (Login Ref.X Ref.client "a@x.com" "wrong" Ref.w_registered_down)
    = Err (not_found "Client.Login") /\
  IsUserNotFound (not_found "Client.Login") = true /\
  IsInvalidCredentials (not_found "Client.Login") = false /\
  kv Ref.w_registered !! getUserKey "a@x.com?x=1" = None /\
  exists resp : LoginResponse,
    fst (Login Ref.X Ref.client "a@x.com?x=1" "Pw1!2345" Ref.w_registered)
      = Ok resp /\
    resp_User resp = mkUserInfo (ID Ref.alice) "a@x.com".
Proof.
  split; [vm_compute; reflexivity |]. split; [vm_compute; reflexivity |].
  split; [vm_compute; discriminate |]. split; [vm_compute; reflexivity |].
  split; [reflexivity |]. split; [reflexivity |].
  split; [vm_compute; reflexivity |].
  eexists. split; [vm_compute; reflexivity | reflexivity].
Qed.

(** ** The dates of an issued token *)

Lemma Login_Ok_inv (X : Externals) (c : Client) (email password : string)
    (w : World) (resp : LoginResponse) (w' : World) :
  Login X c email password w = (Ok resp, w') ->
  exists user : User,
    fst (getUserByEmail X c email w) = Ok user /\
    bcrypt_CompareHashAndPassword X (PasswordHash user) password = None /\
    resp = mkLoginResponse (login_token X c (login_claims c user w))
             (clock w 0%nat + jwtExpiry c)
             (mkUserInfo (ID user) (Email user)) /\
    w' = after_login w.
Proof.
  intros H.
  assert (Hg : email <> "" /\ password <> "").
  { unfold Login in H.
    destruct (String.eqb email "") eqn:He; [discriminate H |].
    destruct (String.eqb password "") eqn:Hp; [discriminate H |].
    split; apply String.eqb_neq; assumption. }
  destruct Hg as [He Hp]. rewrite (Login_run X c _ _ w He Hp) in H.
  destruct (fst (getUserByEmail X c email w)) as [user | err] eqn:Hu;
    [| discriminate H].
  pose proof (getUserByEmail_Ok_sent X c _ _ _ Hu) as R.
  destruct (bcrypt_CompareHashAndPassword X (PasswordHash user) password)
    eqn:Hcmp; [discriminate H |].
  cbv zeta in H. rewrite (sent_sendable _ _ R) in H.
  injection H as Hr Hw. exists user. auto.
Qed.

(** The dates [Login] gives a token.  For every successful [Login] the
    token is an HS256 token whose claims carry, each truncated to the second:
    as [exp] the first reading of the clock plus the lifetime of the client,
    as [iat] the second reading and as [nbf] the third; so that
    [iat = nbf = now] and [exp = now + lifetime] whenever the three
    readings are one instant [now].  [LoginResponse.ExpiresAt] is the first
    reading plus the lifetime, and the [exp] of the token is that instant
    truncated.  A client constructed with [JWTExpirationHours] zero has a
    lifetime of 24 hours. *)
Theorem login_token_dates (X : Externals) (c : Client)
    (email password : string) (w : World) (resp : LoginResponse)
    (w' : World) :
  Login X c email password w = (Ok resp, w') ->
  (exists (claims : Claims) (sig : string),
     resp_Token resp = Compact (Some "HS256") claims sig /\
     ExpiresAt (Registered claims)
       = Some (NewNumericDate (clock w 0%nat + jwtExpiry c)) /\
     IssuedAt (Registered claims) = Some (NewNumericDate (clock w 1%nat)) /\
     NotBefore (Registered claims) = Some (NewNumericDate (clock w 2%nat)) /\
     resp_ExpiresAt resp = clock w 0%nat + jwtExpiry c /\
     ExpiresAt (Registered claims)
       = Some (NewNumericDate (resp_ExpiresAt resp)) /\
     (forall now : Z,
        clock w 0%nat = now -> clock w 1%nat = now -> clock w 2%nat = now ->
        IssuedAt (Registered claims) = Some (NewNumericDate now) /\
        NotBefore (Registered claims) = Some (NewNumericDate now) /\
        ExpiresAt (Registered claims)
          = Some (NewNumericDate (now + jwtExpiry c)))) /\
  (forall (o : ClientOptions) (c' : Client),
     NewClient (Some o) = Ok c' ->
     JWTExpirationHours o = 0 ->
     jwtExpiry c' = 24 * time_Hour).
Proof.
  intros H. split.
  - destruct (Login_Ok_inv X c _ _ _ _ _ H) as (user & _ & _ & Hr & _).
    subst resp.
    exists (login_claims c user w),
           (hmac_Sum X SHA256 (jwtSecret c) ("HS256", login_claims c user w)).
    do 6 (split; [reflexivity |]).
    intros t H0 H1 H2. unfold login_claims. cbn. rewrite H0, H1, H2.
    repeat split.
  - intros o c' HN Hz. unfold NewClient in HN.
    destruct (options_Validate o); [discriminate HN |].
    rewrite Hz in HN. cbn in HN. injection HN as <-. reflexivity.
Qed.

Lemma login_token_dates_witness :
  exists resp : LoginResponse,
    fst (Login Ref.X Ref.client "a@x.com" "Pw1!2345" Ref.w_registered)
      = Ok resp /\
    resp_ExpiresAt resp = 1700086400500000000 /\
    NewClient (Some Ref.options) = Ok Ref.client.
Proof.
  pose proof (surjective_pairing
                (Login Ref.X Ref.client "a@x.com" "Pw1!2345" Ref.w_registered))
    as E.
  assert (Hf : exists resp,
             fst (Login Ref.X Ref.client "a@x.com" "Pw1!2345"
                    Ref.w_registered) = Ok resp).
  { eexists. vm_compute. reflexivity. }
  destruct Hf as [resp Hf]. rewrite Hf in E.
  destruct (login_token_dates Ref.X Ref.client _ _ _ _ _ E)
    as [(claims & sig & _ & _ & _ & _ & Hexp & _) Hdefault].
  exists resp. split; [exact Hf |]. split.
  - rewrite Hexp. vm_compute. reflexivity.
  - vm_compute. reflexivity.
Defined.

(** C8.  [Login] reads the clock three times, once for the expiry and once
    each for [iat] and [nbf], where [Register] reads it once.  With a clock
    that passes the turn of a second between the second and the third
    reading of [Login], the token carries different [iat] and [nbf]: no
    single instant [now] is both, let alone with [exp = now + lifetime]. *)
Lemma login_dates_read_separately :
  exists (resp : LoginResponse) (claims : Claims) (sig : string),
    fst (Login Ref.X Ref.client "a@x.com" "Pw1!2345" Ref.w_edge) = Ok resp /\
    resp_Token resp = Compact (Some "HS256") claims sig /\
    IssuedAt (Registered claims) = Some 1700000000000000000 /\
    NotBefore (Registered claims) = Some 1700000001000000000 /\
    ~ (exists now : Z,
         IssuedAt (Registered claims) = Some now /\
         NotBefore (Registered claims) = Some now /\
         ExpiresAt (Registered claims) = Some (now + jwtExpiry Ref.client)).
Proof.
  eexists. eexists. eexists.
  split; [vm_compute; reflexivity |].
  split; [reflexivity |].
  split; [reflexivity |]. split; [reflexivity |].
  intros (now & Hi & Hn & _). cbn in Hi, Hn. congruence.
Qed.

(** ** Token verification *)

Lemma GetSigningMethod_Alg (alg : string) (m : SigningMethod) :
  GetSigningMethod alg = Some m -> Alg m = alg.
Proof.
  unfold GetSigningMethod. intros H.
  apply List.find_some in H. destruct H as [_ H].
  apply String.eqb_eq. exact H.
Qed.

Lemma GetSigningMethod_HMAC (h : Hash) :
  GetSigningMethod (Alg (SigningMethodHMAC h)) = Some (SigningMethodHMAC h).
Proof. destruct h; reflexivity. Qed.

Section TokenFacts.

Variable X : Externals.
Variable c : Client.

Lemma parseToken_outside_HMAC (alg : string) (claims : Claims) (sig : string)
    (w : World) :
  alg <> "HS256" -> alg <> "HS384" -> alg <> "HS512" ->
  parseToken X c (Compact (Some alg) claims sig) w = (Err rejected, w).
Proof.
  intros H256 H384 H512.
  unfold parseToken, ParseWithClaims, ParseUnverified.
  destruct (GetSigningMethod alg) as [m|] eqn:G; [| reflexivity].
  apply GetSigningMethod_Alg in G.
  unfold keyFunc. cbn [Method].
  destruct m as [h | | | | |]; try reflexivity.
  destruct h; cbn in G; congruence.
Qed.

Lemma parseToken_HMAC (h : Hash) (claims : Claims) (w : World) :
  verifyExpiresAt claims (clock w 0%nat) = true ->
  verifyNotBefore claims (clock w 0%nat) = true ->
  parseToken X c
    (Compact (Some (Alg (SigningMethodHMAC h))) claims
       (hmac_Sum X h (jwtSecret c) (Alg (SigningMethodHMAC h), claims))) w
  = (Ok claims, next_reading w).
Proof.
  intros He Hn.
  unfold parseToken, ParseWithClaims, ParseUnverified.
  rewrite GetSigningMethod_HMAC.
  unfold keyFunc, Verify. cbn [Method Header_alg token_Claims Signature signature_of].
  rewrite String.eqb_refl.
  unfold bind, Validate, bind, time_Now. rewrite He, Hn. reflexivity.
Qed.

(** Verification sends nothing to the store: it returns the world it was
    given, or that world one clock reading later. *)
Lemma parseToken_world (ts : tokenString) (w : World) :
  snd (parseToken X c ts w) = w \/ snd (parseToken X c ts w) = next_reading w.
Proof.
  unfold parseToken, ParseWithClaims, bind.
  destruct (ParseUnverified ts) as [t0 | e]; [| left; reflexivity].
  destruct (keyFunc c _) as [key | e]; [| left; reflexivity].
  destruct (Verify X _ _ _ _); [left; reflexivity |].
  unfold Validate, bind, time_Now.
  destruct (verifyExpiresAt _ _ && verifyNotBefore _ _); right; reflexivity.
Qed.

Lemma parseToken_kv (ts : tokenString) (w : World) :
  kv (snd (parseToken X c ts w)) = kv w.
Proof. destruct (parseToken_world ts w) as [-> | ->]; reflexivity. Qed.

(** ** Deletion *)

Lemma DeleteUser_Ok_inv (email : string) (w w1 : World) :
  DeleteUser X c email w = (None, w1) ->
  exists user : User,
    fst (getUserByEmail X c email w) = Ok user /\
    refusal w (getUserKey email) = None /\
    refusal w (getUserIDKey (ID user)) = None /\
    w1 = deleted email (ID user) w.
Proof.
  unfold DeleteUser. intros H.
  destruct (getUserByEmail_cases X c email w) as [Hw _].
  unfold bind at 1 in H.
  destruct (getUserByEmail X c email w) as [r w'] eqn:E.
  cbn in Hw. subst w'. destruct r as [user | err]; [| discriminate H].
  assert (R : refusal w (getUserKey email) = None).
  { apply (getUserByEmail_Ok_sent X c email w user). rewrite E. reflexivity. }
  rewrite (sent_sendable _ _ R) in H.
  unfold bind at 1 in H.
  destruct (kvDelete c (getUserKey email) (next_request w)) as [[e1|] w2] eqn:D1;
    [discriminate H |].
  apply kvDelete_None_inv in D1. destruct D1 as (_ & F1 & ->).
  unfold bind at 1 in H.
  destruct (kvDelete c (getUserIDKey (ID user)) _) as [[e2|] w3] eqn:D2;
    [discriminate H |].
  apply kvDelete_None_inv in D2. destruct D2 as (R2 & F2 & ->).
  injection H as <-. exists user.
  split; [reflexivity |]. split; [exact R |]. split; [exact R2 | reflexivity].
Qed.

Lemma deleted_id_entry (email userID : string) (w : World) :
  kv (deleted email userID w) !! locate w (getUserIDKey userID) = None.
Proof. unfold deleted. cbn. apply lookup_delete_eq. Qed.

End TokenFacts.

(** ** The algorithm a token declares *)

(** C2, as the code has it.  A token whose header declares an algorithm
    outside the HMAC family (any name other than HS256, HS384 and HS512)
    is rejected by [parseToken], hence by [ValidateToken], before the clock
    or the store is consulted, whatever its claims and signature: the error
    has message "invalid token" and code 401 and wraps the error of the JWT
    library.  A token that declares any of the three HMAC algorithms,
    carries the MAC of that algorithm under the secret of the client and is
    within its dates is accepted. *)
Theorem token_outside_hmac_family_rejected (X : Externals) (c : Client)
    (alg : string) (claims : Claims) (sig : string) (w : World) :
  alg <> "HS256" -> alg <> "HS384" -> alg <> "HS512" ->
  parseToken X c (Compact (Some alg) claims sig) w = (Err rejected, w) /\
  ValidateToken X c (Compact (Some alg) claims sig) w = (Err rejected, w) /\
  rejected = AppError "Client.parseToken" (jwt_Error jwt_ErrTokenUnverifiable)
               "invalid token" 401 /\
  (forall h : Hash,
     verifyExpiresAt claims (clock w 0%nat) = true ->
     verifyNotBefore claims (clock w 0%nat) = true ->
     parseToken X c
       (Compact (Some (Alg (SigningMethodHMAC h))) claims
          (hmac_Sum X h (jwtSecret c) (Alg (SigningMethodHMAC h), claims))) w
     = (Ok claims, next_reading w)).
Proof.
  intros H256 H384 H512.
  assert (HP := parseToken_outside_HMAC X c alg claims sig w H256 H384 H512).
  split; [exact HP |]. split.
  - unfold ValidateToken. rewrite (bind_eq _ _ _ _ _ HP). reflexivity.
  - split; [reflexivity |]. intros h. apply parseToken_HMAC.
Qed.

Lemma token_outside_hmac_family_rejected_witness :
  "RS256" <> "HS256" /\ "RS256" <> "HS384" /\ "RS256" <> "HS512" /\
  ValidateToken Ref.X Ref.client (Ref.signed "RS256" SHA256) Ref.w_registered
    = (Err rejected, Ref.w_registered).
Proof.
  assert (H1 : "RS256" <> "HS256") by discriminate.
  assert (H2 : "RS256" <> "HS384") by discriminate.
  assert (H3 : "RS256" <> "HS512") by discriminate.
  split; [exact H1 |]. split; [exact H2 |]. split; [exact H3 |].
  apply (token_outside_hmac_family_rejected Ref.X Ref.client "RS256"
           Ref.alice_claims _ Ref.w_registered H1 H2 H3).
Defined.

(** C2, the part that fails.  A token that declares HS512, an algorithm
    other than the HS256 the client issues, and is signed with it under the
    shared secret passes verification, and [ValidateToken] resolves it to
    the user. *)
Lemma hs512_token_accepted :
  "HS512" <> "HS256" /\
  fst (parseToken Ref.X Ref.client (Ref.signed "HS512" SHA512)
         Ref.w_registered) = Ok Ref.alice_claims /\
  fst (ValidateToken Ref.X Ref.client (Ref.signed "HS512" SHA512)
         Ref.w_registered) = Ok Ref.alice.
Proof.
  split; [discriminate |].
  split; vm_compute; reflexivity.
Qed.

(** ** Validation after deletion *)

(** C3.  Take a token that verifies (well signed, within its dates) at the
    time of validation and was issued for the user stored under [email],
    that is, carries the identifier of that record.  Once
    [DeleteUser email] has completed successfully, [ValidateToken] on the
    token returns [ErrUserNotFound]: after verification it looks the
    identifier up in the store, where the index entry is gone, instead of
    trusting the claims; and [GetUserByID] with that identifier returns
    [ErrUserNotFound] as well. *)
Theorem deleted_user_token_not_found (X : Externals) (c : Client)
    (email : string) (ts : tokenString) (claims : Claims) (u : User)
    (w w1 w2 : World) :
  fst (getUserByEmail X c email w) = Ok u ->
  UserID claims = ID u ->
  DeleteUser X c email w = (None, w1) ->
  parseToken X c ts w1 = (Ok claims, w2) ->
  ValidateToken X c ts w1 = GetUserByID X c (UserID claims) w2 /\
  ValidateToken X c ts w1 =
    (Err (not_found "Client.GetUserByID"), next_request w2) /\
  GetUserByID X c (ID u) w1 =
    (Err (not_found "Client.GetUserByID"), next_request w1) /\
  IsUserNotFound (not_found "Client.GetUserByID") = true.
Proof.
  intros Hu Hid Hdel Hparse.
  destruct (DeleteUser_Ok_inv X c _ _ _ Hdel) as (user & Huser & _ & R & Hw1).
  rewrite Hu in Huser. injection Huser as <-.
  assert (R1 : refusal w1 (getUserIDKey (ID u)) = None)
    by (subst w1; exact R).
  assert (Kid : kv w1 !! locate w1 (getUserIDKey (ID u)) = None)
    by (subst w1; exact (deleted_id_entry email (ID u) w)).
  assert (Hfetch : ValidateToken X c ts w1 = GetUserByID X c (UserID claims) w2).
  { unfold ValidateToken. rewrite (bind_eq _ _ _ _ _ Hparse). reflexivity. }
  split; [exact Hfetch |].
  split; [| split; [apply GetUserByID_miss; assumption | reflexivity]].
  rewrite Hfetch, Hid.
  pose proof (parseToken_world X c ts w1) as Hw2. rewrite Hparse in Hw2.
  cbn [snd] in Hw2.
  destruct Hw2 as [-> | ->]; apply GetUserByID_miss; assumption.
Qed.

Lemma deleted_user_token_not_found_witness :
  fst (ValidateToken Ref.X Ref.client (Ref.signed "HS256" SHA256)
         Ref.w_registered) = Ok Ref.alice /\
  fst (DeleteUser Ref.X Ref.client "a@x.com" Ref.w_registered) = None /\
  fst (ValidateToken Ref.X Ref.client (Ref.signed "HS256" SHA256)
         (snd (DeleteUser Ref.X Ref.client "a@x.com" Ref.w_registered)))
    = Err (not_found "Client.GetUserByID").
Proof.
  assert (Hu : fst (getUserByEmail Ref.X Ref.client "a@x.com" Ref.w_registered)
               = Ok Ref.alice) by (vm_compute; reflexivity).
  assert (Hdel0 : fst (DeleteUser Ref.X Ref.client "a@x.com" Ref.w_registered)
                  = None) by (vm_compute; reflexivity).
  pose proof (surjective_pairing
                (DeleteUser Ref.X Ref.client "a@x.com" Ref.w_registered))
    as Hdel.
  rewrite Hdel0 in Hdel.
  set (w1 := snd (DeleteUser Ref.X Ref.client "a@x.com" Ref.w_registered))
    in *.
  assert (Hp0 : fst (parseToken Ref.X Ref.client (Ref.signed "HS256" SHA256) w1)
                = Ok Ref.alice_claims) by (vm_compute; reflexivity).
  pose proof (surjective_pairing
                (parseToken Ref.X Ref.client (Ref.signed "HS256" SHA256) w1))
    as Hparse.
  rewrite Hp0 in Hparse.
  destruct (deleted_user_token_not_found Ref.X Ref.client "a@x.com"
              (Ref.signed "HS256" SHA256) Ref.alice_claims Ref.alice
              Ref.w_registered w1 _ Hu eq_refl Hdel Hparse) as (_ & HV & _).
  split; [vm_compute; reflexivity |]. split; [exact Hdel0 |].
  rewrite HV. reflexivity.
Defined.

(** ** Register, then login, then validate *)

(** C1.  For a non-empty email and password, if [Register] succeeds and
    returns a record, then [Login] with the same credentials against the
    world [Register] left succeeds, and [ValidateToken] on the token it
    returns resolves to a user with the identifier of that record (indeed
    to that record).  This holds while the collaborators do their part: the
    hash bcrypt generated verifies the password, the stored record decodes
    to itself, the requests for the email key and for the identifier key
    lead to two different entries, the store answers the three reads of the
    two operations, and the clock at validation lies within the dates of the
    token. *)
Theorem register_login_validate (X : Externals) (c : Client)
    (email password : string) (w : World) (u : User) (w1 : World) :
  email <> "" -> password <> "" ->
  Register X c email password w = (Ok u, w1) ->
  (forall h : string,
     bcrypt_GenerateFromPassword X (rand w 0%nat) password bcrypt_DefaultCost
       = Ok h ->
     bcrypt_CompareHashAndPassword X h password = None) ->
  (forall data : string, toJSON X u = Ok data -> userFromJSON X data = Ok u) ->
  locate w (getUserKey email) <> locate w (getUserIDKey (ID u)) ->
  faults w1 0%nat = None -> faults w1 1%nat = None -> faults w1 2%nat = None ->
  NewNumericDate (clock w1 2%nat) <= clock w1 3%nat
    < NewNumericDate (clock w1 0%nat + jwtExpiry c) ->
  exists (resp : LoginResponse) (w2 : World) (u' : User) (w3 : World),
    Login X c email password w1 = (Ok resp, w2) /\
    info_ID (resp_User resp) = ID u /\
    ValidateToken X c (resp_Token resp) w2 = (Ok u', w3) /\
    ID u' = ID u /\ u' = u.
Proof.
  intros He Hp HR Hbcrypt Hjson Hne F0 F1 F2 [Hnbf Hexp].
  destruct (Register_Ok_inv X c _ _ _ _ _ HR)
    as (h & data & G & Hu & J & Re & Rid & Hw1).
  assert (Hemail : Email u = email) by (subst u; reflexivity).
  assert (Hhash : PasswordHash u = h) by (subst u; reflexivity).
  assert (Re1 : refusal w1 (getUserKey email) = None)
    by (rewrite Hw1; exact Re).
  assert (Rid1 : refusal w1 (getUserIDKey (ID u)) = None)
    by (rewrite Hw1; exact Rid).
  assert (Kemail : kv w1 !! locate w1 (getUserKey email) = Some data).
  { rewrite Hw1, <- Hemail.
    apply (saved_email_entry u data (before_save w)).
    rewrite Hemail. exact Hne. }
  assert (Kid : kv w1 !! locate w1 (getUserIDKey (ID u)) = Some email).
  { rewrite Hw1, <- Hemail. exact (saved_id_entry u data (before_save w)). }
  set (claims := login_claims c u w1).
  exists (mkLoginResponse (login_token X c claims)
            (clock w1 0%nat + jwtExpiry c) (mkUserInfo (ID u) (Email u))),
         (after_login w1), u,
         (next_request (next_request (next_reading (after_login w1)))).
  split; [| split; [reflexivity | split; [| split; reflexivity]]].
  - rewrite (Login_run X c _ _ w1 He Hp).
    rewrite (getUserByEmail_hit X c _ _ _ Re1 F0 Kemail), (Hjson _ J).
    cbn [fst]. cbv zeta. rewrite (sent_sendable _ _ Re1).
    rewrite Hhash, (Hbcrypt _ G). reflexivity.
  - unfold ValidateToken. cbn [resp_Token].
    assert (HP : parseToken X c (login_token X c claims) (after_login w1)
                 = (Ok claims, next_reading (after_login w1))).
    { apply (parseToken_HMAC X c SHA256 claims (after_login w1)).
      - unfold verifyExpiresAt. cbn. apply Z.ltb_lt. exact Hexp.
      - unfold verifyNotBefore. cbn. apply negb_true_iff, Z.ltb_ge.
        exact Hnbf. }
    rewrite (bind_eq _ _ _ _ _ HP). cbn [UserID claims login_claims].
    rewrite (GetUserByID_hit X c (ID u) email data);
      [| exact Rid1 | exact Re1 | exact F1 | exact F2 | exact Kid
       | exact Kemail].
    rewrite (Hjson _ J). reflexivity.
Qed.

Lemma register_login_validate_witness :
  fst (Register Ref.X Ref.client "a@x.com" "Pw1!2345" Ref.w0) = Ok Ref.alice /\
  exists (resp : LoginResponse) (w2 : World) (w3 : World),
    Login Ref.X Ref.client "a@x.com" "Pw1!2345"
      (snd (Register Ref.X Ref.client "a@x.com" "Pw1!2345" Ref.w0))
      = (Ok resp, w2) /\
    ValidateToken Ref.X Ref.client (resp_Token resp) w2 = (Ok Ref.alice, w3).
Proof.
  assert (He : "a@x.com" <> "") by discriminate.
  assert (Hp : "Pw1!2345" <> "") by discriminate.
  assert (Hf : fst (Register Ref.X Ref.client "a@x.com" "Pw1!2345" Ref.w0)
               = Ok Ref.alice) by (vm_compute; reflexivity).
  pose proof (surjective_pairing
                (Register Ref.X Ref.client "a@x.com" "Pw1!2345" Ref.w0)) as E.
  rewrite Hf in E.
  set (w1 := snd (Register Ref.X Ref.client "a@x.com" "Pw1!2345" Ref.w0)) in *.
  assert (Hb : forall h : string,
             bcrypt_GenerateFromPassword Ref.X (rand Ref.w0 0%nat) "Pw1!2345"
               bcrypt_DefaultCost = Ok h ->
             bcrypt_CompareHashAndPassword Ref.X h "Pw1!2345" = None).
  { intros h H. vm_compute in H. injection H as <-. vm_compute. reflexivity. }
  assert (Hj : forall data : string,
             toJSON Ref.X Ref.alice = Ok data ->
             userFromJSON Ref.X data = Ok Ref.alice).
  { intros data H. vm_compute in H. injection H as <-. vm_compute.
    reflexivity. }
  assert (F0 : faults w1 0%nat = None) by (vm_compute; reflexivity).
  assert (F1 : faults w1 1%nat = None) by (vm_compute; reflexivity).
  assert (F2 : faults w1 2%nat = None) by (vm_compute; reflexivity).
  assert (Hwin : NewNumericDate (clock w1 2%nat) <= clock w1 3%nat
                   < NewNumericDate (clock w1 0%nat + jwtExpiry Ref.client)).
  { vm_compute. split; [discriminate | reflexivity]. }
  assert (Hne : locate Ref.w0 (getUserKey "a@x.com")
                <> locate Ref.w0 (getUserIDKey (ID Ref.alice)))
    by (vm_compute; discriminate).
  destruct (register_login_validate Ref.X Ref.client "a@x.com" "Pw1!2345"
              Ref.w0 Ref.alice w1 He Hp E Hb Hj Hne F0 F1 F2 Hwin)
    as (resp & w2 & u' & w3 & HL & _ & HV & _ & Hu').
  split; [exact Hf |]. exists resp, w2, w3. split; [exact HL |].
  rewrite <- Hu'. exact HV.
Defined.

(** * Further properties of the code *)

(** ** Construction of a client ([NewClient], [ClientOptions.Validate]) *)

(** [NewClient] refuses missing options with [ErrInvalidConfig], and
    accepts given options exactly when the account, the namespace and the
    secret are non-empty and either an API token or both an API key and an
    email are given; the client then carries the account, the namespace
    and the secret of the options. *)
Theorem NewClient_accepts_iff (o : ClientOptions) :
  NewClient None = Err ErrInvalidConfig /\
  ((exists c : Client, NewClient (Some o) = Ok c) <->
   (AccountID o <> "" /\ NamespaceID o <> "" /\ JWTSecret o <> "" /\
    (APIToken o <> "" \/ (APIKey o <> "" /\ opt_Email o <> "")))) /\
  (forall c : Client,
     NewClient (Some o) = Ok c ->
     accountID c = AccountID o /\ namespaceID c = NamespaceID o /\
     jwtSecret c = JWTSecret o).
Proof.
  split; [reflexivity |]. unfold NewClient, options_Validate.
  destruct (String.eqb_spec (AccountID o) "") as [Ha | Ha];
    [split; [split; [intros [c H]; discriminate H | tauto]
            | intros c H; discriminate H] |].
  destruct (String.eqb_spec (NamespaceID o) "") as [Hn | Hn];
    [split; [split; [intros [c H]; discriminate H | tauto]
            | intros c H; discriminate H] |].
  destruct (String.eqb_spec (JWTSecret o) "") as [Hs | Hs];
    [split; [split; [intros [c H]; discriminate H | tauto]
            | intros c H; discriminate H] |].
  destruct (String.eqb_spec (APIToken o) "") as [Ht | Ht];
    destruct (String.eqb_spec (APIKey o) "") as [Hk | Hk];
    destruct (String.eqb_spec (opt_Email o) "") as [He | He]; cbn;
    (split;
     [ split;
       [ intros [c H]; try discriminate H; tauto
       | intros H; try (eexists; reflexivity); tauto ]
     | intros c H; try discriminate H; injection H as <-; auto ]).
Qed.

Lemma wrap64_small (z : Z) : - 2 ^ 63 <= z < 2 ^ 63 -> wrap64 z = z.
Proof.
  intros H. unfold wrap64. rewrite Z.mod_small by lia. lia.
Qed.

Lemma wrap64_range (z : Z) : - 2 ^ 63 <= wrap64 z < 2 ^ 63.
Proof.
  unfold wrap64.
  pose proof (Z.mod_pos_bound (z + 2 ^ 63) (2 ^ 64) ltac:(lia)) as H.
  change (2 ^ 64) with (2 * 2 ^ 63) in *. lia.
Qed.

(** The lifetime of a client [NewClient] returns is never zero and fits a
    signed 64-bit duration.  It is the requested number of hours whenever
    that number is not zero and at most 2562047 in absolute value (the
    largest whole number of hours a duration holds); a zero request, and
    equally a request that is a multiple of 2^51 hours, whose product with
    an hour wraps around to zero, gives 24 hours. *)
Theorem NewClient_lifetime (o : ClientOptions) (c : Client) :
  NewClient (Some o) = Ok c ->
  jwtExpiry c <> 0 /\
  - 2 ^ 63 <= jwtExpiry c < 2 ^ 63 /\
  (JWTExpirationHours o <> 0 ->
   - 2562047 <= JWTExpirationHours o <= 2562047 ->
   jwtExpiry c = JWTExpirationHours o * time_Hour) /\
  (JWTExpirationHours o mod 2 ^ 51 = 0 -> jwtExpiry c = 24 * time_Hour).
Proof.
  unfold NewClient. destruct (options_Validate o); [discriminate |].
  intros H. injection H as <-. cbn [jwtExpiry].
  set (h := JWTExpirationHours o).
  destruct (wrap64 (h * time_Hour) =? 0) eqn:Hz.
  - apply Z.eqb_eq in Hz.
    split; [discriminate |].
    split; [split; [vm_compute; discriminate | reflexivity] |].
    split; [| reflexivity].
    intros Hne Hr. exfalso.
    rewrite wrap64_small in Hz
      by (change time_Hour with 3600000000000; lia).
    change time_Hour with 3600000000000 in Hz. lia.
  - apply Z.eqb_neq in Hz.
    split; [exact Hz |].
    split; [apply wrap64_range |].
    split.
    + intros _ Hb. apply wrap64_small.
      change time_Hour with 3600000000000. lia.
    + intros Hm. exfalso. apply Hz.
      apply Z.mod_divide in Hm; [| lia]. destruct Hm as [k Hk].
      unfold wrap64. rewrite Hk.
      change time_Hour with (2 ^ 13 * 439453125).
      replace (k * 2 ^ 51 * (2 ^ 13 * 439453125) + 2 ^ 63)
        with (2 ^ 63 + (k * 439453125) * 2 ^ 64) by ring.
      rewrite Z.mod_add by lia. rewrite Z.mod_small by lia. lia.
Qed.

Lemma NewClient_lifetime_witness :
  NewClient (Some Ref.options_neg) = Ok Ref.client_neg /\
  jwtExpiry Ref.client_neg = -1 * time_Hour.
Proof.
  assert (H : NewClient (Some Ref.options_neg) = Ok Ref.client_neg)
    by (vm_compute; reflexivity).
  destruct (NewClient_lifetime _ _ H) as (_ & _ & Hh & _).
  split; [exact H |]. apply Hh; cbn; lia.
Defined.

(** ** What token verification accepts and refuses ([parseToken]) *)

Lemma HMAC_alg_names (m : SigningMethod) (alg : string) :
  GetSigningMethod alg = Some m ->
  forall h : Hash, m = SigningMethodHMAC h -> alg = Alg (SigningMethodHMAC h).
Proof.
  intros G h ->. symmetry. exact (GetSigningMethod_Alg _ _ G).
Qed.

(** [parseToken] accepts a token only if it is what a holder of the secret
    produces: a compact token that declares one of the HMAC algorithms and
    carries the MAC of that algorithm, under the secret of the client, of
    its own header and claims, presented at a clock reading before its
    [exp] and not before its [nbf].  The claims returned are those of the
    token and the clock was read once. *)
Theorem parseToken_accepts_only_signed (X : Externals) (c : Client)
    (ts : tokenString) (claims : Claims) (w w' : World) :
  parseToken X c ts w = (Ok claims, w') ->
  exists h : Hash,
    ts = Compact (Some (Alg (SigningMethodHMAC h))) claims
           (hmac_Sum X h (jwtSecret c) (Alg (SigningMethodHMAC h), claims)) /\
    verifyExpiresAt claims (clock w 0%nat) = true /\
    verifyNotBefore claims (clock w 0%nat) = true /\
    w' = next_reading w.
Proof.
  unfold parseToken, ParseWithClaims, ParseUnverified.
  destruct ts as [raw | [alg|] cl sig]; try (intros H; discriminate H).
  destruct (GetSigningMethod alg) as [m|] eqn:G;
    [| intros H; discriminate H].
  unfold keyFunc. cbn [Method Header_alg token_Claims Signature signature_of].
  destruct m as [h | | | | |]; try (intros H; discriminate H).
  pose proof (HMAC_alg_names _ _ G h eq_refl) as Halg. subst alg.
  unfold Verify.
  destruct (String.eqb_spec sig
              (hmac_Sum X h (jwtSecret c) (Alg (SigningMethodHMAC h), cl)))
    as [Hsig | Hsig]; [| intros H; discriminate H].
  unfold bind, Validate, bind, time_Now.
  destruct (verifyExpiresAt cl (clock w 0%nat)) eqn:He;
    [| intros H; discriminate H].
  destruct (verifyNotBefore cl (clock w 0%nat)) eqn:Hn;
    [| intros H; discriminate H].
  intros H. injection H as <- <-.
  exists h. rewrite <- Hsig. auto.
Qed.

Lemma parseToken_accepts_only_signed_witness :
  exists w' : World,
    parseToken Ref.X Ref.client (Ref.signed "HS256" SHA256) Ref.w_registered
      = (Ok Ref.alice_claims, w') /\
    w' = next_reading Ref.w_registered.
Proof.
  assert (H : parseToken Ref.X Ref.client (Ref.signed "HS256" SHA256)
                Ref.w_registered
              = (Ok Ref.alice_claims, next_reading Ref.w_registered)).
  { apply (parseToken_HMAC Ref.X Ref.client SHA256 Ref.alice_claims);
      vm_compute; reflexivity. }
  destruct (parseToken_accepts_only_signed _ _ _ _ _ _ H) as (h & _ & _ & _ & Hw).
  eexists. split; [exact H | exact Hw].
Defined.

(** A token that declares an HMAC algorithm but whose signature is not the
    MAC under the secret of the client (a tampered token, or one signed
    with another secret that gives another MAC) is refused as having an
    invalid signature, before the clock is read. *)
Theorem forged_signature_refused (X : Externals) (c : Client) (h : Hash)
    (claims : Claims) (sig : string) (w : World) :
  sig <> hmac_Sum X h (jwtSecret c) (Alg (SigningMethodHMAC h), claims) ->
  parseToken X c (Compact (Some (Alg (SigningMethodHMAC h))) claims sig) w =
    (Err (NewAppError "Client.parseToken"
            (jwt_Error jwt_ErrTokenSignatureInvalid) "invalid token" 401), w).
Proof.
  intros Hsig. unfold parseToken, ParseWithClaims, ParseUnverified.
  rewrite GetSigningMethod_HMAC. unfold keyFunc, Verify.
  cbn [Method Header_alg token_Claims Signature signature_of].
  apply String.eqb_neq in Hsig. rewrite Hsig. reflexivity.
Qed.

Lemma forged_signature_refused_witness :
  fst (parseToken Ref.X Ref.client
         (Compact (Some "HS256") Ref.alice_claims "forged") Ref.w_registered)
  = Err (NewAppError "Client.parseToken"
           (jwt_Error jwt_ErrTokenSignatureInvalid) "invalid token" 401).
Proof.
  assert (H : "forged"
              <> hmac_Sum Ref.X SHA256 (jwtSecret Ref.client)
                   (Alg (SigningMethodHMAC SHA256), Ref.alice_claims))
    by (vm_compute; discriminate).
  exact (f_equal fst
           (forged_signature_refused Ref.X Ref.client SHA256 Ref.alice_claims
              "forged" Ref.w_registered H)).
Defined.

Lemma parseToken_HMAC_outside_dates (X : Externals) (c : Client) (h : Hash)
    (claims : Claims) (w : World) :
  verifyExpiresAt claims (clock w 0%nat)
    && verifyNotBefore claims (clock w 0%nat) = false ->
  parseToken X c
    (Compact (Some (Alg (SigningMethodHMAC h))) claims
       (hmac_Sum X h (jwtSecret c) (Alg (SigningMethodHMAC h), claims))) w =
    (Err (NewAppError "Client.parseToken"
            (jwt_Error
               (jwt_ErrTokenInvalidClaims
                  (negb (verifyExpiresAt claims (clock w 0%nat)))
                  (negb (verifyNotBefore claims (clock w 0%nat)))))
            "invalid token" 401),
     next_reading w).
Proof.
  intros Hd. unfold parseToken, ParseWithClaims, ParseUnverified.
  rewrite GetSigningMethod_HMAC. unfold keyFunc, Verify.
  cbn [Method Header_alg token_Claims Signature signature_of].
  rewrite String.eqb_refl. unfold bind, Validate, bind, time_Now.
  rewrite Hd. reflexivity.
Qed.

Lemma login_claims_expired (c : Client) (user : User) (w : World) :
  jwtExpiry c <= 0 -> clock w 0%nat <= clock w 3%nat ->
  verifyExpiresAt (login_claims c user w) (clock (after_login w) 0%nat) = false.
Proof.
  intros Hneg Hclock. unfold verifyExpiresAt, login_claims. cbn.
  apply Z.ltb_ge. unfold NewNumericDate.
  pose proof (Z.mul_div_le (clock w 0%nat + jwtExpiry c) second
                ltac:(reflexivity)) as Hfloor.
  lia.
Qed.

(** A correctly signed token presented at or after its [exp], or before
    its [nbf], is refused: the error wraps the claims error of the JWT
    library, whose flags tell which of the two dates failed, and the clock
    was read once. *)
Theorem token_outside_dates_refused (X : Externals) (c : Client) (h : Hash)
    (claims : Claims) (w : World) :
  verifyExpiresAt claims (clock w 0%nat)
    && verifyNotBefore claims (clock w 0%nat) = false ->
  parseToken X c
    (Compact (Some (Alg (SigningMethodHMAC h))) claims
       (hmac_Sum X h (jwtSecret c) (Alg (SigningMethodHMAC h), claims))) w =
    (Err (NewAppError "Client.parseToken"
            (jwt_Error
               (jwt_ErrTokenInvalidClaims
                  (negb (verifyExpiresAt claims (clock w 0%nat)))
                  (negb (verifyNotBefore claims (clock w 0%nat)))))
            "invalid token" 401),
     next_reading w) /\
  (forall exp : Z,
     ExpiresAt (Registered claims) = Some exp -> exp <= clock w 0%nat ->
     verifyExpiresAt claims (clock w 0%nat) = false) /\
  (forall nbf : Z,
     NotBefore (Registered claims) = Some nbf -> clock w 0%nat < nbf ->
     verifyNotBefore claims (clock w 0%nat) = false).
Proof.
  intros Hd. split; [| split].
  - apply parseToken_HMAC_outside_dates. exact Hd.
  - intros exp He Hle. unfold verifyExpiresAt. rewrite He.
    apply Z.ltb_ge. exact Hle.
  - intros nbf Hn Hlt. unfold verifyNotBefore. rewrite Hn.
    apply negb_false_iff, Z.ltb_lt. exact Hlt.
Qed.

Lemma token_outside_dates_refused_witness :
  fst (parseToken Ref.X Ref.client (Ref.signed "HS256" SHA256)
         (Ref.world ∅ Ref.no_faults (fun _ => 1700086400000000000) Ref.draws))
  = Err (NewAppError "Client.parseToken"
           (jwt_Error (jwt_ErrTokenInvalidClaims true false))
           "invalid token" 401).
Proof.
  destruct (token_outside_dates_refused Ref.X Ref.client SHA256
              Ref.alice_claims
              (Ref.world ∅ Ref.no_faults (fun _ => 1700086400000000000)
                 Ref.draws)) as [H _]; [vm_compute; reflexivity |].
  change (Ref.signed "HS256" SHA256)
    with (Compact (Some (Alg (SigningMethodHMAC SHA256))) Ref.alice_claims
            (hmac_Sum Ref.X SHA256 (jwtSecret Ref.client)
               (Alg (SigningMethodHMAC SHA256), Ref.alice_claims))).
  rewrite H. vm_compute. reflexivity.
Defined.

Lemma parseToken_error_shape (X : Externals) (c : Client) (ts : tokenString)
    (w : World) (e : error) :
  fst (parseToken X c ts w) = Err e ->
  exists je : jwt_error,
    e = AppError "Client.parseToken" (jwt_Error je) "invalid token" 401.
Proof.
  unfold parseToken, ParseWithClaims, ParseUnverified, bind, ret.
  destruct ts as [raw | [alg|] cl sig];
    try (cbn [fst]; intros H; injection H as <-; eexists; reflexivity).
  destruct (GetSigningMethod alg) as [m|];
    [| cbn [fst]; intros H; injection H as <-; eexists; reflexivity].
  destruct (keyFunc c _) as [key | ke];
    [| cbn [fst]; intros H; injection H as <-; eexists; reflexivity].
  destruct (Verify X _ _ _ _);
    [cbn [fst]; intros H; injection H as <-; eexists; reflexivity |].
  unfold Validate, bind, ret, time_Now.
  destruct (verifyExpiresAt _ _ && verifyNotBefore _ _); cbn [fst negb];
    intros H; [discriminate H | injection H as <-; eexists; reflexivity].
Qed.

(** Every error of [parseToken] is its own wrapper around an error of the
    JWT library, with message "invalid token" and code 401.  None of them
    wraps [ErrInvalidToken] or [ErrTokenExpired]: the branch that would
    return [ErrInvalidToken] is never taken, since the library marks every
    token it returns without error as valid, so [IsInvalidToken] is false
    of all of them. *)
Theorem parseToken_errors_wrap_library_error (X : Externals) (c : Client)
    (ts : tokenString) (w : World) (e : error) :
  fst (parseToken X c ts w) = Err e ->
  (exists je : jwt_error,
     e = AppError "Client.parseToken" (jwt_Error je) "invalid token" 401) /\
  IsInvalidToken e = false /\
  errors_Is e ErrTokenExpired = false.
Proof.
  intros H.
  assert (Hshape := parseToken_error_shape X c ts w e H).
  destruct Hshape as [je ->]. split; [eexists; reflexivity |].
  split; reflexivity.
Qed.

Lemma parseToken_errors_wrap_library_error_witness :
  fst (parseToken Ref.X Ref.client (Malformed "not.a.token") Ref.w0)
    = Err (NewAppError "Client.parseToken" (jwt_Error jwt_ErrTokenMalformed)
             "invalid token" 401) /\
  IsInvalidToken (NewAppError "Client.parseToken"
                    (jwt_Error jwt_ErrTokenMalformed) "invalid token" 401)
    = false.
Proof.
  assert (H : fst (parseToken Ref.X Ref.client (Malformed "not.a.token")
                     Ref.w0)
              = Err (NewAppError "Client.parseToken"
                       (jwt_Error jwt_ErrTokenMalformed) "invalid token" 401))
    by reflexivity.
  split; [exact H |].
  exact (proj1 (proj2 (parseToken_errors_wrap_library_error _ _ _ _ _ H))).
Defined.

(** A client whose lifetime is not positive (as [NewClient] makes of a
    negative number of hours) issues tokens that are of no use: [Login]
    succeeds, and [ValidateToken] refuses the token as expired at every
    clock reading that is not earlier than the one [Login] took first. *)
Theorem nonpositive_lifetime_tokens_refused (X : Externals) (c : Client)
    (email password : string) (w : World) (resp : LoginResponse)
    (w' : World) :
  Login X c email password w = (Ok resp, w') ->
  jwtExpiry c <= 0 ->
  clock w 0%nat <= clock w 3%nat ->
  exists notValidYet : bool,
    ValidateToken X c (resp_Token resp) w' =
      (Err (NewAppError "Client.parseToken"
              (jwt_Error (jwt_ErrTokenInvalidClaims true notValidYet))
              "invalid token" 401),
       next_reading w').
Proof.
  intros HL Hneg Hclock.
  destruct (Login_Ok_inv X c _ _ _ _ _ HL) as (user & _ & _ & -> & ->).
  cbn [resp_Token]. set (claims := login_claims c user w).
  assert (Hexp : verifyExpiresAt claims (clock (after_login w) 0%nat) = false)
    by (apply login_claims_expired; assumption).
  assert (HP := parseToken_HMAC_outside_dates X c SHA256 claims
                  (after_login w)).
  rewrite Hexp in HP. specialize (HP eq_refl).
  exists (negb (verifyNotBefore claims (clock (after_login w) 0%nat))).
  unfold ValidateToken.
  change (login_token X c claims)
    with (Compact (Some (Alg (SigningMethodHMAC SHA256))) claims
            (hmac_Sum X SHA256 (jwtSecret c)
               (Alg (SigningMethodHMAC SHA256), claims))).
  rewrite (bind_eq _ _ _ _ _ HP). reflexivity.
Qed.

Lemma reference_login (c : Client) :
  Login Ref.X c "a@x.com" "Pw1!2345" Ref.w_registered =
    (Ok (mkLoginResponse
           (login_token Ref.X c (login_claims c Ref.alice Ref.w_registered))
           (clock Ref.w_registered 0%nat + jwtExpiry c)
           (mkUserInfo (ID Ref.alice) (Email Ref.alice))),
     after_login Ref.w_registered).
Proof.
  rewrite Login_run by discriminate.
  rewrite (getUserByEmail_hit Ref.X c _ Ref.alice_json);
    [| reflexivity | reflexivity | vm_compute; reflexivity].
  cbn [fst]. replace (userFromJSON Ref.X Ref.alice_json) with (Ok Ref.alice)
    by (vm_compute; reflexivity).
  replace (bcrypt_CompareHashAndPassword Ref.X (PasswordHash Ref.alice)
             "Pw1!2345") with (@None error) by (vm_compute; reflexivity).
  cbv zeta. rewrite sent_sendable by reflexivity. reflexivity.
Qed.

Lemma nonpositive_lifetime_tokens_refused_witness :
  exists (resp : LoginResponse) (w' : World) (e : error),
    Login Ref.X Ref.client_neg "a@x.com" "Pw1!2345" Ref.w_registered
      = (Ok resp, w') /\
    jwtExpiry Ref.client_neg <= 0 /\
    fst (ValidateToken Ref.X Ref.client_neg (resp_Token resp) w') = Err e.
Proof.
  pose proof (reference_login Ref.client_neg) as HL.
  assert (Hneg : jwtExpiry Ref.client_neg <= 0) by (vm_compute; discriminate).
  assert (Hclock : clock Ref.w_registered 0%nat <= clock Ref.w_registered 3%nat)
    by (vm_compute; discriminate).
  destruct (nonpositive_lifetime_tokens_refused _ _ _ _ _ _ _ HL Hneg Hclock)
    as [nv HV].
  eexists. eexists. eexists. split; [exact HL |]. split; [exact Hneg |].
  rewrite HV. reflexivity.
Defined.

(** ** What the operations do to the namespace *)

Section NamespaceFacts.

Variable X : Externals.
Variable c : Client.

Lemma getUserByEmail_world (email : string) (w : World) :
  snd (getUserByEmail X c email w) = sent w (getUserKey email).
Proof. exact (proj1 (getUserByEmail_cases X c email w)). Qed.

Lemma GetUserByID_kv (userID : string) (w : World) :
  kv (snd (GetUserByID X c userID w)) = kv w.
Proof.
  unfold GetUserByID, bind.
  pose proof (kvGet_world c (getUserIDKey userID) w) as Hw.
  destruct (kvGet c (getUserIDKey userID) w) as [r w']. cbn in Hw. subst w'.
  destruct (snd r); [apply sent_kv |].
  rewrite getUserByEmail_world, !sent_kv. reflexivity.
Qed.

Lemma Login_kv (email password : string) (w : World) :
  kv (snd (Login X c email password w)) = kv w.
Proof.
  destruct (String.eqb_spec email "") as [-> | He];
    [reflexivity |].
  destruct (String.eqb_spec password "") as [-> | Hp].
  { unfold Login. rewrite (guard_rejects email ""); [reflexivity | auto]. }
  rewrite (Login_run X c _ _ w He Hp). cbv zeta.
  destruct (fst (getUserByEmail X c email w)) as [user | err];
    [| apply sent_kv].
  destruct (bcrypt_CompareHashAndPassword X (PasswordHash user) password);
    apply sent_kv.
Qed.

Lemma ValidateToken_kv (ts : tokenString) (w : World) :
  kv (snd (ValidateToken X c ts w)) = kv w.
Proof.
  unfold ValidateToken, bind.
  pose proof (parseToken_kv X c ts w) as Hp.
  destruct (parseToken X c ts w) as [[claims | err] w']; cbn [snd] in Hp.
  - rewrite GetUserByID_kv. exact Hp.
  - exact Hp.
Qed.

End NamespaceFacts.

(** [Login], [ValidateToken], [GetUserByID] and [GetUserByEmail] only read:
    whatever their arguments and whatever they return, the namespace after
    them is the namespace before them. *)
Theorem lookups_leave_namespace_unchanged (X : Externals) (c : Client)
    (email password userID : string) (ts : tokenString) (w : World) :
  kv (snd (Login X c email password w)) = kv w /\
  kv (snd (ValidateToken X c ts w)) = kv w /\
  kv (snd (GetUserByID X c userID w)) = kv w /\
  kv (snd (GetUserByEmail X c email w)) = kv w.
Proof.
  split; [apply Login_kv |]. split; [apply ValidateToken_kv |].
  split; [apply GetUserByID_kv |].
  unfold GetUserByEmail. rewrite getUserByEmail_world. apply sent_kv.
Qed.

(** [Register] writes at most two entries, whatever its outcome: every
    entry other than the two that the requests for the email key of its
    argument and for the identifier key of the identifier it draws lead to
    holds after it what it held before.  These need not be the entries named
    after the two keys: a key goes into the URL as it is. *)
Theorem Register_writes_only_its_two_keys (X : Externals) (c : Client)
    (email password : string) (w : World) (t : string) :
  t <> locate w (getUserKey email) ->
  t <> locate w (getUserIDKey (rand w 1%nat)) ->
  kv (snd (Register X c email password w)) !! t = kv w !! t.
Proof.
  intros Hk Hid.
  destruct (String.eqb_spec email "") as [-> | He]; [reflexivity |].
  destruct (String.eqb_spec password "") as [-> | Hp].
  { unfold Register. rewrite (guard_rejects email ""); [reflexivity | auto]. }
  rewrite (Register_run X c _ _ w He Hp). cbv zeta.
  destruct (fst (fst (kvGet c (getUserKey email) w)));
    [cbn [snd]; rewrite sent_kv; reflexivity |].
  destruct (bcrypt_GenerateFromPassword X (rand w 0%nat) password
              bcrypt_DefaultCost) as [h | err];
    [| cbn [snd]; change (kv (next_draw ?w')) with (kv w'); rewrite sent_kv;
       reflexivity].
  pose proof (saveUser_kv X c (new_user email h w)
                (next_draw (next_reading (next_draw (sent w (getUserKey email)))))
                t) as Hs.
  change (locate (next_draw (next_reading
                               (next_draw (sent w (getUserKey email))))))
    with (locate (sent w (getUserKey email))) in Hs.
  rewrite locate_sent in Hs. specialize (Hs Hk Hid).
  change (kv (next_draw (next_reading (next_draw (sent w (getUserKey email))))))
    with (kv (sent w (getUserKey email))) in Hs.
  rewrite sent_kv in Hs.
  destruct (saveUser X c _ _) as [[err|] w']; exact Hs.
Qed.

Lemma Register_writes_only_its_two_keys_witness :
  kv (snd (Register Ref.X Ref.client "b@y.org?x" "Another1!" Ref.w_registered))
    !! getUserKey "a@x.com" = Some Ref.alice_json /\
  kv (snd (Register Ref.X Ref.client "b@y.org?x" "Another1!" Ref.w_registered))
    !! getUserKey "b@y.org?x" = None.
Proof.
  split.
  - rewrite (Register_writes_only_its_two_keys Ref.X Ref.client "b@y.org?x"
               "Another1!" Ref.w_registered (getUserKey "a@x.com"));
      [vm_compute; reflexivity | vm_compute; discriminate
      | vm_compute; discriminate].
  - rewrite (Register_writes_only_its_two_keys Ref.X Ref.client "b@y.org?x"
               "Another1!" Ref.w_registered (getUserKey "b@y.org?x"));
      [vm_compute; reflexivity | vm_compute; discriminate
      | vm_compute; discriminate].
Defined.

(** After a successful [Register] the record is there under both keys:
    as long as the two keys lead to different entries, the store answers
    and the stored record decodes to itself, [GetUserByEmail] with the email
    and [GetUserByID] with the identifier of the record both return the
    record [Register] returned; that record carries the email it was
    registered under and equal creation and update times. *)
Theorem registered_user_is_retrievable (X : Externals) (c : Client)
    (email password : string) (w : World) (u : User) (w1 : World) :
  Register X c email password w = (Ok u, w1) ->
  (forall data : string, toJSON X u = Ok data -> userFromJSON X data = Ok u) ->
  locate w (getUserKey email) <> locate w (getUserIDKey (ID u)) ->
  faults w1 0%nat = None -> faults w1 1%nat = None ->
  GetUserByEmail X c email w1 = (Ok u, next_request w1) /\
  GetUserByID X c (ID u) w1 = (Ok u, next_request (next_request w1)) /\
  Email u = email /\ CreatedAt u = UpdatedAt u.
Proof.
  intros HR Hjson Hne F0 F1.
  destruct (Register_Ok_inv X c _ _ _ _ _ HR)
    as (h & data & _ & Hu & J & Re & Rid & Hw1).
  assert (Hemail : Email u = email) by (subst u; reflexivity).
  assert (Re1 : refusal w1 (getUserKey email) = None)
    by (rewrite Hw1; exact Re).
  assert (Rid1 : refusal w1 (getUserIDKey (ID u)) = None)
    by (rewrite Hw1; exact Rid).
  assert (Kemail : kv w1 !! locate w1 (getUserKey email) = Some data).
  { rewrite Hw1, <- Hemail.
    apply (saved_email_entry u data (before_save w)).
    rewrite Hemail. exact Hne. }
  assert (Kid : kv w1 !! locate w1 (getUserIDKey (ID u)) = Some email).
  { rewrite Hw1, <- Hemail. exact (saved_id_entry u data (before_save w)). }
  split; [| split; [| split; [exact Hemail | subst u; reflexivity]]].
  - unfold GetUserByEmail.
    rewrite (getUserByEmail_hit X c _ _ _ Re1 F0 Kemail), (Hjson _ J).
    reflexivity.
  - rewrite (GetUserByID_hit X c _ _ _ _ Rid1 Re1 F0 F1 Kid Kemail),
      (Hjson _ J).
    reflexivity.
Qed.

Lemma registered_user_is_retrievable_witness :
  fst (Register Ref.X Ref.client "a@x.com" "Pw1!2345" Ref.w0) = Ok Ref.alice /\
  fst (GetUserByID Ref.X Ref.client (ID Ref.alice)
         (snd (Register Ref.X Ref.client "a@x.com" "Pw1!2345" Ref.w0)))
    = Ok Ref.alice.
Proof.
  assert (Hf : fst (Register Ref.X Ref.client "a@x.com" "Pw1!2345" Ref.w0)
               = Ok Ref.alice) by (vm_compute; reflexivity).
  pose proof (surjective_pairing
                (Register Ref.X Ref.client "a@x.com" "Pw1!2345" Ref.w0)) as E.
  rewrite Hf in E.
  set (w1 := snd (Register Ref.X Ref.client "a@x.com" "Pw1!2345" Ref.w0)) in *.
  assert (Hj : forall data : string,
             toJSON Ref.X Ref.alice = Ok data ->
             userFromJSON Ref.X data = Ok Ref.alice).
  { intros data H. vm_compute in H. injection H as <-. vm_compute.
    reflexivity. }
  assert (Hne : locate Ref.w0 (getUserKey "a@x.com")
                <> locate Ref.w0 (getUserIDKey (ID Ref.alice)))
    by (vm_compute; discriminate).
  assert (F0 : faults w1 0%nat = None) by (vm_compute; reflexivity).
  assert (F1 : faults w1 1%nat = None) by (vm_compute; reflexivity).
  destruct (registered_user_is_retrievable Ref.X Ref.client _ _ _ _ _ E Hj
              Hne F0 F1) as (_ & HI & _).
  split; [exact Hf |]. rewrite HI. reflexivity.
Defined.

(** ** Deletion ([DeleteUser]) *)

Lemma DeleteUser_absent (X : Externals) (c : Client) (email : string)
    (w : World) :
  refusal w (getUserKey email) = None ->
  kv w !! locate w (getUserKey email) = None ->
  DeleteUser X c email w =
    (Some (not_found "Client.getUserByEmail"), next_request w).
Proof.
  intros R K. unfold DeleteUser.
  rewrite (bind_eq _ _ _ _ _ (getUserByEmail_absent X c _ _ R K)). reflexivity.
Qed.

(** [DeleteUser] for an email whose key leads to no entry returns the
    [ErrUserNotFound] error of the lookup as it is, after a single request,
    and deletes nothing. *)
Theorem DeleteUser_of_missing_user (X : Externals) (c : Client)
    (email : string) (w : World) :
  refusal w (getUserKey email) = None ->
  kv w !! locate w (getUserKey email) = None ->
  DeleteUser X c email w =
    (Some (not_found "Client.getUserByEmail"), next_request w) /\
  IsUserNotFound (not_found "Client.getUserByEmail") = true /\
  kv (snd (DeleteUser X c email w)) = kv w.
Proof.
  intros R K. rewrite (DeleteUser_absent X c _ _ R K).
  split; [reflexivity | split; reflexivity].
Qed.

Lemma DeleteUser_of_missing_user_witness :
  fst (DeleteUser Ref.X Ref.client "nobody@x.com" Ref.w_registered)
    = Some (not_found "Client.getUserByEmail").
Proof.
  destruct (DeleteUser_of_missing_user Ref.X Ref.client "nobody@x.com"
              Ref.w_registered) as [H _];
    [reflexivity | vm_compute; reflexivity |].
  rewrite H. reflexivity.
Defined.

Lemma DeleteUser_ok (X : Externals) (c : Client) (email data : string)
    (u : User) (w : World) :
  refusal w (getUserKey email) = None ->
  refusal w (getUserIDKey (ID u)) = None ->
  faults w 0%nat = None ->
  kv w !! locate w (getUserKey email) = Some data ->
  userFromJSON X data = Ok u ->
  faults w 1%nat = None -> faults w 2%nat = None ->
  DeleteUser X c email w = (None, deleted email (ID u) w).
Proof.
  intros Re Rid F0 K J F1 F2. unfold DeleteUser.
  rewrite (bind_eq _ _ _ _ _ (getUserByEmail_hit X c _ _ _ Re F0 K)), J.
  erewrite bind_eq; [| apply kvDelete_ok; [exact Re | exact F1]].
  cbv beta iota.
  erewrite bind_eq; [| apply kvDelete_ok; [exact Rid | exact F2]].
  reflexivity.
Qed.

Lemma DeleteUser_index_failed (X : Externals) (c : Client)
    (email data : string) (u : User) (e : error) (w : World) :
  refusal w (getUserKey email) = None ->
  refusal w (getUserIDKey (ID u)) = None ->
  faults w 0%nat = None ->
  kv w !! locate w (getUserKey email) = Some data ->
  userFromJSON X data = Ok u ->
  faults w 1%nat = None -> faults w 2%nat = Some (Failed e) ->
  DeleteUser X c email w =
    (Some (NewAppError "Client.DeleteUser" e
             "failed to delete user ID mapping" 500),
     next_request
       (next_request
          (with_kv (delete (locate w (getUserKey email)) (kv w))
             (next_request w)))).
Proof.
  intros Re Rid F0 K J F1 F2. unfold DeleteUser.
  rewrite (bind_eq _ _ _ _ _ (getUserByEmail_hit X c _ _ _ Re F0 K)), J.
  erewrite bind_eq; [| apply kvDelete_ok; [exact Re | exact F1]].
  cbv beta iota.
  erewrite bind_eq; [| apply kvDelete_failed; [exact Rid | exact F2]].
  reflexivity.
Qed.

(** When [DeleteUser] removes the record but the removal of the identifier
    index then fails, it returns the wrapped error of the store and leaves
    the index entry behind without its record.  [GetUserByID] with the
    identifier reports [ErrUserNotFound] from then on, and [DeleteUser]
    cannot remove the left-over entry: called again it finds no record,
    returns [ErrUserNotFound] and deletes nothing.  (The requests for the
    two keys are sent and lead to two different entries.) *)
Theorem DeleteUser_index_failure_leaves_orphan (X : Externals) (c : Client)
    (email data : string) (u : User) (e : error) (w : World) :
  refusal w (getUserKey email) = None ->
  refusal w (getUserIDKey (ID u)) = None ->
  locate w (getUserKey email) <> locate w (getUserIDKey (ID u)) ->
  faults w 0%nat = None ->
  kv w !! locate w (getUserKey email) = Some data ->
  userFromJSON X data = Ok u ->
  kv w !! locate w (getUserIDKey (ID u)) = Some email ->
  faults w 1%nat = None -> faults w 2%nat = Some (Failed e) ->
  let w1 :=
    next_request
      (next_request
         (with_kv (delete (locate w (getUserKey email)) (kv w))
            (next_request w))) in
  DeleteUser X c email w =
    (Some (NewAppError "Client.DeleteUser" e
             "failed to delete user ID mapping" 500), w1) /\
  kv w1 !! locate w (getUserKey email) = None /\
  kv w1 !! locate w (getUserIDKey (ID u)) = Some email /\
  (exists e' : error,
     fst (GetUserByID X c (ID u) w1) = Err e' /\ IsUserNotFound e' = true) /\
  DeleteUser X c email w1 =
    (Some (not_found "Client.getUserByEmail"), next_request w1) /\
  kv (snd (DeleteUser X c email w1)) = kv w1.
Proof.
  intros Re Rid Hne F0 K J Kid F1 F2 w1.
  assert (K1 : kv w1 !! locate w1 (getUserKey email) = None)
    by (subst w1; cbn; apply lookup_delete_eq).
  assert (Kid1 : kv w1 !! locate w1 (getUserIDKey (ID u)) = Some email).
  { subst w1. cbn. rewrite lookup_delete_ne by exact Hne. exact Kid. }
  assert (Re1 : refusal w1 (getUserKey email) = None) by exact Re.
  assert (Hagain : DeleteUser X c email w1 =
                   (Some (not_found "Client.getUserByEmail"), next_request w1))
    by (apply DeleteUser_absent; assumption).
  split; [exact (DeleteUser_index_failed X c _ _ _ _ _ Re Rid F0 K J F1 F2) |].
  split; [exact K1 |]. split; [exact Kid1 |].
  split; [| split; [exact Hagain | rewrite Hagain; reflexivity]].
  unfold GetUserByID, bind.
  destruct (kvGet_cases c (getUserIDKey (ID u)) w1)
    as [Hw [[e0 He0] | (body & Hb & _ & _ & Kb)]];
    destruct (kvGet c (getUserIDKey (ID u)) w1) as [r w2];
    cbn [fst snd] in *; subst w2.
  - rewrite He0. eexists. split; reflexivity.
  - rewrite Hb. cbn [fst snd string_of].
    rewrite Kid1 in Kb. injection Kb as <-.
    assert (K2 : kv (sent w1 (getUserIDKey (ID u)))
                   !! locate (sent w1 (getUserIDKey (ID u))) (getUserKey email)
                 = None)
      by (rewrite sent_kv, locate_sent; exact K1).
    destruct (kvGet_absent c _ _ K2) as [e2 He2].
    rewrite (getUserByEmail_failed X c email _ e2)
      by (rewrite He2; reflexivity).
    eexists. split; reflexivity.
Qed.

Lemma DeleteUser_index_failure_leaves_orphan_witness :
  let w := Ref.world (kv Ref.w_registered) (Ref.fault_at 2) Ref.ticking
             Ref.draws in
  fst (DeleteUser Ref.X Ref.client "a@x.com" w) =
    Some (NewAppError "Client.DeleteUser" (cloudflare_Error 503)
            "failed to delete user ID mapping" 500) /\
  fst (DeleteUser Ref.X Ref.client "a@x.com"
         (snd (DeleteUser Ref.X Ref.client "a@x.com" w)))
    = Some (not_found "Client.getUserByEmail").
Proof.
  intros w.
  destruct (DeleteUser_index_failure_leaves_orphan Ref.X Ref.client "a@x.com"
              Ref.alice_json Ref.alice (cloudflare_Error 503) w)
    as (H1 & _ & _ & _ & H2 & _);
    [reflexivity | reflexivity | vm_compute; discriminate | reflexivity
    | vm_compute; reflexivity | vm_compute; reflexivity
    | vm_compute; reflexivity | reflexivity | reflexivity |].
  rewrite H1. cbn [fst snd]. rewrite H2. split; reflexivity.
Defined.

(** Registration followed by deletion leaves the namespace as it was:
    when neither of the two entries the keys lead to was in use before
    [Register] and they are two different entries, and the store answers and
    the stored record decodes to itself, [DeleteUser] after a successful
    [Register] succeeds and the namespace equals the one before the
    registration; [Login] then reports [ErrUserNotFound]. *)
Theorem Register_then_DeleteUser_restores (X : Externals) (c : Client)
    (email password : string) (w : World) (u : User) (w1 : World) :
  Register X c email password w = (Ok u, w1) ->
  (forall data : string, toJSON X u = Ok data -> userFromJSON X data = Ok u) ->
  locate w (getUserKey email) <> locate w (getUserIDKey (ID u)) ->
  kv w !! locate w (getUserKey email) = None ->
  kv w !! locate w (getUserIDKey (ID u)) = None ->
  faults w1 0%nat = None -> faults w1 1%nat = None -> faults w1 2%nat = None ->
  exists w2 : World,
    DeleteUser X c email w1 = (None, w2) /\
    kv w2 = kv w /\
    fst (Login X c email password w2) = Err (not_found "Client.Login").
Proof.
  intros HR Hjson Hne K Kid F0 F1 F2.
  destruct (Register_guarded X c _ _ _ _ _ HR) as [He Hp].
  destruct (Register_Ok_inv X c _ _ _ _ _ HR)
    as (h & data & _ & Hu & J & Re & Rid & Hw1).
  assert (Hemail : Email u = email) by (subst u; reflexivity).
  assert (Re1 : refusal w1 (getUserKey email) = None)
    by (rewrite Hw1; exact Re).
  assert (Rid1 : refusal w1 (getUserIDKey (ID u)) = None)
    by (rewrite Hw1; exact Rid).
  assert (Kemail : kv w1 !! locate w1 (getUserKey email) = Some data).
  { rewrite Hw1, <- Hemail.
    apply (saved_email_entry u data (before_save w)).
    rewrite Hemail. exact Hne. }
  exists (deleted email (ID u) w1).
  assert (Hkv : kv (deleted email (ID u) w1) = kv w).
  { rewrite Hw1. unfold deleted, saved. cbn. rewrite Hemail.
    rewrite (delete_insert_ne _ (locate w (getUserKey email))
               (locate w (getUserIDKey (ID u)))) by exact Hne.
    rewrite delete_insert_eq, delete_insert_eq.
    rewrite (delete_id _ (locate w (getUserKey email))) by exact K.
    apply delete_id. exact Kid. }
  split; [| split; [exact Hkv |]].
  - exact (DeleteUser_ok X c _ _ _ _ Re1 Rid1 F0 Kemail (Hjson _ J) F1 F2).
  - rewrite (Login_run X c _ _ _ He Hp).
    rewrite (getUserByEmail_absent X c email); [reflexivity | |].
    + rewrite Hw1. exact Re.
    + rewrite Hkv, Hw1. exact K.
Qed.

Lemma Register_then_DeleteUser_restores_witness :
  fst (Register Ref.X Ref.client "a@x.com" "Pw1!2345" Ref.w0) = Ok Ref.alice /\
  exists w2 : World,
    DeleteUser Ref.X Ref.client "a@x.com"
      (snd (Register Ref.X Ref.client "a@x.com" "Pw1!2345" Ref.w0))
      = (None, w2) /\
    kv w2 = kv Ref.w0.
Proof.
  assert (Hf : fst (Register Ref.X Ref.client "a@x.com" "Pw1!2345" Ref.w0)
               = Ok Ref.alice) by (vm_compute; reflexivity).
  pose proof (surjective_pairing
                (Register Ref.X Ref.client "a@x.com" "Pw1!2345" Ref.w0)) as E.
  rewrite Hf in E.
  set (w1 := snd (Register Ref.X Ref.client "a@x.com" "Pw1!2345" Ref.w0)) in *.
  assert (Hj : forall data : string,
             toJSON Ref.X Ref.alice = Ok data ->
             userFromJSON Ref.X data = Ok Ref.alice).
  { intros data H. vm_compute in H. injection H as <-. vm_compute.
    reflexivity. }
  assert (Hne : locate Ref.w0 (getUserKey "a@x.com")
                <> locate Ref.w0 (getUserIDKey (ID Ref.alice)))
    by (vm_compute; discriminate).
  assert (K : kv Ref.w0 !! locate Ref.w0 (getUserKey "a@x.com") = None)
    by (vm_compute; reflexivity).
  assert (Kid : kv Ref.w0 !! locate Ref.w0 (getUserIDKey (ID Ref.alice)) = None)
    by (vm_compute; reflexivity).
  assert (F0 : faults w1 0%nat = None) by (vm_compute; reflexivity).
  assert (F1 : faults w1 1%nat = None) by (vm_compute; reflexivity).
  assert (F2 : faults w1 2%nat = None) by (vm_compute; reflexivity).
  destruct (Register_then_DeleteUser_restores Ref.X Ref.client _ _ _ _ _ E Hj
              Hne K Kid F0 F1 F2) as (w2 & HD & Hkv & _).
  split; [exact Hf |]. exists w2. split; [exact HD | exact Hkv].
Defined.

(** ** Emails whose keys lead to the same entry *)

Lemma kvGet_alias (c : Client) (k1 k2 : string) (w : World) :
  refusal w k1 = None -> refusal w k2 = None ->
  locate w k1 = locate w k2 ->
  kvGet c k1 w = kvGet c k2 w.
Proof.
  intros R1 R2 L. unfold kvGet, bind, Values_Get. rewrite R1, R2, L.
  reflexivity.
Qed.

Lemma kvDelete_alias (c : Client) (k1 k2 : string) (w : World) :
  refusal w k1 = None -> refusal w k2 = None ->
  locate w k1 = locate w k2 ->
  kvDelete c k1 w = kvDelete c k2 w.
Proof.
  intros R1 R2 L. unfold kvDelete, Values_Delete. rewrite R1, R2, L.
  reflexivity.
Qed.

(** The client neither checks nor escapes an email before it makes a key
    of it.  Two emails whose keys lead to the same entry are therefore one
    user to it: [GetUserByEmail], [Login] and [DeleteUser] do the same with
    either, down to the world they leave. *)
Theorem aliased_emails_are_one_user (X : Externals) (c : Client)
    (e1 e2 password : string) (w : World) :
  refusal w (getUserKey e1) = None -> refusal w (getUserKey e2) = None ->
  locate w (getUserKey e1) = locate w (getUserKey e2) ->
  GetUserByEmail X c e1 w = GetUserByEmail X c e2 w /\
  (e1 <> "" -> e2 <> "" ->
   Login X c e1 password w = Login X c e2 password w) /\
  DeleteUser X c e1 w = DeleteUser X c e2 w.
Proof.
  intros R1 R2 L.
  assert (Hget : getUserByEmail X c e1 w = getUserByEmail X c e2 w).
  { unfold getUserByEmail, bind.
    rewrite (kvGet_alias c _ _ _ R1 R2 L). reflexivity. }
  split; [exact Hget |]. split.
  - intros H1 H2.
    destruct (string_dec password "") as [-> | Hp]; unfold Login.
    + rewrite !(guard_rejects _ ""); auto.
    + rewrite (guard_passes _ _ H1 Hp), (guard_passes _ _ H2 Hp).
      unfold bind. rewrite Hget. reflexivity.
  - unfold DeleteUser, bind. rewrite Hget.
    pose proof (getUserByEmail_world X c e2 w) as Hw.
    rewrite (sent_sendable _ _ R2) in Hw.
    destruct (getUserByEmail X c e2 w) as [[user | err] w']; cbn [snd] in Hw;
      [| reflexivity].
    subst w'.
    rewrite (kvDelete_alias c (getUserKey e1) (getUserKey e2) (next_request w)
               R1 R2 L).
    reflexivity.
Qed.

Lemma aliased_emails_are_one_user_witness :
  kv Ref.w_registered !! getUserKey "a@x.com#gone" = None /\
  fst (DeleteUser Ref.X Ref.client "a@x.com#gone" Ref.w_registered) = None /\
  kv (snd (DeleteUser Ref.X Ref.client "a@x.com#gone" Ref.w_registered))
    !! getUserKey "a@x.com" = None.
Proof.
  destruct (aliased_emails_are_one_user Ref.X Ref.client "a@x.com#gone"
              "a@x.com" "Pw1!2345" Ref.w_registered)
    as (_ & _ & HD); [reflexivity | reflexivity | reflexivity |].
  rewrite HD. split; [vm_compute; reflexivity |].
  split; vm_compute; reflexivity.
Defined.

(** ** A stored value that does not decode *)

(** When the value of the entry the email key leads to does not decode to
    a record, [GetUserByEmail] returns the error of the decoder as it is,
    while [Login] reports the user as not found: to a caller of [Login] a
    damaged record looks like a missing one. *)
Theorem undecodable_record_reads_as_missing (X : Externals) (c : Client)
    (email password data : string) (err : error) (w : World) :
  email <> "" -> password <> "" ->
  refusal w (getUserKey email) = None ->
  faults w 0%nat = None ->
  kv w !! locate w (getUserKey email) = Some data ->
  userFromJSON X data = Err err ->
  GetUserByEmail X c email w = (Err err, next_request w) /\
  Login X c email password w = (Err (not_found "Client.Login"), next_request w)
  /\
  IsUserNotFound (not_found "Client.Login") = true.
Proof.
  intros He Hp R F K J. split; [| split; [| reflexivity]].
  - unfold GetUserByEmail.
    rewrite (getUserByEmail_hit X c _ _ _ R F K), J. reflexivity.
  - rewrite (Login_run X c _ _ _ He Hp).
    rewrite (getUserByEmail_hit X c _ _ _ R F K), J. cbn [fst]. cbv zeta.
    rewrite (sent_sendable _ _ R). reflexivity.
Qed.

Lemma undecodable_record_reads_as_missing_witness :
  fst (GetUserByEmail Ref.X Ref.client "a@x.com"
         (Ref.world (kv Ref.w_down) Ref.no_faults Ref.ticking Ref.draws))
    = Err (errors_New "unexpected end of JSON input") /\
  fst (Login Ref.X Ref.client "a@x.com" "Pw1!2345"
         (Ref.world (kv Ref.w_down) Ref.no_faults Ref.ticking Ref.draws))
    = Err (not_found "Client.Login").
Proof.
  destruct (undecodable_record_reads_as_missing Ref.X Ref.client "a@x.com"
              "Pw1!2345" "stale" (errors_New "unexpected end of JSON input")
              (Ref.world (kv Ref.w_down) Ref.no_faults Ref.ticking Ref.draws))
    as (HG & HL & _);
    [discriminate | discriminate | reflexivity | reflexivity
    | vm_compute; reflexivity | vm_compute; reflexivity |].
  rewrite HG, HL. split; reflexivity.
Defined.

(** ** The public KV operations ([kv.go]) *)

Lemma fold_delete_lookup (keys : list string) (m : gmap string string)
    (k : string) :
  List.fold_right (fun k m => delete k m) m keys !! k =
    if List.existsb (String.eqb k) keys then None else m !! k.
Proof.
  induction keys as [| k' keys IH]; cbn; [reflexivity |].
  destruct (String.eqb_spec k k') as [-> | Hne]; cbn.
  - apply lookup_delete_eq.
  - rewrite lookup_delete_ne by auto. exact IH.
Qed.

Lemma KVGet_hit (c : Client) (key value : string) (w : World) :
  refusal w key = None -> faults w 0%nat = None ->
  kv w !! locate w key = Some value ->
  KVGet c key w = (Ok value, next_request w).
Proof.
  intros R F K. unfold KVGet, bind, Values_Get. rewrite R, F, K. cbn.
  rewrite append_empty_r. reflexivity.
Qed.

Lemma KVSet_run (c : Client) (key value : string)
    (opts : option KVWriteOptions) (w : World) :
  KVSet c key value opts w =
    match kvSet c key value w with
    | (Some err, w') =>
        (Some (NewAppError "Client.KVSet" err ("failed to set key: " ++ key)
                 500), w')
    | (None, w') => (None, w')
    end.
Proof.
  unfold KVSet, bind, Values_UpdateWith, kvSet.
  destruct opts as [o |]; cbv zeta;
    [destruct (0 <? ExpirationTTL o); destruct (String.eqb (Metadata o) "") |];
    cbn [param_Value param_ExpirationTTL param_Metadata negb];
    destruct (Values_Update key value w) as [[err|] w']; reflexivity.
Qed.

(** A value written with [KVSet] is what [KVGet] reads back.  When the
    client does not refuse the key, the store answers both requests and the
    options ask for no time to live, [KVSet] succeeds and [KVGet] on the
    same key returns the value; so does [KVGet] on any other key that leads
    to the same entry, and every other entry holds what it held before.  The
    empty key is refused before anything is sent. *)
Theorem KVSet_then_KVGet (c : Client) (key value : string)
    (opts : option KVWriteOptions) (w : World) :
  refusal w key = None ->
  faults w 0%nat = None -> faults w 1%nat = None ->
  (forall o : KVWriteOptions, opts = Some o -> ExpirationTTL o <= 0) ->
  (exists w1 : World,
     KVSet c key value opts w = (None, w1) /\
     KVGet c key w1 = (Ok value, next_request w1) /\
     (forall key' : string,
        refusal w key' = None -> locate w key' = locate w key ->
        KVGet c key' w1 = (Ok value, next_request w1)) /\
     (forall t : string, t <> locate w key -> kv w1 !! t = kv w !! t)) /\
  KVSet c "" value opts w =
    (Some (NewAppError "Client.KVSet"
             (errors_New "missing required key_name parameter")
             "failed to set key: " 500), w).
Proof.
  intros R F0 F1 Httl. split; [| rewrite KVSet_run; reflexivity].
  exists (next_request (with_kv (<[locate w key := value]> (kv w)) w)).
  assert (Hread : forall key' : string,
            refusal w key' = None -> locate w key' = locate w key ->
            KVGet c key'
              (next_request (with_kv (<[locate w key := value]> (kv w)) w))
            = (Ok value,
               next_request
                 (next_request
                    (with_kv (<[locate w key := value]> (kv w)) w)))).
  { intros key' R' L'. apply KVGet_hit; [exact R' | exact F1 |].
    cbn. rewrite L'. apply lookup_insert_eq. }
  split; [| split; [| split]].
  - rewrite KVSet_run, (kvSet_ok c _ _ _ R F0). reflexivity.
  - apply Hread; [exact R | reflexivity].
  - exact Hread.
  - intros t Ht. cbn. apply lookup_insert_ne. auto.
Qed.

Lemma KVSet_then_KVGet_witness :
  exists w1 : World,
    KVSet Ref.client "app:config" "my-config-value" None Ref.w_registered
      = (None, w1) /\
    fst (KVGet Ref.client "app:config" w1) = Ok "my-config-value" /\
    fst (KVGet Ref.client "app:config?v=2" w1) = Ok "my-config-value".
Proof.
  destruct (KVSet_then_KVGet Ref.client "app:config" "my-config-value" None
              Ref.w_registered) as [(w1 & HS & HG & HA & _) _];
    [reflexivity | reflexivity | reflexivity | intros o H; discriminate H |].
  exists w1. split; [exact HS |]. rewrite HG.
  rewrite (HA "app:config?v=2"); [| reflexivity | reflexivity].
  split; reflexivity.
Defined.

(** The public KV operations report every failure as their own wrapper
    with code 500, whatever went wrong.  In particular [KVGet] on a key that
    leads to no entry, which the store answers with 404, returns an error
    of code 500 that [IsUserNotFound] does not recognise; a response whose
    body breaks off gives the error of the read under the message "failed
    to read response", and no data; and the empty key is refused without a
    request. *)
Theorem KV_failures_are_wrapped (c : Client) (key value : string)
    (opts : option KVWriteOptions) (keys : list string) (w : World) :
  (forall e : error,
     fst (KVGet c key w) = Err e ->
     exists (cause : error) (message : string),
       e = NewAppError "Client.KVGet" cause message 500) /\
  (forall e : error,
     fst (KVSet c key value opts w) = Some e ->
     exists cause : error,
       e = NewAppError "Client.KVSet" cause ("failed to set key: " ++ key) 500)
  /\
  (forall e : error,
     fst (KVDelete c key w) = Some e ->
     exists cause : error,
       e = NewAppError "Client.KVDelete" cause
             ("failed to delete key: " ++ key) 500) /\
  (forall e : error,
     fst (KVDeleteBulk c keys w) = Some e ->
     exists cause : error,
       e = NewAppError "Client.KVDeleteBulk" cause
             "failed to delete keys in bulk" 500) /\
  (refusal w key = None -> faults w 0%nat = None ->
   kv w !! locate w key = None ->
   KVGet c key w =
     (Err (NewAppError "Client.KVGet" (cloudflare_Error 404)
             ("failed to get key: " ++ key) 500), next_request w) /\
   IsUserNotFound (NewAppError "Client.KVGet" (cloudflare_Error 404)
                     ("failed to get key: " ++ key) 500) = false) /\
  (forall (n : nat) (e : error) (body : string),
     refusal w key = None -> faults w 0%nat = Some (Broken n e) ->
     kv w !! locate w key = Some body ->
     KVGet c key w =
       (Err (NewAppError "Client.KVGet" e
               ("failed to read response for key: " ++ key) 500),
        next_request w)) /\
  KVGet c "" w =
    (Err (NewAppError "Client.KVGet"
            (errors_New "missing required key_name parameter")
            "failed to get key: " 500), w).
Proof.
  split; [| split; [| split; [| split; [| split; [| split]]]]].
  - unfold KVGet, bind, Values_Get, readAll.
    destruct (refusal w key) as [r|];
      [cbn; intros e H; injection H as <-; eauto |].
    destruct (kv w !! locate w key) as [body|];
      destruct (faults w 0%nat) as [[e0 | n e0]|]; cbn; intros e H;
      try discriminate H; injection H as <-; eauto.
  - rewrite KVSet_run. intros e.
    destruct (kvSet c key value w) as [[err|] w']; cbn; intros H;
      [injection H as <-; eauto | discriminate H].
  - unfold KVDelete, bind. intros e.
    destruct (Values_Delete key w) as [[err|] w']; cbn; intros H;
      [injection H as <-; eauto | discriminate H].
  - unfold KVDeleteBulk, bind. intros e.
    destruct (Keys_BulkDelete keys w) as [[err|] w']; cbn; intros H;
      [injection H as <-; eauto | discriminate H].
  - intros R F K. split; [| reflexivity].
    unfold KVGet, bind, Values_Get. rewrite R, F, K. reflexivity.
  - intros n e body R F K. unfold KVGet, bind, Values_Get.
    rewrite R, F, K. reflexivity.
  - reflexivity.
Qed.

(** [KVDeleteBulk] that the store serves removes, in one request, exactly
    the entries named: each of them is absent afterwards and every other
    entry holds what it held before. *)
Theorem KVDeleteBulk_removes_listed_keys (c : Client) (keys : list string)
    (w : World) :
  faults w 0%nat = None ->
  exists w1 : World,
    KVDeleteBulk c keys w = (None, w1) /\
    faults w1 = advance (faults w) /\
    (forall k : string, In k keys -> kv w1 !! k = None) /\
    (forall k : string, ~ In k keys -> kv w1 !! k = kv w !! k).
Proof.
  intros F.
  exists (next_request
            (with_kv (List.fold_right (fun k m => delete k m) (kv w) keys) w)).
  split; [| split; [reflexivity | split]].
  - unfold KVDeleteBulk, bind, Keys_BulkDelete. rewrite F. reflexivity.
  - intros k Hin. cbn. rewrite fold_delete_lookup.
    replace (List.existsb (String.eqb k) keys) with true; [reflexivity |].
    symmetry. apply List.existsb_exists. exists k. split; [exact Hin |].
    apply String.eqb_refl.
  - intros k Hnin. cbn. rewrite fold_delete_lookup.
    destruct (List.existsb (String.eqb k) keys) eqn:Hex; [| reflexivity].
    apply List.existsb_exists in Hex. destruct Hex as (k' & Hin & Heq).
    apply String.eqb_eq in Heq. subst k'. contradiction.
Qed.

Lemma KVDeleteBulk_removes_listed_keys_witness :
  exists w1 : World,
    KVDeleteBulk Ref.client [getUserKey "a@x.com"; getUserIDKey (ID Ref.alice)]
      Ref.w_registered = (None, w1) /\
    kv w1 !! getUserKey "a@x.com" = None.
Proof.
  destruct (KVDeleteBulk_removes_listed_keys Ref.client
              [getUserKey "a@x.com"; getUserIDKey (ID Ref.alice)]
              Ref.w_registered eq_refl) as (w1 & H & _ & Hin & _).
  exists w1. split; [exact H |]. apply Hin. left. reflexivity.
Defined.

(** The layout [Register] leaves in the namespace, read with the public
    [KVGet]: under ["user:email:" ++ email] the serialised record it
    returned, and under ["user:id:" ++ id] the email, as it is (the two keys
    leading to two different entries). *)
Theorem registered_layout (X : Externals) (c : Client)
    (email password : string) (w : World) (u : User) (w1 : World) :
  Register X c email password w = (Ok u, w1) ->
  locate w (getUserKey email) <> locate w (getUserIDKey (ID u)) ->
  faults w1 0%nat = None ->
  exists data : string,
    toJSON X u = Ok data /\
    KVGet c ("user:email:" ++ email) w1 = (Ok data, next_request w1) /\
    KVGet c ("user:id:" ++ ID u) w1 = (Ok email, next_request w1).
Proof.
  intros HR Hne F.
  destruct (Register_Ok_inv X c _ _ _ _ _ HR)
    as (h & data & _ & Hu & J & Re & Rid & Hw1).
  assert (Hemail : Email u = email) by (subst u; reflexivity).
  exists data. split; [exact J |].
  assert (Re1 : refusal w1 (getUserKey email) = None)
    by (rewrite Hw1; exact Re).
  assert (Rid1 : refusal w1 (getUserIDKey (ID u)) = None)
    by (rewrite Hw1; exact Rid).
  assert (Kemail : kv w1 !! locate w1 (getUserKey email) = Some data).
  { rewrite Hw1, <- Hemail.
    apply (saved_email_entry u data (before_save w)).
    rewrite Hemail. exact Hne. }
  assert (Kid : kv w1 !! locate w1 (getUserIDKey (ID u)) = Some email).
  { rewrite Hw1, <- Hemail. exact (saved_id_entry u data (before_save w)). }
  split.
  - exact (KVGet_hit c (getUserKey email) data w1 Re1 F Kemail).
  - exact (KVGet_hit c (getUserIDKey (ID u)) email w1 Rid1 F Kid).
Qed.

Lemma registered_layout_witness :
  fst (Register Ref.X Ref.client "a@x.com" "Pw1!2345" Ref.w0) = Ok Ref.alice /\
  fst (KVGet Ref.client "user:id:3f0c9e6a-7b1d-4c55-9a0e-2d6f1b8a4e10"
         (snd (Register Ref.X Ref.client "a@x.com" "Pw1!2345" Ref.w0)))
    = Ok "a@x.com".
Proof.
  assert (Hf : fst (Register Ref.X Ref.client "a@x.com" "Pw1!2345" Ref.w0)
               = Ok Ref.alice) by (vm_compute; reflexivity).
  pose proof (surjective_pairing
                (Register Ref.X Ref.client "a@x.com" "Pw1!2345" Ref.w0)) as E.
  rewrite Hf in E.
  set (w1 := snd (Register Ref.X Ref.client "a@x.com" "Pw1!2345" Ref.w0)) in *.
  assert (Hne : locate Ref.w0 (getUserKey "a@x.com")
                <> locate Ref.w0 (getUserIDKey (ID Ref.alice)))
    by (vm_compute; discriminate).
  assert (F : faults w1 0%nat = None) by (vm_compute; reflexivity).
  destruct (registered_layout Ref.X Ref.client _ _ _ _ _ E Hne F)
    as (data & _ & _ & HI).
  split; [exact Hf |].
  change "user:id:3f0c9e6a-7b1d-4c55-9a0e-2d6f1b8a4e10"
    with ("user:id:" ++ ID Ref.alice).
  rewrite HI. reflexivity.
Defined.

(** ** The service of [internal/auth] beside the client *)

Lemma kvGet_success_sent (c : Client) (key : string) (w : World) :
  snd (fst (kvGet c key w)) = None -> refusal w key = None.
Proof.
  intros H.
  destruct (kvGet_cases c key w) as [_ [[e He] | (body & _ & R & _)]];
    [congruence | exact R].
Qed.

Section ServiceRuns.

Variable X : Externals.
Variable s : auth.Service.

Lemma sent_clock (w : World) (key : string) : clock (sent w key) = clock w.
Proof. unfold sent. destruct (refusal w key); reflexivity. Qed.

Lemma auth_kv_Delete_clock (key : string) (w : World) :
  clock (snd (auth.kv_Delete key w)) = clock w.
Proof.
  unfold auth.kv_Delete, bind, Values_Delete.
  destruct (refusal w key) as [r|]; [reflexivity |].
  destruct (faults w 0%nat) as [[e | n e]|]; reflexivity.
Qed.

(** The fetch both [Login]s start with, seen from the read. *)
Lemma getUserByEmail_run (c : Client) (email : string) (w : World) :
  getUserByEmail X c email w =
    match snd (fst (kvGet c (getUserKey email) w)) with
    | Some _ =>
        (Err (not_found "Client.getUserByEmail"), sent w (getUserKey email))
    | None =>
        (userFromJSON X (string_of (fst (fst (kvGet c (getUserKey email) w)))),
         sent w (getUserKey email))
    end.
Proof.
  unfold getUserByEmail, bind.
  pose proof (kvGet_world c (getUserKey email) w) as Hw.
  destruct (kvGet c (getUserKey email) w) as [r w']. cbn in Hw. subst w'.
  cbn [fst snd]. destruct (snd r); reflexivity.
Qed.

Lemma auth_GetUser_run (email : string) (w : World) :
  auth.GetUser X s email w =
    let c := service_client s in
    match snd (fst (kvGet c (getUserKey email) w)) with
    | Some _ =>
        (Err (apperrors_AppError "auth.GetUser" apperrors_ErrUserNotFound
                "user not found" 404), sent w (getUserKey email))
    | None =>
        match json_Unmarshal X
                (string_of (fst (fst (kvGet c (getUserKey email) w)))) with
        | Err err =>
            (Err (apperrors_AppError "auth.GetUser" err
                    "failed to parse user data" 500),
             sent w (getUserKey email))
        | Ok user => (Ok user, sent w (getUserKey email))
        end
    end.
Proof.
  unfold auth.GetUser, auth.getUserKey.
  change ("user:email:" ++ email) with (getUserKey email).
  unfold bind at 1. rewrite (auth_kv_Get_run s). cbv zeta.
  destruct (fst (kvGet (service_client s) (getUserKey email) w))
    as [[d|] [e|]]; cbn [fst snd string_of]; try reflexivity;
    unfold auth.FromJSON; destruct (json_Unmarshal X _); reflexivity.
Qed.

Lemma auth_Login_run (email password : string) (w : World) :
  email <> "" -> password <> "" ->
  auth.Login X s (auth.mkLoginRequest email password) w =
    let c := service_client s in
    let probed := sent w (getUserKey email) in
    match snd (fst (kvGet c (getUserKey email) w)) with
    | Some _ =>
        (Err (apperrors_AppError "auth.Login" apperrors_ErrUserNotFound
                "user not found" 404), probed)
    | None =>
        match json_Unmarshal X
                (string_of (fst (fst (kvGet c (getUserKey email) w)))) with
        | Err err =>
            (Err (apperrors_AppError "auth.Login" err
                    "failed to parse user data" 500), probed)
        | Ok user =>
            match bcrypt_CompareHashAndPassword X (PasswordHash user)
                    password with
            | Some _ =>
                (Err (apperrors_AppError "auth.Login"
                        apperrors_ErrInvalidCredentials
                        "invalid credentials" 401), probed)
            | None =>
                (Ok (mkLoginResponse
                       (login_token X c (login_claims c user w))
                       (clock w 0%nat + jwtExpiry c)
                       (mkUserInfo (ID user) (Email user))),
                 next_reading (next_reading (next_reading probed)))
            end
        end
    end.
Proof.
  intros He Hp. unfold auth.Login.
  cbn [auth.login_Email auth.login_Password].
  rewrite (guard_passes _ _ He Hp).
  unfold auth.getUserKey. change ("user:email:" ++ email) with (getUserKey email).
  unfold bind at 1. rewrite (auth_kv_Get_run s). cbv zeta.
  pose proof (sent_clock w (getUserKey email)) as Hc.
  destruct (fst (kvGet (service_client s) (getUserKey email) w))
    as [[d|] [e|]]; cbn [fst snd string_of]; try reflexivity;
    unfold auth.FromJSON;
    (destruct (json_Unmarshal X _) as [user | err]; [| reflexivity]);
    (destruct (bcrypt_CompareHashAndPassword X (PasswordHash user) password);
     [reflexivity |]);
    unfold bind, time_Now; cbn [clock next_reading advance]; rewrite Hc;
    reflexivity.
Qed.

Lemma auth_ValidateToken_as_parseToken (ts : tokenString) (w : World) :
  auth.ValidateToken X s ts w =
    match parseToken X (service_client s) ts w with
    | (Ok claims, w') => (Ok claims, w')
    | (Err (AppError _ err _ _), w') =>
        (Err (apperrors_AppError "auth.ValidateToken" err "invalid token" 401),
         w')
    | (Err e, w') => (Err e, w')
    end.
Proof.
  unfold auth.ValidateToken, parseToken, ParseWithClaims, bind, ret.
  destruct (ParseUnverified ts) as [t0 | e]; [| reflexivity].
  change (auth.keyFunc s) with (keyFunc (service_client s)).
  destruct (keyFunc (service_client s) _) as [key | ke]; [| reflexivity].
  destruct (Verify X _ _ _ _); [reflexivity |].
  unfold Validate, bind, ret, time_Now.
  destruct (verifyExpiresAt _ _ && verifyNotBefore _ _); reflexivity.
Qed.

End ServiceRuns.

(** The [Login] of the service and the [Login] of a client with the same
    secret and lifetime succeed on the same inputs and worlds, and then
    return the same response (the same token, expiry and user information)
    and leave the same world. *)
Theorem service_login_agrees_with_client (X : Externals) (s : auth.Service)
    (c : Client) (email password : string) (w : World)
    (resp : LoginResponse) (w' : World) :
  jwtSecret c = auth.svc_jwtSecret s -> jwtExpiry c = auth.jwtExpiration s ->
  (Login X c email password w = (Ok resp, w') <->
   auth.Login X s (auth.mkLoginRequest email password) w = (Ok resp, w')).
Proof.
  intros Hs Hl.
  destruct (String.eqb_spec email "") as [-> | He];
    [split; intros H; discriminate H |].
  destruct (String.eqb_spec password "") as [-> | Hp].
  { unfold Login, auth.Login. cbn [auth.login_Email auth.login_Password].
    rewrite (guard_rejects email ""); [| auto].
    split; intros H; discriminate H. }
  rewrite (Login_run X c _ _ w He Hp), (auth_Login_run X s _ _ w He Hp).
  rewrite (getUserByEmail_run X c email w). cbv zeta.
  change (kvGet (service_client s) (getUserKey email) w)
    with (kvGet c (getUserKey email) w).
  destruct (snd (fst (kvGet c (getUserKey email) w)));
    cbn [fst]; [split; intros H; discriminate H |].
  unfold userFromJSON.
  destruct (json_Unmarshal X _) as [user | err];
    [| split; intros H; discriminate H].
  destruct (bcrypt_CompareHashAndPassword X (PasswordHash user) password);
    [split; intros H; discriminate H |].
  unfold login_token, login_claims, service_client.
  cbn [jwtSecret jwtExpiry]. rewrite Hs, Hl. tauto.
Qed.

Lemma service_login_agrees_with_client_witness :
  exists (resp : LoginResponse) (w' : World),
    Login Ref.X Ref.client "a@x.com" "Pw1!2345" Ref.w_registered
      = (Ok resp, w') /\
    auth.Login Ref.X (auth.NewService "s3cr3t" 24)
      (auth.mkLoginRequest "a@x.com" "Pw1!2345") Ref.w_registered
      = (Ok resp, w').
Proof.
  pose proof (reference_login Ref.client) as HL.
  eexists. eexists. split; [exact HL |].
  apply (service_login_agrees_with_client Ref.X (auth.NewService "s3cr3t" 24)
           Ref.client); [reflexivity | reflexivity | exact HL].
Defined.

Lemma auth_DeleteUser_clock (X : Externals) (s : auth.Service)
    (email : string) (w : World) :
  clock (snd (auth.DeleteUser X s email w)) = clock w.
Proof.
  unfold auth.DeleteUser. unfold bind at 1.
  pose proof (auth_GetUser_run X s email w) as HG. cbv zeta in HG.
  assert (Hc0 : clock (snd (auth.GetUser X s email w)) = clock w).
  { rewrite HG.
    destruct (snd (fst (kvGet (service_client s) (getUserKey email) w)));
      [apply sent_clock |].
    destruct (json_Unmarshal X _); apply sent_clock. }
  destruct (auth.GetUser X s email w) as [[user | err] w0]; cbn [snd] in Hc0;
    [| exact Hc0].
  unfold bind at 1.
  pose proof (auth_kv_Delete_clock (auth.getUserKey s email) w0) as Hc1.
  destruct (auth.kv_Delete (auth.getUserKey s email) w0) as [[e1|] w1];
    cbn [snd] in Hc1; [cbn; congruence |].
  unfold bind at 1.
  pose proof (auth_kv_Delete_clock (auth.getUserIDKey s (ID user)) w1) as Hc2.
  destruct (auth.kv_Delete (auth.getUserIDKey s (ID user)) w1) as [[e2|] w2];
    cbn [snd] in Hc2; cbn; congruence.
Qed.

Lemma parseToken_clock_only (X : Externals) (c : Client) (ts : tokenString)
    (w w' : World) :
  clock w 0%nat = clock w' 0%nat ->
  fst (parseToken X c ts w) = fst (parseToken X c ts w').
Proof.
  intros Hc. unfold parseToken, ParseWithClaims, bind, ret.
  destruct (ParseUnverified ts) as [t0 | e]; [| reflexivity].
  destruct (keyFunc c _) as [key | ke]; [| reflexivity].
  destruct (Verify X _ _ _ _); [reflexivity |].
  unfold Validate, bind, ret, time_Now. rewrite Hc.
  destruct (verifyExpiresAt _ _ && verifyNotBefore _ _); reflexivity.
Qed.

(** [ValidateToken] of the service never consults the store: its verdict
    is that of [parseToken] for the same secret (it accepts the same
    tokens with the same claims), and it is the same before and after a
    [DeleteUser], whatever that deletion did.  A token of a deleted user
    therefore stays valid for the service until it expires, unlike for
    the client. *)
Theorem service_validation_ignores_the_store (X : Externals)
    (s : auth.Service) (c : Client) (email : string) (ts : tokenString)
    (w : World) :
  jwtSecret c = auth.svc_jwtSecret s ->
  (forall claims : Claims,
     fst (auth.ValidateToken X s ts w) = Ok claims <->
     fst (parseToken X c ts w) = Ok claims) /\
  fst (auth.ValidateToken X s ts (snd (auth.DeleteUser X s email w))) =
    fst (auth.ValidateToken X s ts w).
Proof.
  intros Hs.
  assert (Hparse : forall w0 : World,
            parseToken X c ts w0 = parseToken X (service_client s) ts w0).
  { intros w0. unfold parseToken, ParseWithClaims.
    replace (keyFunc c) with (keyFunc (service_client s)); [reflexivity |].
    unfold keyFunc, service_client. cbn [jwtSecret]. rewrite Hs. reflexivity. }
  split.
  - intros claims. rewrite (auth_ValidateToken_as_parseToken X s ts w), Hparse.
    destruct (parseToken X (service_client s) ts w) as [[cl | e] w1];
      cbn [fst]; [tauto |].
    destruct e; split; intros H; discriminate H.
  - rewrite !auth_ValidateToken_as_parseToken.
    pose proof (parseToken_clock_only X (service_client s) ts
                  (snd (auth.DeleteUser X s email w)) w) as Hc.
    rewrite auth_DeleteUser_clock in Hc. specialize (Hc eq_refl).
    destruct (parseToken X (service_client s) ts
                (snd (auth.DeleteUser X s email w))) as [r1 w1].
    destruct (parseToken X (service_client s) ts w) as [r2 w2].
    cbn [fst] in Hc. subst r2.
    destruct r1 as [cl | e]; [reflexivity |]. destruct e; reflexivity.
Qed.

Lemma service_validation_ignores_the_store_witness :
  fst (auth.DeleteUser Ref.X (auth.NewService "s3cr3t" 24) "a@x.com"
         Ref.w_registered) = None /\
  fst (auth.ValidateToken Ref.X (auth.NewService "s3cr3t" 24)
         (Ref.signed "HS256" SHA256)
         (snd (auth.DeleteUser Ref.X (auth.NewService "s3cr3t" 24) "a@x.com"
                 Ref.w_registered)))
    = Ok Ref.alice_claims.
Proof.
  destruct (service_validation_ignores_the_store Ref.X
              (auth.NewService "s3cr3t" 24) Ref.client "a@x.com"
              (Ref.signed "HS256" SHA256) Ref.w_registered eq_refl)
    as [_ H].
  split; [vm_compute; reflexivity |].
  rewrite H. vm_compute. reflexivity.
Defined.

Lemma auth_Login_Ok_inv (X : Externals) (s : auth.Service)
    (req : auth.LoginRequest) (w : World) (resp : LoginResponse)
    (w' : World) :
  auth.Login X s req w = (Ok resp, w') ->
  exists user : User,
    resp = mkLoginResponse
             (login_token X (service_client s)
                (login_claims (service_client s) user w))
             (clock w 0%nat + auth.jwtExpiration s)
             (mkUserInfo (ID user) (Email user)) /\
    w' = after_login w.
Proof.
  destruct req as [email password]. intros H.
  destruct (String.eqb_spec email "") as [-> | He]; [discriminate H |].
  destruct (String.eqb_spec password "") as [-> | Hp].
  { unfold auth.Login in H. cbn [auth.login_Email auth.login_Password] in H.
    rewrite (guard_rejects email "") in H; [discriminate H | auto]. }
  rewrite (auth_Login_run X s _ _ w He Hp) in H. cbv zeta in H.
  destruct (snd (fst (kvGet (service_client s) (getUserKey email) w))) eqn:E;
    [discriminate H |].
  pose proof (kvGet_success_sent _ _ _ E) as R.
  destruct (json_Unmarshal X _) as [user | err]; [| discriminate H].
  destruct (bcrypt_CompareHashAndPassword X (PasswordHash user) password);
    [discriminate H |].
  rewrite (sent_sendable _ _ R) in H.
  injection H as <- <-. exists user. split; reflexivity.
Qed.

(** [NewService] gives the service the lifetime it is asked for and has no
    default: for a number of hours that is zero or negative (down to the
    smallest a duration holds) the lifetime is that number of hours, and
    every token the [Login] of the service issues is refused as expired by
    its [ValidateToken] at any clock reading not earlier than the first
    reading of [Login]. *)
Theorem service_has_no_default_lifetime (X : Externals) (secret : string)
    (hours : Z) (req : auth.LoginRequest) (w : World) (resp : LoginResponse)
    (w' : World) :
  - 2562047 <= hours <= 0 ->
  auth.Login X (auth.NewService secret hours) req w = (Ok resp, w') ->
  clock w 0%nat <= clock w 3%nat ->
  auth.jwtExpiration (auth.NewService secret hours) = hours * time_Hour /\
  exists notValidYet : bool,
    auth.ValidateToken X (auth.NewService secret hours) (resp_Token resp) w' =
      (Err (apperrors_AppError "auth.ValidateToken"
              (jwt_Error (jwt_ErrTokenInvalidClaims true notValidYet))
              "invalid token" 401),
       next_reading w').
Proof.
  intros Hh HL Hclock.
  assert (Hlife : auth.jwtExpiration (auth.NewService secret hours)
                  = hours * time_Hour).
  { cbn. apply wrap64_small. change time_Hour with 3600000000000. lia. }
  split; [exact Hlife |].
  set (s := auth.NewService secret hours) in *.
  destruct (auth_Login_Ok_inv X s _ _ _ _ HL) as (user & -> & ->).
  cbn [resp_Token]. set (c := service_client s).
  set (claims := login_claims c user w).
  assert (Hneg : jwtExpiry c <= 0).
  { unfold c, service_client. cbn [jwtExpiry]. rewrite Hlife.
    change time_Hour with 3600000000000. lia. }
  assert (Hexp : verifyExpiresAt claims (clock (after_login w) 0%nat) = false)
    by (apply login_claims_expired; assumption).
  assert (HP := parseToken_HMAC_outside_dates X c SHA256 claims
                  (after_login w)).
  rewrite Hexp in HP. specialize (HP eq_refl).
  exists (negb (verifyNotBefore claims (clock (after_login w) 0%nat))).
  rewrite auth_ValidateToken_as_parseToken. fold c.
  change (login_token X c claims)
    with (Compact (Some (Alg (SigningMethodHMAC SHA256))) claims
            (hmac_Sum X SHA256 (jwtSecret c)
               (Alg (SigningMethodHMAC SHA256), claims))).
  rewrite HP. reflexivity.
Qed.

Lemma service_has_no_default_lifetime_witness :
  exists (resp : LoginResponse) (w' : World) (e : error),
    auth.Login Ref.X (auth.NewService "s3cr3t" 0)
      (auth.mkLoginRequest "a@x.com" "Pw1!2345") Ref.w_registered
      = (Ok resp, w') /\
    fst (auth.ValidateToken Ref.X (auth.NewService "s3cr3t" 0)
           (resp_Token resp) w') = Err e.
Proof.
  assert (HL : exists resp,
             auth.Login Ref.X (auth.NewService "s3cr3t" 0)
               (auth.mkLoginRequest "a@x.com" "Pw1!2345") Ref.w_registered
             = (Ok resp, after_login Ref.w_registered)).
  { eexists. rewrite auth_Login_run by discriminate. cbv zeta.
    replace (fst (kvGet (service_client (auth.NewService "s3cr3t" 0))
                    (getUserKey "a@x.com") Ref.w_registered))
      with (Some Ref.alice_json, @None error) by (vm_compute; reflexivity).
    cbn [fst snd string_of].
    replace (json_Unmarshal Ref.X Ref.alice_json) with (Ok Ref.alice)
      by (vm_compute; reflexivity).
    replace (bcrypt_CompareHashAndPassword Ref.X (PasswordHash Ref.alice)
               "Pw1!2345") with (@None error) by (vm_compute; reflexivity).
    rewrite sent_sendable by reflexivity. reflexivity. }
  destruct HL as [resp HL].
  destruct (service_has_no_default_lifetime Ref.X "s3cr3t" 0 _ _ _ _
              ltac:(lia) HL) as [_ [nv HV]].
  { vm_compute. discriminate. }
  eexists. eexists. eexists. split; [exact HL |]. rewrite HV. reflexivity.
Defined.

(** A stored value that does not decode is reported by the service for
    what it is: its [Login] and its [GetUser] return the error of the
    decoder in a wrapper of code 500 with message "failed to parse user
    data", where the [Login] of the client reports the user as not
    found. *)
Theorem service_reports_undecodable_record (X : Externals) (s : auth.Service)
    (email password data : string) (err : error) (w : World) :
  email <> "" -> password <> "" ->
  refusal w (getUserKey email) = None ->
  faults w 0%nat = None ->
  kv w !! locate w (getUserKey email) = Some data ->
  json_Unmarshal X data = Err err ->
  auth.Login X s (auth.mkLoginRequest email password) w =
    (Err (apperrors_AppError "auth.Login" err "failed to parse user data" 500),
     next_request w) /\
  auth.GetUser X s email w =
    (Err (apperrors_AppError "auth.GetUser" err "failed to parse user data"
            500),
     next_request w).
Proof.
  intros He Hp R F K J.
  pose proof (kvGet_hit (service_client s) _ _ _ R F K) as HG.
  split.
  - rewrite (auth_Login_run X s _ _ w He Hp). cbv zeta. rewrite HG.
    cbn [fst snd string_of]. rewrite J, (sent_sendable _ _ R). reflexivity.
  - rewrite (auth_GetUser_run X s email w). cbv zeta. rewrite HG.
    cbn [fst snd string_of]. rewrite J, (sent_sendable _ _ R). reflexivity.
Qed.

Lemma service_reports_undecodable_record_witness :
  fst (auth.Login Ref.X (auth.NewService "s3cr3t" 24)
         (auth.mkLoginRequest "a@x.com" "Pw1!2345")
         (Ref.world (kv Ref.w_down) Ref.no_faults Ref.ticking Ref.draws))
  = Err (apperrors_AppError "auth.Login"
           (errors_New "unexpected end of JSON input")
           "failed to parse user data" 500).
Proof.
  destruct (service_reports_undecodable_record Ref.X
              (auth.NewService "s3cr3t" 24) "a@x.com" "Pw1!2345" "stale"
              (errors_New "unexpected end of JSON input")
              (Ref.world (kv Ref.w_down) Ref.no_faults Ref.ticking Ref.draws))
    as [HL _];
    [discriminate | discriminate | reflexivity | reflexivity
    | vm_compute; reflexivity | vm_compute; reflexivity |].
  rewrite HL. reflexivity.
Defined.

(** ** The HTTP server ([cmd/server/main.go]) *)

Lemma strings_Split_not_nil (s : string) (sep : ascii) :
  strings_Split s sep <> [].
Proof.
  destruct s as [| a r]; cbn; [discriminate |].
  destruct (Ascii.eqb a sep); [discriminate |].
  destruct (strings_Split r sep); discriminate.
Qed.

Lemma strings_Split_one (s b : string) (sep : ascii) :
  strings_Split s sep = [b] <-> s = b /\ occurs sep b = false.
Proof.
  revert b. induction s as [| a r IH]; intros b; cbn.
  - split.
    + intros H. injection H as <-. split; reflexivity.
    + intros [<- _]. reflexivity.
  - destruct (Ascii.eqb_spec a sep) as [-> | Hne].
    + split.
      * intros H. injection H as <- H.
        exfalso. exact (strings_Split_not_nil _ _ H).
      * intros [<- H]. cbn in H. rewrite Ascii.eqb_refl in H. discriminate H.
    + destruct (strings_Split r sep) as [| h t] eqn:E;
        [exfalso; exact (strings_Split_not_nil _ _ E) |].
      split.
      * intros H. injection H as <- ->.
        destruct (proj1 (IH h) eq_refl) as [-> Hocc].
        split; [reflexivity |]. cbn.
        apply Ascii.eqb_neq in Hne. rewrite Hne. exact Hocc.
      * intros [<- H]. cbn in H.
        apply Ascii.eqb_neq in Hne. rewrite Hne in H. cbn in H.
        pose proof (proj2 (IH r) (conj eq_refl H)) as H'.
        injection H' as -> ->. reflexivity.
Qed.

Lemma strings_Split_two (s a b : string) (sep : ascii) :
  strings_Split s sep = [a; b] <->
  s = a ++ String sep b /\ occurs sep a = false /\ occurs sep b = false.
Proof.
  revert a. induction s as [| x r IH]; intros a; cbn.
  - split; [intros H; discriminate H |].
    intros [H _]. destruct a; discriminate H.
  - destruct (Ascii.eqb_spec x sep) as [-> | Hne].
    + split.
      * intros H. injection H as <- H.
        apply strings_Split_one in H. destruct H as [-> Hb].
        split; [reflexivity | split; [reflexivity | exact Hb]].
      * intros (H & Ha & Hb). destruct a as [| y a'].
        -- cbn in H. injection H as ->.
           f_equal. apply strings_Split_one. split; [reflexivity | exact Hb].
        -- cbn in H, Ha. injection H as <- _.
           rewrite Ascii.eqb_refl in Ha. discriminate Ha.
    + destruct (strings_Split r sep) as [| h t] eqn:E;
        [exfalso; exact (strings_Split_not_nil _ _ E) |].
      split.
      * intros H. injection H as <- ->.
        destruct (proj1 (IH h) eq_refl) as (-> & Ha & Hb).
        split; [reflexivity | split; [| exact Hb]]. cbn.
        apply Ascii.eqb_neq in Hne. rewrite Hne. exact Ha.
      * intros (H & Ha & Hb). destruct a as [| y a'].
        -- cbn in H. injection H as -> _. contradiction.
        -- cbn in H, Ha. injection H as <- ->.
           apply orb_false_iff in Ha. destruct Ha as [_ Ha].
           pose proof (proj2 (IH a') (conj eq_refl (conj Ha Hb))) as H'.
           injection H' as -> ->. reflexivity.
Qed.

(** The shape of header the middleware lets through.  A request whose
    [Authorization] header is the word [Bearer], one space and a token
    without a space has that token validated, and the handler behind the
    middleware runs only if the token is valid.  Every other header (an
    absent one, another scheme or case, two spaces, a token with a space in
    it) is answered 401 at once: no token is validated, the clock is not
    read and the handler does not run. *)
Theorem middleware_bearer_header (X : Externals) (W : Wire) (s : Server)
    (next : Handler) (r : Request) (w : World) :
  (forall token : string,
     req_Authorization r = "Bearer " ++ token ->
     occurs " " token = false ->
     authMiddleware X W s next r w =
       bind (auth.ValidateToken X (authService s) (compact W token))
         (fun res =>
            match res with
            | Err err => handleError err
            | Ok claims =>
                next (mkRequest (req_Method r) (req_Authorization r)
                        (req_Body r)
                        (WithValue
                           (WithValue (req_Context r) "user_id"
                              (UserID claims))
                           "email" (claims_Email claims)))
            end) w) /\
  ((forall token : string,
      req_Authorization r = "Bearer " ++ token -> occurs " " token = true) ->
   exists msg : string,
     authMiddleware X W s next r w =
       (Some (mkResponse 401 (PlainText msg)), w)).
Proof.
  split.
  - intros token Hh Hocc. unfold authMiddleware. rewrite Hh.
    cbn [String.eqb append Ascii.eqb Bool.eqb]. 
    replace (strings_Split ("Bearer " ++ token) " ") with ["Bearer"; token].
    + reflexivity.
    + symmetry. apply strings_Split_two.
      split; [reflexivity | split; [reflexivity | exact Hocc]].
  - intros Hnone. unfold authMiddleware.
    destruct (String.eqb (req_Authorization r) ""); [eexists; reflexivity |].
    destruct (strings_Split (req_Authorization r) " ")
      as [| bearer [| token [| x t]]] eqn:E; try (eexists; reflexivity).
    destruct (String.eqb_spec bearer "Bearer") as [-> | Hb];
      [| eexists; reflexivity].
    exfalso. apply strings_Split_two in E. destruct E as (Hh & _ & Hocc).
    rewrite (Hnone token Hh) in Hocc. discriminate Hocc.
Qed.

Section ServerFacts.

Variable X : Externals.
Variable W : Wire.
Variable s : Server.

Lemma handleError_wrapped (op : string) (inner : error) (message : string)
    (code : Z) (w : World) :
  handleError (apperrors_AppError op inner message code) w =
    (Some (mkResponse code (ErrorJSON message)), w).
Proof. reflexivity. Qed.

Lemma auth_ValidateToken_world (ts : tokenString) (w : World) :
  snd (auth.ValidateToken X (authService s) ts w) = w \/
  snd (auth.ValidateToken X (authService s) ts w) = next_reading w.
Proof.
  rewrite auth_ValidateToken_as_parseToken.
  destruct (parseToken_world X (service_client (authService s)) ts w)
    as [H | H];
    destruct (parseToken X (service_client (authService s)) ts w)
      as [[cl | e] w1]; cbn [snd] in *; subst w1;
    try destruct e; auto.
Qed.

Lemma auth_GetUserByID_miss (userID : string) (w : World) :
  refusal w (getUserIDKey userID) = None ->
  kv w !! locate w (getUserIDKey userID) = None ->
  auth.GetUserByID X (authService s) userID w =
    (Err (apperrors_AppError "auth.GetUserByID" apperrors_ErrUserNotFound
            "user not found" 404), next_request w).
Proof.
  intros R K. unfold auth.GetUserByID, auth.getUserIDKey.
  change ("user:id:" ++ userID) with (getUserIDKey userID).
  unfold bind at 1. rewrite (auth_kv_Get_run (authService s)).
  destruct (kvGet_absent (service_client (authService s)) _ _ K) as [e He].
  rewrite He, (sent_sendable _ _ R). reflexivity.
Qed.

Lemma auth_GetUserByID_hit (userID email data : string) (user : User)
    (w : World) :
  refusal w (getUserIDKey userID) = None ->
  refusal w (getUserKey email) = None ->
  faults w 0%nat = None -> faults w 1%nat = None ->
  kv w !! locate w (getUserIDKey userID) = Some email ->
  kv w !! locate w (getUserKey email) = Some data ->
  json_Unmarshal X data = Ok user ->
  auth.GetUserByID X (authService s) userID w =
    (Ok user, next_request (next_request w)).
Proof.
  intros Rid Re F0 F1 Kid K J. unfold auth.GetUserByID, auth.getUserIDKey.
  change ("user:id:" ++ userID) with (getUserIDKey userID).
  unfold bind at 1. rewrite (auth_kv_Get_run (authService s)).
  rewrite (kvGet_hit (service_client (authService s)) _ _ _ Rid F0 Kid).
  rewrite (sent_sendable _ _ Rid). cbn [fst snd string_of].
  rewrite (auth_GetUser_run X (authService s) email (next_request w)).
  cbv zeta.
  rewrite (kvGet_hit (service_client (authService s)) (getUserKey email) data
             (next_request w) Re F1 K).
  cbn [fst snd string_of]. rewrite J.
  rewrite (sent_sendable (next_request w) (getUserKey email) Re). reflexivity.
Qed.

End ServerFacts.

(** The route [/user] behind the middleware.  For a [GET] request with a
    bearer token that the service validates, the answer depends on the
    store alone: when the identifier key of the user of the token leads to
    no entry (a deleted user, whose token the middleware still lets through)
    the answer is 404 "user not found"; when both entries are there and the
    record decodes, it is 200 with the identifier and the email of the
    record, and nothing else of it. *)
Theorem user_route_answers (X : Externals) (W : Wire) (s : Server)
    (r : Request) (token : string) (claims : Claims) (w w1 : World) :
  req_Method r = "GET" ->
  req_Authorization r = "Bearer " ++ token -> occurs " " token = false ->
  auth.ValidateToken X (authService s) (compact W token) w = (Ok claims, w1) ->
  (refusal w (getUserIDKey (UserID claims)) = None ->
   kv w !! locate w (getUserIDKey (UserID claims)) = None ->
   route_user X W s r w =
     (Some (mkResponse 404 (ErrorJSON "user not found")), next_request w1)) /\
  (forall (email data : string) (user : User),
     refusal w (getUserIDKey (UserID claims)) = None ->
     refusal w (getUserKey email) = None ->
     faults w 0%nat = None -> faults w 1%nat = None ->
     kv w !! locate w (getUserIDKey (UserID claims)) = Some email ->
     kv w !! locate w (getUserKey email) = Some data ->
     json_Unmarshal X data = Ok user ->
     route_user X W s r w =
       (Some (mkResponse 200 (UserInfoJSON (mkUserInfo (ID user) (Email user)))),
        next_request (next_request w1))).
Proof.
  intros Hm Hh Hocc HV.
  assert (Hrun : route_user X W s r w =
                 handleGetUser X s
                   (mkRequest (req_Method r) (req_Authorization r) (req_Body r)
                      (WithValue (WithValue (req_Context r) "user_id"
                                    (UserID claims))
                         "email" (claims_Email claims))) w1).
  { unfold route_user, authMiddleware. rewrite Hh.
    cbn [String.eqb append Ascii.eqb Bool.eqb].
    replace (strings_Split ("Bearer " ++ token) " ") with ["Bearer"; token].
    - cbv beta. change (String.eqb ("Bearer " ++ token) "") with false.
      cbv iota. change (negb (String.eqb "Bearer" "Bearer")) with false.
      cbv iota. rewrite (bind_eq _ _ _ _ _ HV). reflexivity.
    - symmetry. apply strings_Split_two.
      split; [reflexivity | split; [reflexivity | exact Hocc]]. }
  assert (Hw1 : kv w1 = kv w /\ faults w1 = faults w /\
                locate w1 = locate w /\ unsendable w1 = unsendable w).
  { pose proof (auth_ValidateToken_world X s (compact W token) w) as Hw.
    rewrite HV in Hw. cbn [snd] in Hw. destruct Hw as [-> | ->]; auto. }
  destruct Hw1 as (Hkv & Hf & Hl & Hu).
  assert (Hr : forall key : string, refusal w1 key = refusal w key)
    by (intros key; unfold refusal; rewrite Hu; reflexivity).
  assert (Hget : handleGetUser X s
                   (mkRequest (req_Method r) (req_Authorization r) (req_Body r)
                      (WithValue (WithValue (req_Context r) "user_id"
                                    (UserID claims))
                         "email" (claims_Email claims))) w1 =
                 bind (auth.GetUserByID X (authService s) (UserID claims))
                   (fun res =>
                      match res with
                      | Err err => handleError err
                      | Ok user =>
                          respondJSON 200 (UserInfoJSON (auth.ToUserInfo user))
                      end) w1).
  { unfold handleGetUser. cbn [req_Method req_Context]. rewrite Hm.
    reflexivity. }
  split.
  - intros R K. rewrite Hrun, Hget.
    erewrite bind_eq;
      [| apply auth_GetUserByID_miss; rewrite ?Hr, ?Hkv, ?Hl; assumption].
    reflexivity.
  - intros email data user Rid Re F0 F1 Kid K J. rewrite Hrun, Hget.
    erewrite bind_eq;
      [| apply (auth_GetUserByID_hit X s _ email data user);
         rewrite ?Hr, ?Hkv, ?Hf, ?Hl; assumption].
    reflexivity.
Qed.

Lemma user_route_answers_witness :
  let r := mkRequest "GET"
             "Bearer eyJhbGciOiJIUzI1NiJ9.eyJ1c2VyX2lkIjoiMSJ9.c2ln" "" [] in
  let W := mkWire (fun _ => Err (errors_New "EOF"))
             (fun _ => Err (errors_New "EOF"))
             (fun _ => Err (errors_New "EOF"))
             (fun _ => Ref.signed "HS256" SHA256) in
  let s := mkServer (auth.NewService "s3cr3t" 24) in
  fst (route_user Ref.X W s r Ref.w_registered) =
    Some (mkResponse 200
            (UserInfoJSON (mkUserInfo (ID Ref.alice) "a@x.com"))) /\
  fst (route_user Ref.X W s r
         Ref.w0) =
    Some (mkResponse 404 (ErrorJSON "user not found")).
Proof.
  intros r W s.
  assert (HV : forall w : World,
            clock w 0%nat = Ref.ticking 0%nat ->
            auth.ValidateToken Ref.X (authService s)
              (compact W "eyJhbGciOiJIUzI1NiJ9.eyJ1c2VyX2lkIjoiMSJ9.c2ln") w
            = (Ok Ref.alice_claims, next_reading w)).
  { intros w Hc. rewrite auth_ValidateToken_as_parseToken.
    cbn [compact W].
    rewrite (parseToken_HMAC Ref.X (service_client (authService s)) SHA256
               Ref.alice_claims); [reflexivity | |]; rewrite Hc;
      vm_compute; reflexivity. }
  split.
  - destruct (user_route_answers Ref.X W s r _ _ _ _ eq_refl eq_refl eq_refl
                (HV Ref.w_registered eq_refl)) as [_ H].
    rewrite (H "a@x.com" Ref.alice_json Ref.alice);
      [reflexivity | reflexivity | reflexivity | reflexivity | reflexivity
      | vm_compute; reflexivity | vm_compute; reflexivity
      | vm_compute; reflexivity].
  - destruct (user_route_answers Ref.X W s r _ _ _ _ eq_refl eq_refl eq_refl
                (HV Ref.w0 eq_refl))
      as [H _].
    rewrite H; [reflexivity | reflexivity | vm_compute; reflexivity].
Defined.

Ltac wrapped :=
  intros H; injection H as <-;
  do 4 eexists; split; [reflexivity | cbn; tauto].

Section ServiceErrors.

Variable X : Externals.
Variable s : auth.Service.

Lemma auth_Register_error_codes (req : auth.RegisterRequest) (w : World)
    (e : error) :
  fst (auth.Register X s req w) = Err e -> wrapped_with [400; 409; 500] e.
Proof.
  unfold auth.Register, wrapped_with.
  destruct (String.eqb (auth.req_Email req) ""
            || String.eqb (auth.req_Password req) ""); [wrapped |].
  unfold bind at 1.
  destruct (auth.kv_Get (auth.getUserKey s (auth.req_Email req)) w)
    as [[[d|] e0] w0]; cbn [fst]; [wrapped |].
  unfold bind at 1, rand_Read at 1.
  destruct (bcrypt_GenerateFromPassword X _ _ _); [| wrapped].
  unfold bind at 1, time_Now at 1. unfold bind at 1, uuid_New, rand_Read at 1.
  destruct (json_Marshal X _); [| wrapped].
  unfold bind at 1.
  match goal with
  | |- context [auth.kv_Set ?k ?v ?w1] =>
      destruct (auth.kv_Set k v w1) as [[e1|] w2]
  end; [wrapped |].
  unfold bind at 1.
  match goal with
  | |- context [auth.kv_Set ?k ?v ?w1] =>
      destruct (auth.kv_Set k v w1) as [[e2|] w3]
  end; [wrapped |].
  intros H. discriminate H.
Qed.

Lemma auth_Login_error_codes (req : auth.LoginRequest) (w : World)
    (e : error) :
  fst (auth.Login X s req w) = Err e -> wrapped_with [400; 401; 404; 500] e.
Proof.
  unfold auth.Login, wrapped_with.
  destruct (String.eqb (auth.login_Email req) ""
            || String.eqb (auth.login_Password req) ""); [wrapped |].
  unfold bind at 1.
  destruct (auth.kv_Get (auth.getUserKey s (auth.login_Email req)) w)
    as [[d [e0|]] w0]; cbn [fst snd]; [wrapped |].
  destruct (auth.FromJSON X _); [| wrapped].
  destruct (bcrypt_CompareHashAndPassword X _ _); [wrapped |].
  intros H. discriminate H.
Qed.

Lemma auth_ValidateToken_error_codes (ts : tokenString) (w : World)
    (e : error) :
  fst (auth.ValidateToken X s ts w) = Err e -> wrapped_with [401] e.
Proof.
  rewrite auth_ValidateToken_as_parseToken. unfold wrapped_with.
  pose proof (parseToken_error_shape X (service_client s) ts w) as Hshape.
  destruct (parseToken X (service_client s) ts w) as [[cl | pe] w1];
    cbn [fst] in *; [intros H; discriminate H |].
  destruct (Hshape pe eq_refl) as [je ->]. wrapped.
Qed.

End ServiceErrors.

Lemma handleError_status (codes : list Z) (e : error) (w : World) :
  wrapped_with codes e ->
  exists resp : Response,
    handleError e w = (Some resp, w) /\ In (Status resp) codes.
Proof.
  intros (op & inner & message & code & -> & Hin).
  eexists. split; [reflexivity | exact Hin].
Qed.

(** The three [POST] endpoints always answer and never panic.  To any
    method other than [POST] they answer 405 without touching the world.
    Otherwise the status of [/register] is one of 201, 400, 409 and 500,
    that of [/login] one of 200, 400, 401, 404 and 500, and that of
    [/validate] one of 200, 400 and 401: every error of the service is one
    of its wrappers, whose code becomes the status, so the fall-back answer
    of [handleError] is never given. *)
Theorem post_endpoints_statuses (X : Externals) (W : Wire) (s : Server)
    (r : Request) (w : World) :
  (req_Method r <> "POST" ->
   handleRegister X W s r w =
     (Some (mkResponse 405 (PlainText "Method not allowed")), w) /\
   handleLogin X W s r w =
     (Some (mkResponse 405 (PlainText "Method not allowed")), w) /\
   handleValidate X W s r w =
     (Some (mkResponse 405 (PlainText "Method not allowed")), w)) /\
  (req_Method r = "POST" ->
   (exists resp : Response,
      fst (handleRegister X W s r w) = Some resp /\
      In (Status resp) [201; 400; 409; 500]) /\
   (exists resp : Response,
      fst (handleLogin X W s r w) = Some resp /\
      In (Status resp) [200; 400; 401; 404; 500]) /\
   (exists resp : Response,
      fst (handleValidate X W s r w) = Some resp /\
      In (Status resp) [200; 400; 401])).
Proof.
  split.
  - intros Hm. apply String.eqb_neq in Hm.
    unfold handleRegister, handleLogin, handleValidate. rewrite Hm.
    repeat split.
  - intros Hm. unfold handleRegister, handleLogin, handleValidate.
    rewrite Hm. cbn [String.eqb Ascii.eqb Bool.eqb negb].
    split; [| split].
    + destruct (decode_RegisterRequest W (req_Body r)) as [req | de].
      * unfold bind.
        pose proof (auth_Register_error_codes X (authService s) req w) as He.
        destruct (auth.Register X (authService s) req w) as [[user | e] w1];
          cbn [fst] in He.
        -- eexists. split; [reflexivity | cbn; tauto].
        -- destruct (handleError_status _ e w1 (He e eq_refl))
             as (resp & -> & Hin).
           exists resp. split; [reflexivity | cbn in *; tauto].
      * eexists. split; [reflexivity | cbn; tauto].
    + destruct (decode_LoginRequest W (req_Body r)) as [req | de].
      * unfold bind.
        pose proof (auth_Login_error_codes X (authService s) req w) as He.
        destruct (auth.Login X (authService s) req w) as [[resp0 | e] w1];
          cbn [fst] in He.
        -- eexists. split; [reflexivity | cbn; tauto].
        -- destruct (handleError_status _ e w1 (He e eq_refl))
             as (resp & -> & Hin).
           exists resp. split; [reflexivity | cbn in *; tauto].
      * eexists. split; [reflexivity | cbn; tauto].
    + destruct (decode_TokenRequest W (req_Body r)) as [token | de].
      * unfold bind.
        pose proof (auth_ValidateToken_error_codes X (authService s)
                      (compact W token) w) as He.
        destruct (auth.ValidateToken X (authService s) (compact W token) w)
          as [[claims | e] w1]; cbn [fst] in He.
        -- eexists. split; [reflexivity | cbn; tauto].
        -- destruct (handleError_status _ e w1 (He e eq_refl))
             as (resp & -> & Hin).
           exists resp. split; [reflexivity | cbn in *; tauto].
      * eexists. split; [reflexivity | cbn; tauto].
Qed.

(** ** Configuration of the server ([internal/config]) *)

(** [LoadConfig] accepts an environment exactly when the account, the
    namespace and the secret are set and either the API token or both the
    API key and the email are.  The token lifetime of an accepted
    configuration is 24 hours whatever the environment says, so that the
    service [main] builds from it has a lifetime of 24 hours and a
    non-empty secret; its port is the variable [SERVER_PORT], or 8080 when
    that is not set. *)
Theorem LoadConfig_accepts_iff (env : Env) :
  ((exists cfg : Config, LoadConfig env = Ok cfg) <->
   (env "CLOUDFLARE_ACCOUNT_ID" <> "" /\ env "CLOUDFLARE_NAMESPACE_ID" <> "" /\
    env "JWT_SECRET" <> "" /\
    (env "CLOUDFLARE_API_TOKEN" <> "" \/
     (env "CLOUDFLARE_API_KEY" <> "" /\ env "CLOUDFLARE_EMAIL" <> "")))) /\
  (forall cfg : Config,
     LoadConfig env = Ok cfg ->
     JWTExpiration cfg = 24 /\
     ServerPort cfg <> "" /\
     (env "SERVER_PORT" = "" -> ServerPort cfg = "8080") /\
     (env "SERVER_PORT" <> "" -> ServerPort cfg = env "SERVER_PORT") /\
     auth.jwtExpiration
       (auth.NewService (cfg_JWTSecret cfg) (JWTExpiration cfg))
       = 24 * time_Hour /\
     auth.svc_jwtSecret
       (auth.NewService (cfg_JWTSecret cfg) (JWTExpiration cfg)) <> "").
Proof.
  unfold LoadConfig, config_Validate, getEnvOrDefault.
  cbn [CloudflareAPIKey CloudflareEmail CloudflareAPIToken cfg_AccountID
       cfg_NamespaceID cfg_JWTSecret JWTExpiration ServerPort].
  assert (Hport : (if negb (String.eqb (env "SERVER_PORT") "")
                   then env "SERVER_PORT" else "8080") <> "").
  { destruct (String.eqb_spec (env "SERVER_PORT") "") as [Hp | Hp]; cbn;
      [discriminate | exact Hp]. }
  destruct (String.eqb_spec (env "CLOUDFLARE_API_TOKEN") "") as [Ht | Ht];
    destruct (String.eqb_spec (env "CLOUDFLARE_API_KEY") "") as [Hk | Hk];
    destruct (String.eqb_spec (env "CLOUDFLARE_EMAIL") "") as [He | He];
    cbn [andb orb];
    try (split; [split; [intros [cfg H]; discriminate H | tauto]
                | intros cfg H; discriminate H]);
    (destruct (String.eqb_spec (env "CLOUDFLARE_ACCOUNT_ID") "") as [Ha | Ha];
       [split; [split; [intros [cfg H]; discriminate H | tauto]
               | intros cfg H; discriminate H] |];
     destruct (String.eqb_spec (env "CLOUDFLARE_NAMESPACE_ID") "") as [Hn | Hn];
       [split; [split; [intros [cfg H]; discriminate H | tauto]
               | intros cfg H; discriminate H] |];
     destruct (String.eqb_spec (env "JWT_SECRET") "") as [Hs | Hs];
       [split; [split; [intros [cfg H]; discriminate H | tauto]
               | intros cfg H; discriminate H] |];
     split;
     [ split; [intros _; tauto | intros _; eexists; reflexivity]
     | intros cfg H; injection H as <-;
       cbn [CloudflareAPIKey CloudflareEmail CloudflareAPIToken cfg_AccountID
            cfg_NamespaceID cfg_JWTSecret JWTExpiration ServerPort];
       split; [reflexivity |]; split; [exact Hport |];
       split; [intros Hp; rewrite Hp; reflexivity |];
       split; [intros Hp; apply String.eqb_neq in Hp; rewrite Hp; reflexivity |];
       split; [reflexivity | exact Hs] ]).
Qed.
